(** * The package-import core of the dist-git service

    A shallow embedding of [dist_git/package_import.py] and the properties
    of its upload shim, branch synchroniser, repository provisioner and
    import coordinator.

    The program is a sequence of calls into the operating system, git and
    the rpkg library.  Every such call is a primitive operation [op]; the
    outside world is a deterministic handler over an arbitrary state, and a
    run of the program records each call with its answer in a trace.
    Python exceptions are an error result threaded through a small
    state-and-error monad. *)

From stdpp Require Import base option list strings gmap sets.
From Stdlib Require Import ZArith Ascii String DecimalString.

Local Open Scope Z_scope.
Local Open Scope string_scope.
Local Open Scope list_scope.

(** ** Python values and exceptions *)

(** The dynamically typed values that flow between the program and the
    libraries it calls.  [VInfo] is the record returned by
    [helpers.get_pkg_info] (fields [name] and [envr]). *)
Inductive value :=
| VNone
| VBool (b : bool)
| VInt (z : Z)
| VStr (s : string)
| VInfo (name envr : string).

Coercion VStr : string >-> value.

(** Python truthiness, as used by [if x] and [if not x]. *)
Definition truthy (v : value) : bool :=
  match v with
  | VNone => false
  | VBool b => b
  | VInt z => negb (Z.eqb z 0)
  | VStr s => negb (String.eqb s "")
  | VInfo _ _ => true
  end.

(** Python [==] on these values ([True == 1] holds in Python). *)
Definition py_eq (a b : value) : bool :=
  match a, b with
  | VNone, VNone => true
  | VBool x, VBool y => Bool.eqb x y
  | VInt x, VInt y => Z.eqb x y
  | VBool x, VInt y | VInt y, VBool x => Z.eqb (if x then 1 else 0) y
  | VStr x, VStr y => String.eqb x y
  | VInfo n e, VInfo n' e' => String.eqb n n' && String.eqb e e'
  | _, _ => false
  end.

(** The exception classes the program raises, catches or lets through.
    Exceptions raised by a library carry the text [str(e)] gives. *)
Inductive exn :=
| PackageImportException (arg : value)
| CalledProcessError (returncode output : value) (text : string)
| rpkgError (text : string)
| OSError (text : string)
| KeyError (text : string)
| AttributeError (text : string)
| StopIteration
| OtherException (text : string)
| KeyboardInterrupt.

(** [isinstance(e, Exception)]: everything but [KeyboardInterrupt], which
    derives from [BaseException] only. *)
Definition is_Exception (e : exn) : bool :=
  match e with
  | KeyboardInterrupt => false
  | _ => true
  end.

Definition is_rpkgError (e : exn) : bool :=
  match e with rpkgError _ => true | _ => false end.

Definition is_OSError (e : exn) : bool :=
  match e with OSError _ => true | _ => false end.

Definition is_CalledProcessError (e : exn) : bool :=
  match e with CalledProcessError _ _ _ => true | _ => false end.

Definition py_str (v : value) : string :=
  match v with
  | VNone => "None"
  | VBool true => "True"
  | VBool false => "False"
  | VInt z => NilZero.string_of_int (Z.to_int z)
  | VStr s => s
  | VInfo n e => "Munch(" ++ n ++ ", " ++ e ++ ")"
  end.

(** [str(e)]. *)
Definition exn_str (e : exn) : string :=
  match e with
  | PackageImportException arg => py_str arg
  | CalledProcessError _ _ t => t
  | rpkgError t | OSError t | KeyError t | AttributeError t
  | OtherException t => t
  | StopIteration | KeyboardInterrupt => ""
  end.

(** ** posixpath *)

Module posixpath.

Definition slash : ascii := "/"%char.

Definition is_slash (c : ascii) : bool := Ascii.eqb c slash.

(** Split at the last slash: [Some (p[:i], p[i:])] with
    [i = p.rfind('/') + 1], [None] when [p] has no slash. *)
Fixpoint rsplit (p : string) : option (string * string) :=
  match p with
  | EmptyString => None
  | String c r =>
      match rsplit r with
      | Some (h, t) => Some (String c h, t)
      | None => if is_slash c then Some (String c EmptyString, r) else None
      end
  end.

Fixpoint all_slashes (s : string) : bool :=
  match s with
  | EmptyString => true
  | String c r => is_slash c && all_slashes r
  end.

(** [s.rstrip('/')] *)
Fixpoint rstrip (s : string) : string :=
  match s with
  | EmptyString => EmptyString
  | String c r =>
      match rstrip r with
      | EmptyString => if is_slash c then EmptyString else String c EmptyString
      | r' => String c r'
      end
  end.

Definition basename (p : string) : string :=
  match rsplit p with
  | Some (_, t) => t
  | None => p
  end.

Definition dirname (p : string) : string :=
  match rsplit p with
  | Some (h, _) => if all_slashes h then h else rstrip h
  | None => EmptyString
  end.

Definition startswith_slash (s : string) : bool :=
  match s with
  | String c _ => is_slash c
  | EmptyString => false
  end.

Fixpoint endswith_slash (s : string) : bool :=
  match s with
  | EmptyString => false
  | String c EmptyString => is_slash c
  | String _ r => endswith_slash r
  end.

(** One step of [os.path.join]: an absolute component restarts the
    path. *)
Definition join2 (path b : string) : string :=
  if startswith_slash b then b
  else if String.eqb path "" || endswith_slash path then path ++ b
  else path ++ "/" ++ b.

Definition join (a : string) (ps : list string) : string :=
  fold_left join2 ps a.

End posixpath.

(** ** Primitive operations *)

(** Every call that leaves the program.  The arguments are the ones the
    source passes. *)
Inductive op :=
(* multiprocessing.Lock *)
| LockAcquire (timeout : Z)
| LockRelease
(* helpers *)
| GetPkgInfo (spec_path : string)
| RunCmd (argv : list value)
(* subprocess *)
| SubprocessCall (argv : list value)
| SubprocessCheckCall (argv : list value)
| SubprocessCheckOutput (argv : list value) (stderr_to_stdout : bool)
(* tempfile, os, shutil, grp *)
| Mkdtemp
| OsGetcwd
| OsChdir (path : value)
| ShutilRmtree (path : value)
| ShutilCopy (src dst : value)
| ShutilCopytree (src dst : value)
| ShutilCopyfile (src dst : string)
| OsPathIsfile (path : string)
| OsPathIsdir (path : string)
| OsPathExists (path : string)
| OsMakedirs (path : string)
| OsGetgid
| GrpGetgrnamGid (name : string)
| OsSetgid (gid : value)
(* pyrpkg.Commands *)
| RpkgCommands (path : value) (gitbaseurl : string)
| RpkgSetModuleName (reponame : string)
| RpkgSetUpload (repo_dir : value)
| RpkgClone (reponame : string) (target : value)
| RpkgSwitchBranch (branch : string)
| RpkgIndexAdd (paths : list string)
| RpkgUpload (paths : list string) (replace : bool)
| RpkgCommit (message : string)
| RpkgPush
| RpkgLoadCommit
| RpkgCommithash.

(** What a call does: return a value or raise. *)
Inductive answer :=
| Ret (v : value)
| Exc (e : exn).

Inductive level := LDebug | LInfo | LError | LException.

(** One entry of a run's trace: a call with its answer, or a log record
    (message template and the values formatted into it). *)
Inductive event :=
| EvCall (o : op) (a : answer)
| EvLog (lvl : level) (template : string) (args : list value).

Inductive result (A : Type) :=
| Ok (a : A)
| Raise (e : exn).
Arguments Ok {A} a.
Arguments Raise {A} e.

(** ** The dict [branch_commits]

    A Python dict iterates in insertion order and assigning to an existing
    key keeps its position. *)
Module dict.

Definition t := list (string * value).

Definition keys (d : t) : list string := map fst d.

Fixpoint get (k : string) (d : t) : option value :=
  match d with
  | [] => None
  | (k', v) :: r => if String.eqb k k' then Some v else get k r
  end.

(** [d[k] = v] *)
Fixpoint set (k : string) (v : value) (d : t) : t :=
  match d with
  | [] => [(k, v)]
  | (k', v') :: r =>
      if String.eqb k k' then (k', v) :: r else (k', v') :: set k v r
  end.

(** [bool(d)] *)
Definition nonempty (d : t) : bool :=
  match d with [] => false | _ => true end.

End dict.

(** ** Configuration and input records *)

Record Opts := {
  lookaside_location : string;
  git_base_url : string;
  git_user_name : string;
  git_user_email : string;
  cgit_pkg_list_location : string;
}.

Record PackageContent := {
  spec_path : string;
  extra_content : list string;
  source_paths : list string;
}.

(** The [Munch] that [import_package] returns. *)
Record ImportResult := {
  pkg_info : value;
  branch_commits : dict.t;
  reponame : string;
}.

(** ** The monad of the program

    A computation takes the world (the state of everything outside the
    program, and the trace so far) to a result and a new world. *)

Section Program.

Variable E : Type.
Variable handle : op -> E -> answer * E.

Record World := MkWorld { env : E; trace : list event }.

Definition M (A : Type) : Type := World -> result A * World.

Definition ret {A} (a : A) : M A := fun w => (Ok a, w).

Definition raise {A} (e : exn) : M A := fun w => (Raise e, w).

Definition bind {A B} (c : M A) (k : A -> M B) : M B :=
  fun w =>
    match c w with
    | (Ok a, w') => k a w'
    | (Raise e, w') => (Raise e, w')
    end.

(** [try: c  except <catches> as e: h e] *)
Definition try_except {A} (c : M A) (catches : exn -> bool) (h : exn -> M A)
  : M A :=
  fun w =>
    match c w with
    | (Ok a, w') => (Ok a, w')
    | (Raise e, w') => if catches e then h e w' else (Raise e, w')
    end.

(** A call: the handler answers, the trace records call and answer. *)
Definition call (o : op) : M value :=
  fun w =>
    let (a, e') := handle o (env w) in
    let w' := {| env := e'; trace := trace w ++ [EvCall o a] |} in
    match a with
    | Ret v => (Ok v, w')
    | Exc x => (Raise x, w')
    end.

Definition log (lvl : level) (template : string) (args : list value) : M unit :=
  fun w => (Ok tt, {| env := env w; trace := trace w ++ [EvLog lvl template args] |}).

Declare Scope py_scope.
Delimit Scope py_scope with py.
Bind Scope py_scope with M.

Notation "x <- c ;; k" := (bind c (fun x => k))
  (at level 100, c at next level, right associativity) : py_scope.
Notation "c ;; k" := (bind c (fun _ => k))
  (at level 100, right associativity) : py_scope.

Local Open Scope py_scope.

(** ** [my_upload_fabric(opts)]: the upload shim

    [import_package] installs the function as [lookasidecache.upload]
    ([RpkgSetUpload]); rpkg calls it from [commands.upload] with the
    repository name, the path of a source file and the hash of its
    content. *)

Definition lookaside_destination (opts : Opts) (reponame abs_filename filehash : string)
  : string :=
  let filename := posixpath.basename abs_filename in
  posixpath.join (lookaside_location opts) [reponame; filename; filehash; filename].

Definition my_upload (opts : Opts) (repo_dir : value)
    (reponame abs_filename filehash : string) : M unit :=
  let destination := lookaside_destination opts reponame abs_filename filehash in
  (* hack to allow "uploading" into lookaside *)
  current_gid <- call OsGetgid ;;
  apache_gid <- call (GrpGetgrnamGid "apache") ;;
  call (OsSetgid apache_gid) ;;
  isdir <- call (OsPathIsdir (posixpath.dirname destination)) ;;
  (if negb (truthy isdir) then
     try_except
       (call (OsMakedirs (posixpath.dirname destination)) ;; ret tt)
       is_OSError
       (fun e => log LException "{}" [VStr (exn_str e)])
   else ret tt) ;;
  present <- call (OsPathExists destination) ;;
  (if negb (truthy present) then
     call (ShutilCopyfile abs_filename destination) ;; ret tt
   else ret tt) ;;
  call (OsSetgid current_gid) ;;
  ret tt.

(** ** [sync_branch] *)

Definition git_merge_ff (branch : string) : op :=
  SubprocessCall [VStr "git"; VStr "merge"; VStr branch; VStr "--ff-only"].

Definition git_read_tree (branch : string) : op :=
  SubprocessCheckCall [VStr "git"; VStr "read-tree"; VStr "-m"; VStr "-u"; VStr branch].

Definition git_show_date (branch : string) : op :=
  SubprocessCheckOutput
    [VStr "git"; VStr "show"; VStr branch; VStr "-q"; VStr "--format=%ai"] false.

Definition git_diff_cached : op :=
  SubprocessCall [VStr "git"; VStr "diff"; VStr "--cached"; VStr "--exit-code"].

Definition git_commit (message : string) (date : value) : op :=
  SubprocessCheckCall
    [VStr "git"; VStr "commit"; VStr "--no-verify"; VStr "-m"; VStr message;
     VStr "--date"; date].

(** The [for branch in branch_commits] loop; [true] stands for its
    [return]. *)
Fixpoint try_fast_forward (new_branch : string) (candidates : list string)
  : M bool :=
  match candidates with
  | [] => ret false
  | branch :: rest =>
      rc <- call (git_merge_ff branch) ;;
      if negb (truthy rc) then
        log LDebug "merged '{0}' fast forward into '{1}' or noop"
          [VStr branch; VStr new_branch] ;;
        ret true
      else try_fast_forward new_branch rest
  end.

(** [next(iter(branch_commits))] *)
Definition first_key (d : dict.t) : M string :=
  match dict.keys d with
  | [] => raise StopIteration
  | k :: _ => ret k
  end.

Definition sync_branch (new_branch : string) (branch_commits : dict.t)
    (message : string) : M unit :=
  merged <- try_fast_forward new_branch (dict.keys branch_commits) ;;
  if merged : bool then ret tt
  else
    (* No --fast-forward merge possible -> reset to the first available one. *)
    branch <- first_key branch_commits ;;
    log LDebug "resetting branch '{0}' to contents of '{1}'"
      [VStr new_branch; VStr branch] ;;
    call (git_read_tree branch) ;;
    date <- call (git_show_date branch) ;;
    changed <- call git_diff_cached ;;
    if truthy changed then
      call (git_commit message date) ;; ret tt
    else
      log LDebug "nothing to commit into branch '{0}'" [VStr new_branch].

(** ** [refresh_cgit_listing] *)

(** The log record keeps [e.returncode] and [e.output]; the command line is
    a constant of the function. *)
Definition log_called_process_error (e : exn) : M unit :=
  match e with
  | CalledProcessError rc out _ => log LError "cmd: {}, rc: {}, msg: {}" [rc; out]
  | _ => ret tt
  end.

Definition refresh_cgit_listing (opts : Opts) : M unit :=
  try_except
    (call (SubprocessCheckOutput
             [VStr "/usr/share/copr/dist_git/bin/cgit_pkg_list";
              VStr (cgit_pkg_list_location opts)] true) ;;
     ret tt)
    is_CalledProcessError
    log_called_process_error.

(** ** [setup_git_repo] *)

Definition setup_git_package_cmd (reponame : string) : op :=
  SubprocessCheckOutput
    [VStr "/usr/share/dist-git/setup_git_package"; VStr reponame] true.

Definition mkbranch_cmd (branch reponame : string) : op :=
  SubprocessCheckOutput
    [VStr "/usr/share/dist-git/mkbranch"; VStr branch; VStr reponame] true.

(** The [except subprocess.CalledProcessError as e] arm, the same for the
    repository and for each branch but for the text of the info record. *)
Definition tolerate_exists (already : string) (e : exn) : M unit :=
  match e with
  | CalledProcessError rc out _ =>
      log LError "cmd: {}, rc: {}, msg: {}" [rc; out] ;;
      if py_eq rc (VInt 128) then log LInfo already []
      else raise (PackageImportException out)
  | _ => ret tt
  end.

Fixpoint setup_branches (reponame : string) (branches : list string) : M unit :=
  match branches with
  | [] => ret tt
  | branch :: rest =>
      try_except
        (call (mkbranch_cmd branch reponame) ;; ret tt)
        is_CalledProcessError
        (tolerate_exists "Branch already exists...continuing") ;;
      setup_branches reponame rest
  end.

Definition setup_git_repo (reponame : string) (branches : list string) : M unit :=
  log LInfo "make sure repos exist: {}" [VStr reponame] ;;
  try_except
    (call (setup_git_package_cmd reponame) ;; ret tt)
    is_CalledProcessError
    (tolerate_exists "Package already exists...continuing") ;;
  setup_branches reponame branches.

(** ** [import_package] *)

(** [pkg_info.name] and [pkg_info.envr] *)
Definition attr_name (v : value) : M string :=
  match v with
  | VInfo n _ => ret n
  | _ => raise (AttributeError "name")
  end.

Definition attr_envr (v : value) : M string :=
  match v with
  | VInfo _ e => ret e
  | _ => raise (AttributeError "envr")
  end.

(** The locals of [import_package] that the branch loop and the final
    lines read. *)
Record ImportCtx := {
  ctx_pkg_info : value;
  ctx_reponame : string;
  ctx_repo_dir : value;
  ctx_oldpath : value;
  ctx_message : string;
}.

(** Lines 149-201: lock, metadata, provisioning, clone, identity. *)
Definition import_setup (opts : Opts) (namespace : string)
    (branches : list string) (package_content : PackageContent) : M ImportCtx :=
  (* lock here is for the case when parallel imports run for the same project *)
  acquired <- call (LockAcquire 120) ;;
  (if negb (truthy acquired) then
     raise (PackageImportException
              (VStr "import_package: lock could not be acquired."))
   else ret tt) ;;
  log LDebug "package_content: " [VStr (spec_path package_content)] ;;
  pkg_info <- call (GetPkgInfo (spec_path package_content)) ;;
  log LDebug "pkg_info: " [pkg_info] ;;
  name <- attr_name pkg_info ;;
  (if negb (truthy (VStr name)) then
     raise (PackageImportException (VStr "Could not determine package name."))
   else ret tt) ;;
  let reponame := (namespace ++ "/" ++ name)%string in
  setup_git_repo reponame branches ;;
  repo_dir <- call Mkdtemp ;;
  log LDebug "repo_dir: {}" [repo_dir] ;;
  (* use rpkg lib to import the source rpm *)
  call (RpkgCommands repo_dir (git_base_url opts)) ;;
  call (RpkgSetModuleName reponame) ;;
  call (RpkgSetUpload repo_dir) ;;
  try_except
    (log LDebug "clone the pkg repository into repo_dir directory" [] ;;
     call (RpkgClone reponame repo_dir) ;;
     ret tt)
    is_Exception
    (fun e =>
       log LError "Failed to clone the Git repository and add files." [] ;;
       raise (PackageImportException (VStr (exn_str e)))) ;;
  oldpath <- call OsGetcwd ;;
  log LDebug "Switching to repo_dir: {}" [repo_dir] ;;
  call (OsChdir repo_dir) ;;
  log LDebug "Setting up Git user name and email." [] ;;
  call (RunCmd [VStr "git"; VStr "config"; VStr "user.name";
                VStr (git_user_name opts)]) ;;
  call (RunCmd [VStr "git"; VStr "config"; VStr "user.email";
                VStr (git_user_email opts)]) ;;
  envr <- attr_envr pkg_info ;;
  ret {| ctx_pkg_info := pkg_info;
         ctx_reponame := reponame;
         ctx_repo_dir := repo_dir;
         ctx_oldpath := oldpath;
         ctx_message := ("automatic import of " ++ envr)%string |}.

(** Lines 214-219: the loop over [package_content.extra_content]. *)
Fixpoint copy_extra_content (repo_dir : value) (paths : list string)
    (add_to_index : list string) : M (list string) :=
  match paths with
  | [] => ret add_to_index
  | path :: rest =>
      isfile <- call (OsPathIsfile path) ;;
      (if truthy isfile then call (ShutilCopy (VStr path) repo_dir)
       else call (ShutilCopytree (VStr path) repo_dir)) ;;
      copy_extra_content repo_dir rest
        (add_to_index ++ [posixpath.basename path])
  end.

(** Lines 209-231: the arm taken while [branch_commits] is empty. *)
Definition add_package_content (package_content : PackageContent)
    (repo_dir : value) (message : string) : M unit :=
  log LDebug "add package content" [] ;;
  call (ShutilCopy (VStr (spec_path package_content)) repo_dir) ;;
  add_to_index <-
    copy_extra_content repo_dir (extra_content package_content)
      [posixpath.basename (spec_path package_content)] ;;
  call (RpkgIndexAdd add_to_index) ;;
  log LDebug "save the source files into lookaside cache" [] ;;
  call (RpkgUpload (source_paths package_content) true) ;;
  try_except
    (log LDebug "commit" [] ;;
     call (RpkgCommit message) ;;
     ret tt)
    is_rpkgError
    (fun e => (* Probably nothing to be committed. *)
       log LError "{}" [VStr (exn_str e)]).

(** Lines 208-233: the body of the first [try]. *)
Definition stage_or_sync (package_content : PackageContent) (ctx : ImportCtx)
    (branch : string) (branch_commits : dict.t) : M unit :=
  if negb (dict.nonempty branch_commits) then
    add_package_content package_content (ctx_repo_dir ctx) (ctx_message ctx)
  else
    sync_branch branch branch_commits (ctx_message ctx).

(** Lines 238-240: the body of the second [try]. *)
Definition push_branch : M unit :=
  log LDebug "push" [] ;;
  call RpkgPush ;;
  ret tt.

(** Lines 204-246: one turn of [for branch in branches]; a [continue]
    returns the dict as it was. *)
Definition import_branch (package_content : PackageContent) (ctx : ImportCtx)
    (branch : string) (branch_commits : dict.t) : M dict.t :=
  log LDebug "checkout '{0}' branch" [VStr branch] ;;
  call (RpkgSwitchBranch branch) ;;
  staged <-
    try_except
      (stage_or_sync package_content ctx branch branch_commits ;; ret true)
      (fun _ => true)
      (fun _ =>
         log LException "Error during source uploading, merge, or commit." [] ;;
         ret false) ;;
  if negb staged then ret branch_commits
  else
    pushed <-
      try_except
        (push_branch ;; ret true)
        is_rpkgError
        (fun _ => log LException "Exception raised during push." [] ;; ret false) ;;
    if negb pushed then ret branch_commits
    else
      call RpkgLoadCommit ;;
      commithash <- call RpkgCommithash ;;
      ret (dict.set branch commithash branch_commits).

Fixpoint import_branches (package_content : PackageContent) (ctx : ImportCtx)
    (branches : list string) (branch_commits : dict.t) : M dict.t :=
  match branches with
  | [] => ret branch_commits
  | branch :: rest =>
      branch_commits' <- import_branch package_content ctx branch branch_commits ;;
      import_branches package_content ctx rest branch_commits'
  end.

(** Lines 248-257. *)
Definition import_teardown (opts : Opts) (ctx : ImportCtx)
    (branch_commits : dict.t) : M ImportResult :=
  call (OsChdir (ctx_oldpath ctx)) ;;
  call (ShutilRmtree (ctx_repo_dir ctx)) ;;
  refresh_cgit_listing opts ;;
  call LockRelease ;;
  ret {| pkg_info := ctx_pkg_info ctx;
         branch_commits := branch_commits;
         reponame := ctx_reponame ctx |}.

Definition import_package (opts : Opts) (namespace : string)
    (branches : list string) (package_content : PackageContent)
  : M ImportResult :=
  ctx <- import_setup opts namespace branches package_content ;;
  branch_commits <- import_branches package_content ctx branches [] ;;
  import_teardown opts ctx branch_commits.

End Program.

Arguments MkWorld {E} env trace.
Arguments env {E} w.
Arguments trace {E} w.
Arguments ret {E A} a w.
Arguments raise {E A} e w.
Arguments bind {E A B} c k w.
Arguments try_except {E A} c catches h w.
Arguments call {E} handle o w.
Arguments log {E} lvl template args w.
Arguments my_upload {E} handle opts repo_dir reponame abs_filename filehash w.
Arguments try_fast_forward {E} handle new_branch candidates w.
Arguments first_key {E} d w.
Arguments sync_branch {E} handle new_branch branch_commits message w.
Arguments log_called_process_error {E} e w.
Arguments refresh_cgit_listing {E} handle opts w.
Arguments tolerate_exists {E} already e w.
Arguments setup_branches {E} handle reponame branches w.
Arguments setup_git_repo {E} handle reponame branches w.
Arguments attr_name {E} v w.
Arguments attr_envr {E} v w.
Arguments import_setup {E} handle opts namespace branches package_content w.
Arguments copy_extra_content {E} handle repo_dir paths add_to_index w.
Arguments add_package_content {E} handle package_content repo_dir message w.
Arguments stage_or_sync {E} handle package_content ctx branch branch_commits w.
Arguments push_branch {E} handle w.
Arguments import_branch {E} handle package_content ctx branch branch_commits w.
Arguments import_branches {E} handle package_content ctx branches branch_commits w.
Arguments import_teardown {E} handle opts ctx branch_commits w.
Arguments import_package {E} handle opts namespace branches package_content w.

(** ** Reading a trace *)

(** The answers of the outside world to a sequence of calls, as the events
    a run records for them. *)
Fixpoint replay {E : Type} (handle : op -> E -> answer * E) (ops : list op)
    (e : E) : list event * E :=
  match ops with
  | [] => ([], e)
  | o :: rest =>
      let (a, e1) := handle o e in
      let (evs, e2) := replay handle rest e1 in
      (EvCall o a :: evs, e2)
  end.

Definition calls_of (tr : list event) : list op :=
  omap (fun ev => match ev with EvCall o _ => Some o | EvLog _ _ _ => None end) tr.

(** A call that returned a true value: for [git merge --ff-only] and
    [git diff --exit-code] a non-zero exit status. *)
Definition returned_true (ev : event) : bool :=
  match ev with
  | EvCall _ (Ret v) => truthy v
  | _ => false
  end.

(** The calls of the reset-and-recommit fallback of [sync_branch]. *)
Definition is_fallback_call (o : op) : bool :=
  match o with
  | SubprocessCheckCall _ | SubprocessCheckOutput _ _ => true
  | SubprocessCall (_ :: VStr "diff" :: _) => true
  | _ => false
  end.

(** The calls of direct staging in [import_package]. *)
Definition is_staging_call (o : op) : bool :=
  match o with
  | ShutilCopy _ _ | ShutilCopytree _ _ | OsPathIsfile _
  | RpkgIndexAdd _ | RpkgUpload _ _ | RpkgCommit _ => true
  | _ => false
  end.

(** The calls [sync_branch] makes: git through [subprocess]. *)
Definition is_git_call (o : op) : bool :=
  match o with
  | SubprocessCall (VStr "git" :: _) | SubprocessCheckCall (VStr "git" :: _)
  | SubprocessCheckOutput (VStr "git" :: _) _ => true
  | _ => false
  end.

(** Whether the import lock is held after the events of a trace. *)
Definition lock_step (held : bool) (ev : event) : bool :=
  match ev with
  | EvCall (LockAcquire _) (Ret v) => held || truthy v
  | EvCall LockRelease (Ret _) => false
  | _ => held
  end.

Definition lock_held (tr : list event) : bool := fold_left lock_step tr false.

(** The temporary directories a trace created and did not remove. *)
Definition tmpdir_step (dirs : list value) (ev : event) : list value :=
  match ev with
  | EvCall Mkdtemp (Ret d) => dirs ++ [d]
  | EvCall (ShutilRmtree d) (Ret _) => List.filter (fun d' => negb (py_eq d d')) dirs
  | _ => dirs
  end.

Definition leftover_tmpdirs (tr : list event) : list value :=
  fold_left tmpdir_step tr [].

(** The group id of the process after the events of a trace that started
    with group id [g0]. *)
Definition gid_step (g : value) (ev : event) : value :=
  match ev with
  | EvCall (OsSetgid g') (Ret _) => g'
  | _ => g
  end.

Definition gid_after (g0 : value) (tr : list event) : value :=
  fold_left gid_step tr g0.

(** ** A scripted outside world

    The state is the list of calls made so far; a script maps it and the
    next call to the answer. *)
Definition scripted (script : list op -> op -> answer) (o : op) (h : list op)
  : answer * list op :=
  (script h o, h ++ [o]).

Definition start {E : Type} (e : E) : World E := MkWorld e [].

(** ** Scenarios

    Scripts of the outside world for runs on concrete input. *)

(** The branch checked out last, read off the calls made so far. *)
Definition current_branch (h : list op) : string :=
  fold_left
    (fun cur o => match o with RpkgSwitchBranch b => b | _ => cur end) h "".

(** Every call succeeds; the spec file describes [foo-1.0-1]. *)
Definition nominal (h : list op) (o : op) : answer :=
  match o with
  | LockAcquire _ => Ret (VBool true)
  | GetPkgInfo _ => Ret (VInfo "foo" "1.0-1")
  | Mkdtemp => Ret (VStr "/tmp/tmpk3x")
  | OsGetcwd => Ret (VStr "/")
  | OsPathIsfile _ => Ret (VBool true)
  | SubprocessCall _ | SubprocessCheckCall _ => Ret (VInt 0)
  | SubprocessCheckOutput _ _ => Ret (VStr "")
  | RpkgCommithash => Ret (VStr ("head-of-" ++ current_branch h))
  | _ => Ret VNone
  end.

(** [f40] does not fast-forward, every other branch does. *)
Definition f40_diverged (h : list op) (o : op) : answer :=
  match o with
  | SubprocessCall [_; VStr "merge"; VStr "f40"; _] => Ret (VInt 1)
  | _ => nominal h o
  end.

(** No branch fast-forwards, and the reset leaves a staged difference. *)
Definition all_diverged (h : list op) (o : op) : answer :=
  match o with
  | SubprocessCall [_; VStr "merge"; _; _] => Ret (VInt 1)
  | SubprocessCall [_; VStr "diff"; _; _] => Ret (VInt 1)
  | SubprocessCheckOutput [_; VStr "show"; _; _; _] _ =>
      Ret (VStr "2018-05-02 11:20:13 +0200")
  | _ => nominal h o
  end.


(** The push of [f41] fails with an error of the operating system. *)
Definition f41_push_crashes (h : list op) (o : op) : answer :=
  match o with
  | RpkgPush =>
      if String.eqb (current_branch h) "f41"
      then Exc (OSError "[Errno 12] Cannot allocate memory")
      else Ret VNone
  | _ => nominal h o
  end.

Definition demo_opts : Opts :=
  {| lookaside_location := "/var/lib/dist-git/cache/lookaside/pkgs";
     git_base_url := "/var/lib/dist-git/git/%(module)s";
     git_user_name := "CoprDistGit";
     git_user_email := "copr-devel@lists.fedorahosted.org";
     cgit_pkg_list_location := "/var/lib/copr-dist-git/cgit_pkg_list" |}.

Definition demo_content : PackageContent :=
  {| spec_path := "/tmp/in/foo.spec";
     extra_content := ["/tmp/in/fix.patch"];
     source_paths := ["/tmp/in/foo-1.0.tar.gz"] |}.

Definition demo_commits : dict.t :=
  [("f40", VStr "head-of-f40"); ("f41", VStr "head-of-f41")].

(** ** Statements about runs *)

(** Every call that a computation makes satisfies [P], however it ends. *)
Definition emits {E A} (P : op -> bool) (c : M E A) : Prop :=
  forall w r w',
    c w = (r, w') ->
    exists tr, trace w' = trace w ++ tr /\ forallb P (calls_of tr) = true.

Definition demo_ctx : ImportCtx :=
  {| ctx_pkg_info := VInfo "foo" "1.0-1";
     ctx_reponame := "user1/foo";
     ctx_repo_dir := VStr "/tmp/tmpk3x";
     ctx_oldpath := VStr "/";
     ctx_message := "automatic import of 1.0-1" |}.

Definition git_not_staging (o : op) : bool :=
  is_git_call o && negb (is_staging_call o).

(** *** Three branches, the push of the second one rejected *)

Definition demo_branches : list string := ["f40"; "f41"; "rawhide"].


(** The dict and the world after the turn of [f40]. *)
Definition rejected_bc1 : dict.t := [("f40", VStr "head-of-f40")].





(** *** Three branches, the push of the second one crashing *)

Definition crashing_w0 : World (list op) :=
  Eval vm_compute in
    snd (import_setup (scripted f41_push_crashes) demo_opts "user1"
           demo_branches demo_content (start [])).

Definition crashing_w1 : World (list op) :=
  Eval vm_compute in
    snd (import_branches (scripted f41_push_crashes) demo_content demo_ctx
           ["f40"] [] crashing_w0).

Definition crashing_w3 : World (list op) :=
  Eval vm_compute in
    snd (bind (log LDebug "checkout '{0}' branch" [VStr "f41"])
           (fun _ =>
              bind (call (scripted f41_push_crashes) (RpkgSwitchBranch "f41"))
                (fun _ =>
                   stage_or_sync (scripted f41_push_crashes) demo_content
                     demo_ctx "f41" rejected_bc1))
           crashing_w1).

(** ** Provisioning *)

(** The calls [setup_git_repo] makes, in order. *)
Definition provisioning_calls (reponame : string) (branches : list string)
  : list op :=
  setup_git_package_cmd reponame
  :: map (fun branch => mkbranch_cmd branch reponame) branches.

Definition is_provisioning_call (o : op) : bool :=
  match o with
  | SubprocessCheckOutput [VStr "/usr/share/dist-git/setup_git_package"; _] true
  | SubprocessCheckOutput [VStr "/usr/share/dist-git/mkbranch"; _; _] true => true
  | _ => false
  end.

(** An answer [setup_git_repo] goes on after: the command exited with
    status 0, or with status 128. *)
Definition tolerated (a : answer) : bool :=
  match a with
  | Ret _ => true
  | Exc (CalledProcessError rc _ _) => py_eq rc (VInt 128)
  | Exc _ => false
  end.

Definition tolerated_event (ev : event) : bool :=
  match ev with
  | EvCall _ a => tolerated a
  | EvLog _ _ _ => false
  end.

(** From state [e] on, whatever is called in between, the call [o] is
    answered with status 0 or 128. *)
Definition settled {E} (handle : op -> E -> answer * E) (o : op) (e : E) : Prop :=
  forall ops, tolerated (fst (handle o (snd (replay handle ops e)))) = true.

(** The provisioning commands of dist-git create what is missing and
    report what exists with status 128: once one of them has exited with 0
    or 128, it does so from then on. *)
Definition provisioning_settles {E} (handle : op -> E -> answer * E) : Prop :=
  forall o e,
    is_provisioning_call o = true ->
    tolerated (fst (handle o e)) = true ->
    settled handle o (snd (handle o e)).

#[global] Instance value_eq_dec : EqDecision value.
Proof. solve_decision. Defined.

#[global] Instance op_eq_dec : EqDecision op.
Proof. solve_decision. Defined.

(** A dist-git host: a provisioning command that was run before reports
    "already exists". *)
Definition dist_git_host (h : list op) (o : op) : answer :=
  if is_provisioning_call o then
    if bool_decide (o ∈ h)
    then Exc (CalledProcessError (VInt 128) (VStr "already exists")
                "Command returned non-zero exit status 128.")
    else Ret (VStr "Done.")
  else nominal h o.

Definition provisioned_w1 : World (list op) :=
  Eval vm_compute in
    snd (setup_git_repo (scripted dist_git_host) "user1/foo" demo_branches
           (start [])).

(** ** A model of the operating system under the upload shim

    The group id of the process, the group database, and a file system of
    regular files and directories; the calls of [my_upload] act on it as
    their POSIX counterparts do.  The process has one group id (as when it
    runs as root, where [setgid] sets the real, effective and saved ids
    together). *)
Module posix.

Record state := MkState {
  gid : Z;
  root : bool;
  saved_gids : list Z;
  groups : gmap string Z;
  files : gmap string string;
  dirs : gset string;
}.

Definition set_gid (g : Z) (s : state) : state :=
  MkState g (root s) (saved_gids s) (groups s) (files s) (dirs s).

Definition set_files (f : gmap string string) (s : state) : state :=
  MkState (gid s) (root s) (saved_gids s) (groups s) f (dirs s).

Definition set_dirs (d : gset string) (s : state) : state :=
  MkState (gid s) (root s) (saved_gids s) (groups s) (files s) d.

Definition may_setgid (s : state) (g : Z) : bool :=
  root s || bool_decide (g ∈ saved_gids s).

Definition isdir (s : state) (p : string) : bool := bool_decide (p ∈ dirs s).

Definition isfile (s : state) (p : string) : bool :=
  bool_decide (is_Some (files s !! p)).

Definition exists_ (s : state) (p : string) : bool := isdir s p || isfile s p.

(** The proper ancestors of a path, nearest first. *)
Fixpoint ancestors_upto (fuel : nat) (p : string) : list string :=
  match fuel with
  | O => []
  | S fuel' =>
      let d := posixpath.dirname p in
      if String.eqb d "" || String.eqb d p then []
      else d :: ancestors_upto fuel' d
  end.

Definition ancestors (p : string) : list string :=
  ancestors_upto (String.length p) p.

(** [os.makedirs(p)] succeeds when nothing is at [p] and no ancestor is a
    regular file. *)
Definition makedirs_blocked (s : state) (p : string) : bool :=
  exists_ s p || existsb (isfile s) (ancestors p).

(** [shutil.copyfile(src, dst)] succeeds when [src] is a regular file, [dst]
    is not a directory and the directory of [dst] exists. *)
Definition copyfile_target_ok (s : state) (dst : string) : bool :=
  negb (isdir s dst) && isdir s (posixpath.dirname dst).

Definition handle (o : op) (s : state) : answer * state :=
  match o with
  | OsGetgid => (Ret (VInt (gid s)), s)
  | GrpGetgrnamGid name =>
      match groups s !! name with
      | Some g => (Ret (VInt g), s)
      | None => (Exc (KeyError "getgrnam(): name not found"), s)
      end
  | OsSetgid (VInt g) =>
      if may_setgid s g then (Ret VNone, set_gid g s)
      else (Exc (OSError "[Errno 1] Operation not permitted"), s)
  | OsSetgid _ => (Exc (OtherException "an integer is required"), s)
  | OsPathIsdir p => (Ret (VBool (isdir s p)), s)
  | OsPathIsfile p => (Ret (VBool (isfile s p)), s)
  | OsPathExists p => (Ret (VBool (exists_ s p)), s)
  | OsMakedirs p =>
      if makedirs_blocked s p then (Exc (OSError "[Errno 17] File exists"), s)
      else (Ret VNone, set_dirs ({[p]} ∪ list_to_set (ancestors p) ∪ dirs s) s)
  | ShutilCopyfile src dst =>
      match files s !! src with
      | Some content =>
          if copyfile_target_ok s dst
          then (Ret VNone, set_files (<[dst := content]> (files s)) s)
          else (Exc (OSError "[Errno 2] No such file or directory"), s)
      | None => (Exc (OSError "[Errno 2] No such file or directory"), s)
      end
  | _ => (Ret VNone, s)
  end.

End posix.

(** The dist-git host: the service runs as root in group 0, apache is
    group 48, the lookaside directory of the package exists. *)
Definition demo_lookaside_dir : string :=
  "/var/lib/dist-git/cache/lookaside/pkgs/user1/foo/foo-1.0.tar.gz/d41d8cd9".

Definition demo_host : posix.state :=
  posix.MkState 0 true [] {["apache" := 48]}
    {["/tmp/in/foo-1.0.tar.gz" := "tarball"]}
    {[demo_lookaside_dir]}.

(** The same host after the source file has gone. *)
Definition demo_host_source_gone : posix.state :=
  posix.set_files ∅ demo_host.

(** *** The spec file yields no package name *)
Definition no_package_name (h : list op) (o : op) : answer :=
  match o with
  | GetPkgInfo _ => Ret (VInfo "" "")
  | _ => nominal h o
  end.

(** *** The clone fails *)
Definition clone_unreachable (h : list op) (o : op) : answer :=
  match o with
  | RpkgClone _ _ => Exc (rpkgError "Could not execute clone")
  | _ => nominal h o
  end.

Definition unreachable_w3 : World (list op) :=
  Eval vm_compute in
    snd (bind (call (scripted clone_unreachable) (LockAcquire 120))
           (fun _ =>
              bind (log LDebug "package_content: " [VStr "/tmp/in/foo.spec"])
                (fun _ =>
                   bind (call (scripted clone_unreachable)
                           (GetPkgInfo "/tmp/in/foo.spec"))
                     (fun info =>
                        bind (log LDebug "pkg_info: " [info])
                          (fun _ =>
                             setup_git_repo (scripted clone_unreachable)
                               "user1/foo" demo_branches))))
           (start [])).

(** A trace without a call of [shutil.copyfile]. *)
Definition no_copy (tr : list event) : Prop :=
  forall src dst, ShutilCopyfile src dst ∉ calls_of tr.

(** *** The first upload of a source file *)
Definition uploaded_w1 : World posix.state :=
  Eval vm_compute in
    snd (my_upload posix.handle demo_opts (VStr "/tmp/tmpk3x") "user1/foo"
           "/tmp/in/foo-1.0.tar.gz" "d41d8cd9" (start demo_host)).

(** ** A directory among the extra content *)

(** A call of [shutil.copytree] whose destination is [repo_dir]. *)
Definition copytree_into (repo_dir : value) (o : op) : bool :=
  match o with
  | ShutilCopytree _ dst => bool_decide (dst = repo_dir)
  | _ => true
  end.

Definition is_copytree_call (o : op) : bool :=
  match o with
  | ShutilCopytree _ _ => true
  | _ => false
  end.

(** The calls that put content into a branch: index, lookaside cache,
    commit and push. *)
Definition is_publishing_call (o : op) : bool :=
  match o with
  | RpkgIndexAdd _ | RpkgUpload _ _ | RpkgCommit _ | RpkgPush
  | RpkgLoadCommit | RpkgCommithash => true
  | _ => false
  end.

Definition content_with_directory : PackageContent :=
  {| spec_path := "/tmp/in/foo.spec";
     extra_content := ["/tmp/in/fix.patch"; "/tmp/in/patches"];
     source_paths := ["/tmp/in/foo-1.0.tar.gz"] |}.

(** The directory that [tempfile.mkdtemp] made exists until
    [shutil.rmtree] removes it. *)
Definition tmpdir_exists (h : list op) : bool :=
  bool_decide (Mkdtemp ∈ h)
  && negb (bool_decide (ShutilRmtree (VStr "/tmp/tmpk3x") ∈ h)).

(** [/tmp/in/patches] is a directory, every other path a plain file.
    [shutil.copytree] creates its destination with [os.makedirs] and
    raises when the destination exists. *)
Definition patches_directory (h : list op) (o : op) : answer :=
  match o with
  | OsPathIsfile path => Ret (VBool (negb (String.eqb path "/tmp/in/patches")))
  | ShutilCopytree _ dst =>
      if py_eq dst (VStr "/tmp/tmpk3x") && tmpdir_exists h
      then Exc (OSError "[Errno 17] File exists: '/tmp/tmpk3x'")
      else Ret VNone
  | _ => nominal h o
  end.

Definition directory_branches : list string := ["f40"; "f41"].

(** The world after lines 149-201, after the turn of [f40], and at the end
    of the call. *)
Definition directory_w0 : World (list op) :=
  Eval vm_compute in
    snd (import_setup (scripted patches_directory) demo_opts "user1"
           directory_branches content_with_directory (start [])).

Definition directory_w1 : World (list op) :=
  Eval vm_compute in
    snd (import_branch (scripted patches_directory) content_with_directory
           demo_ctx "f40" [] directory_w0).

Definition directory_w : World (list op) :=
  Eval vm_compute in
    snd (import_package (scripted patches_directory) demo_opts "user1"
           directory_branches content_with_directory (start [])).

Definition directory_result : ImportResult :=
  {| pkg_info := VInfo "foo" "1.0-1";
     branch_commits := [];
     reponame := "user1/foo" |}.

(** ** More statements about runs *)

(** The calls that take or give back what [import_package] owns: the
    import lock and the temporary directory. *)
Definition is_resource_call (o : op) : bool :=
  match o with
  | LockAcquire _ | LockRelease | Mkdtemp | ShutilRmtree _ => true
  | _ => false
  end.

Definition not_resource_call (o : op) : bool := negb (is_resource_call o).



(** A computation that raises has raised what its last call raised, and
    that call satisfies [P]. *)
Definition raises_from_call {E A} (P : op -> bool) (c : M E A) : Prop :=
  forall w x w',
    c w = (Raise x, w') ->
    exists tr o, trace w' = tr ++ [EvCall o (Exc x)] /\ P o = true.

(** The calls of one turn of the branch loop after the checkout: staging,
    git, push and the lookup of the commit. *)
Definition is_branch_work_call (o : op) : bool :=
  match o with
  | ShutilCopy _ _ | ShutilCopytree _ _ | OsPathIsfile _
  | RpkgIndexAdd _ | RpkgUpload _ _ | RpkgCommit _
  | SubprocessCall _ | SubprocessCheckCall _ | SubprocessCheckOutput _ _
  | RpkgPush | RpkgLoadCommit | RpkgCommithash => true
  | _ => false
  end.

(** The branches checked out in a trace, in order. *)
Definition checkouts (tr : list event) : list string :=
  omap (fun ev =>
          match ev with
          | EvCall (RpkgSwitchBranch b) _ => Some b
          | _ => None
          end) tr.

Definition not_staging_call (o : op) : bool := negb (is_staging_call o).

(** ** More scenarios *)

(** The import lock is held elsewhere for longer than the timeout. *)
Definition lock_busy (h : list op) (o : op) : answer :=
  match o with
  | LockAcquire _ => Ret (VBool false)
  | _ => nominal h o
  end.

(** The repository command fails with status 1. *)
Definition provisioning_broken (h : list op) (o : op) : answer :=
  match o with
  | SubprocessCheckOutput [VStr "/usr/share/dist-git/setup_git_package"; _] _ =>
      Exc (CalledProcessError (VInt 1) (VStr "fatal: cannot create repository")
             "Command returned non-zero exit status 1.")
  | _ => nominal h o
  end.

Definition broken_w2 : World (list op) :=
  Eval vm_compute in
    snd (bind (call (scripted provisioning_broken) (LockAcquire 120))
           (fun _ =>
              bind (log LDebug "package_content: " [VStr "/tmp/in/foo.spec"])
                (fun _ =>
                   bind (call (scripted provisioning_broken)
                           (GetPkgInfo "/tmp/in/foo.spec"))
                     (fun info => log LDebug "pkg_info: " [info])))
           (start [])).

Definition broken_w3 : World (list op) :=
  Eval vm_compute in
    snd (setup_git_repo (scripted provisioning_broken) "user1/foo"
           demo_branches broken_w2).

(** The repository command is not installed. *)
Definition provisioning_missing (h : list op) (o : op) : answer :=
  match o with
  | SubprocessCheckOutput [VStr "/usr/share/dist-git/setup_git_package"; _] _ =>
      Exc (OSError "[Errno 2] No such file or directory")
  | _ => nominal h o
  end.


(** No branch fast-forwards and [git read-tree] fails. *)
Definition read_tree_fails (h : list op) (o : op) : answer :=
  match o with
  | SubprocessCall [_; VStr "merge"; _; _] => Ret (VInt 1)
  | SubprocessCheckCall [_; VStr "read-tree"; _; _; _] =>
      Exc (CalledProcessError (VInt 128) VNone
             "Command returned non-zero exit status 128.")
  | _ => nominal h o
  end.

Definition read_tree_failed_w : World (list op) :=
  Eval vm_compute in
    snd (sync_branch (scripted read_tree_fails) "rawhide" demo_commits
           "automatic import of 1.0-1" (start [])).

(** A host where a regular file is in the way of the lookaside directory. *)
Definition demo_host_blocked : posix.state :=
  posix.MkState 0 true [] {["apache" := 48]}
    {["/tmp/in/foo-1.0.tar.gz" := "tarball";
      "/var/lib/dist-git/cache/lookaside/pkgs/user1" := "stray"]}
    ∅.

(** The checkout of [f41] fails. *)
Definition f41_checkout_fails (h : list op) (o : op) : answer :=
  match o with
  | RpkgSwitchBranch "f41" => Exc (rpkgError "Unknown remote branch f41")
  | _ => nominal h o
  end.

Definition checkout_w0 : World (list op) :=
  Eval vm_compute in
    snd (import_setup (scripted f41_checkout_fails) demo_opts "user1"
           demo_branches demo_content (start [])).

Definition checkout_w1 : World (list op) :=
  Eval vm_compute in
    snd (import_branches (scripted f41_checkout_fails) demo_content demo_ctx
           ["f40"] [] checkout_w0).

(** *** An import in which every call succeeds, one branch requested
    twice *)
Definition twice_branches : list string := ["f40"; "rawhide"; "f40"].

Definition nominal_result : ImportResult :=
  {| pkg_info := VInfo "foo" "1.0-1";
     branch_commits :=
       [("f40", VStr "head-of-f40"); ("rawhide", VStr "head-of-rawhide")];
     reponame := "user1/foo" |}.

Definition nominal_w : World (list op) :=
  Eval vm_compute in
    snd (import_package (scripted nominal) demo_opts "user1" twice_branches
           demo_content (start [])).

Definition nominal_w0 : World (list op) :=
  Eval vm_compute in
    snd (import_setup (scripted nominal) demo_opts "user1" twice_branches
           demo_content (start [])).

(** The turn of [f40] from there: after the checkout, after the staging,
    at the end. *)
Definition nominal_w3 : World (list op) :=
  Eval vm_compute in
    snd (bind (log LDebug "checkout '{0}' branch" [VStr "f40"])
           (fun _ =>
              bind (call (scripted nominal) (RpkgSwitchBranch "f40"))
                (fun _ =>
                   stage_or_sync (scripted nominal) demo_content demo_ctx
                     "f40" []))
           nominal_w0).

Definition nominal_w1 : World (list op) :=
  Eval vm_compute in
    snd (import_branch (scripted nominal) demo_content demo_ctx "f40" []
           nominal_w0).

Definition nominal_loop_w : World (list op) :=
  Eval vm_compute in
    snd (import_branches (scripted nominal) demo_content demo_ctx
           ["rawhide"; "f40"] rejected_bc1 nominal_w1).

(** * Properties *)

Section Properties.

Context {E : Type} (handle : op -> E -> answer * E).

Implicit Types (w : World E) (e : E) (o : op) (v : value).

Lemma call_returns o w v e' :
  handle o (env w) = (Ret v, e') ->
  call handle o w = (Ok v, MkWorld e' (trace w ++ [EvCall o (Ret v)])).
Proof. intros H. unfold call. now rewrite H. Qed.

Lemma bind_ok {A B} (c : M E A) (k : A -> M E B) w a w' :
  c w = (Ok a, w') -> bind c k w = k a w'.
Proof. intros H. unfold bind. now rewrite H. Qed.

Lemma bind_raise {A B} (c : M E A) (k : A -> M E B) w x w' :
  c w = (Raise x, w') -> bind c k w = (Raise x, w').
Proof. intros H. unfold bind. now rewrite H. Qed.

Lemma replay_calls ops : forall e evs e',
  replay handle ops e = (evs, e') -> calls_of evs = ops.
Proof.
  induction ops as [|o ops IH]; intros e evs e' H; simpl in H.
  - now inversion H.
  - destruct (handle o e) as [a e1].
    destruct (replay handle ops e1) as [evs1 e2] eqn:Hr.
    inversion H; subst. unfold calls_of; simpl.
    f_equal. exact (IH _ _ _ Hr).
Qed.

Lemma calls_of_app (tr1 tr2 : list event) :
  calls_of (tr1 ++ tr2) = calls_of tr1 ++ calls_of tr2.
Proof. unfold calls_of. apply omap_app. Qed.

(** When git refuses every candidate, the loop of [sync_branch] falls
    through, having made exactly the merge attempts. *)
Lemma try_fast_forward_refused new_branch candidates : forall w evs e1,
  replay handle (map git_merge_ff candidates) (env w) = (evs, e1) ->
  forallb returned_true evs = true ->
  try_fast_forward handle new_branch candidates w
  = (Ok false, MkWorld e1 (trace w ++ evs)).
Proof.
  induction candidates as [|b rest IH]; intros w evs e1 Hr Hall; simpl in Hr.
  - inversion Hr; subst. destruct w; simpl. now rewrite app_nil_r.
  - destruct (handle (git_merge_ff b) (env w)) as [a e'] eqn:Hh.
    destruct (replay handle (map git_merge_ff rest) e') as [evs1 e2] eqn:Hr1.
    inversion Hr; subst; clear Hr.
    simpl in Hall. apply andb_prop in Hall as [Ha Hall].
    destruct a as [v|x]; [|discriminate].
    simpl. rewrite (bind_ok _ _ _ _ _ (call_returns _ _ _ _ Hh)).
    rewrite Ha. simpl.
    rewrite (IH (MkWorld e' (trace w ++ [EvCall (git_merge_ff b) (Ret v)])) evs1 e1 Hr1 Hall).
    simpl. now rewrite <- app_assoc.
Qed.

Lemma forallb_git_merge_not_fallback (l : list string) :
  forallb (fun o => negb (is_fallback_call o)) (map git_merge_ff l) = true.
Proof. induction l as [|b l IH]; simpl; auto. Qed.

(** C1. In [sync_branch], the candidates are tried in the insertion order
    of [branch_commits]; when git refuses the candidates [pre] and accepts
    the fast-forward merge of the next one, [b] (exit status 0, which is
    also what a no-op merge gives), the call returns at once: the calls it
    made are the merge attempts on [pre] and on [b] and no other, so no
    later candidate is tried and none of the calls of the reset-and-recommit
    fallback is made. *)
Theorem sync_branch_first_fast_forward_wins
    new_branch (branch_commits : dict.t) message w pre b post evs e1 v e2 :
  dict.keys branch_commits = pre ++ b :: post ->
  replay handle (map git_merge_ff pre) (env w) = (evs, e1) ->
  forallb returned_true evs = true ->
  handle (git_merge_ff b) e1 = (Ret v, e2) ->
  truthy v = false ->
  let delta :=
    evs ++ [EvCall (git_merge_ff b) (Ret v);
            EvLog LDebug "merged '{0}' fast forward into '{1}' or noop"
              [VStr b; VStr new_branch]] in
  sync_branch handle new_branch branch_commits message w
  = (Ok tt, MkWorld e2 (trace w ++ delta))
  /\ calls_of delta = map git_merge_ff (pre ++ [b])
  /\ forallb (fun o => negb (is_fallback_call o)) (calls_of delta) = true.
Proof.
  intros Hkeys Hr Hall Hb Hv delta.
  assert (Hcalls : calls_of delta = map git_merge_ff (pre ++ [b])).
  { unfold delta. rewrite calls_of_app, (replay_calls _ _ _ _ Hr).
    now rewrite map_app. }
  split; [|split; [exact Hcalls|]].
  - unfold sync_branch. rewrite Hkeys.
    assert (Hloop : forall l w0 evs0,
      replay handle (map git_merge_ff l) (env w0) = (evs0, e1) ->
      forallb returned_true evs0 = true ->
      try_fast_forward handle new_branch (l ++ b :: post) w0
      = (Ok true, MkWorld e2 (trace w0 ++ evs0 ++
           [EvCall (git_merge_ff b) (Ret v);
            EvLog LDebug "merged '{0}' fast forward into '{1}' or noop"
              [VStr b; VStr new_branch]]))).
    { induction l as [|c l IH]; intros w0 evs0 Hr0 Hall0; simpl in Hr0.
      - inversion Hr0; subst. simpl.
        rewrite (bind_ok _ _ _ _ _ (call_returns _ _ _ _ Hb)).
        rewrite Hv. simpl. unfold bind, log, ret; simpl.
        now rewrite <- app_assoc.
      - destruct (handle (git_merge_ff c) (env w0)) as [a e'] eqn:Hh.
        destruct (replay handle (map git_merge_ff l) e') as [evs1 e3] eqn:Hr1.
        inversion Hr0; subst; clear Hr0.
        simpl in Hall0. apply andb_prop in Hall0 as [Ha Hall0].
        destruct a as [v0|x]; [|discriminate].
        simpl. rewrite (bind_ok _ _ _ _ _ (call_returns _ _ _ _ Hh)).
        rewrite Ha. simpl.
        rewrite (IH (MkWorld e' (trace w0 ++ [EvCall (git_merge_ff c) (Ret v0)]))
                   evs1 Hr1 Hall0).
        simpl. now rewrite <- app_assoc. }
    rewrite (bind_ok _ _ _ _ _ (Hloop pre w evs Hr Hall)). reflexivity.
  - rewrite Hcalls. apply forallb_git_merge_not_fallback.
Qed.

Lemma bind_call_ret {B} o (k : value -> M E B) e tr v e' :
  handle o e = (Ret v, e') ->
  bind (call handle o) k (MkWorld e tr) = k v (MkWorld e' (tr ++ [EvCall o (Ret v)])).
Proof. intros H. unfold bind, call. cbn [env trace]. now rewrite H. Qed.

Lemma bind_call_exc {B} o (k : value -> M E B) e tr x e' :
  handle o e = (Exc x, e') ->
  bind (call handle o) k (MkWorld e tr)
  = (Raise x, MkWorld e' (tr ++ [EvCall o (Exc x)])).
Proof. intros H. unfold bind, call. cbn [env trace]. now rewrite H. Qed.

Lemma bind_log {B} lvl template args (k : unit -> M E B) w :
  bind (log lvl template args) k w
  = k tt (MkWorld (env w) (trace w ++ [EvLog lvl template args])).
Proof. reflexivity. Qed.

Lemma bind_ret {A B} (a : A) (k : A -> M E B) w : bind (ret a) k w = k a w.
Proof. reflexivity. Qed.

Lemma bind_bind {A B C} (c : M E A) (k : A -> M E B) (k' : B -> M E C) w :
  bind (bind c k) k' w = bind c (fun a => bind (k a) k') w.
Proof. unfold bind. destruct (c w) as [[a|x] w']; reflexivity. Qed.

Lemma bind_ext {A B} (c : M E A) (k1 k2 : A -> M E B) w :
  (forall a w', k1 a w' = k2 a w') -> bind c k1 w = bind c k2 w.
Proof. intros H. unfold bind. destruct (c w) as [[a|x] w']; [apply H | reflexivity]. Qed.

Lemma bind_cong {A B} (c1 c2 : M E A) (k : A -> M E B) w :
  (forall w', c1 w' = c2 w') -> bind c1 k w = bind c2 k w.
Proof. intros H. unfold bind. now rewrite H. Qed.

Ltac mstep :=
  repeat (rewrite ?bind_log, ?bind_ret; cbn [env trace]).

Ltac call_ok H :=
  mstep; rewrite (bind_call_ret _ _ _ _ _ _ H); mstep.

Ltac call_exc H :=
  mstep; rewrite (bind_call_exc _ _ _ _ _ _ H); mstep.

(** The run of [sync_branch] once git has refused every candidate. *)
Lemma sync_branch_fallback_run
    new_branch (branch_commits : dict.t) message w first rest
    evs e1 v1 e2 date e3 changed e4 :
  dict.keys branch_commits = first :: rest ->
  replay handle (map git_merge_ff (dict.keys branch_commits)) (env w) = (evs, e1) ->
  forallb returned_true evs = true ->
  handle (git_read_tree first) e1 = (Ret v1, e2) ->
  handle (git_show_date first) e2 = (Ret date, e3) ->
  handle git_diff_cached e3 = (Ret changed, e4) ->
  let reset :=
    [EvLog LDebug "resetting branch '{0}' to contents of '{1}'"
       [VStr new_branch; VStr first];
     EvCall (git_read_tree first) (Ret v1);
     EvCall (git_show_date first) (Ret date);
     EvCall git_diff_cached (Ret changed)] in
  (truthy changed = true ->
   forall a e5, handle (git_commit message date) e4 = (a, e5) ->
     sync_branch handle new_branch branch_commits message w
     = (match a with Ret _ => Ok tt | Exc x => Raise x end,
        MkWorld e5 (trace w ++ evs ++ reset ++ [EvCall (git_commit message date) a])))
  /\ (truthy changed = false ->
      sync_branch handle new_branch branch_commits message w
      = (Ok tt,
         MkWorld e4 (trace w ++ evs ++ reset ++
           [EvLog LDebug "nothing to commit into branch '{0}'" [VStr new_branch]]))).
Proof.
  intros Hkeys Hr Hall H1 H2 H3 reset.
  pose proof (try_fast_forward_refused new_branch _ _ _ _ Hr Hall) as Hloop.
  assert (Hpre :
    sync_branch handle new_branch branch_commits message w
    = (if truthy changed
       then bind (call handle (git_commit message date)) (fun _ => ret tt)
       else log LDebug "nothing to commit into branch '{0}'" [VStr new_branch])
        (MkWorld e4 (trace w ++ evs ++ reset))).
  { unfold sync_branch.
    rewrite (bind_ok _ _ _ _ _ Hloop). unfold first_key. rewrite Hkeys.
    cbn iota. call_ok H1. call_ok H2. call_ok H3.
    unfold reset. now rewrite <- !app_assoc. }
  split.
  - intros Hc a e5 H4. rewrite Hpre, Hc.
    destruct a as [v5|x].
    + call_ok H4. unfold ret. now rewrite <- !app_assoc.
    + call_exc H4. now rewrite <- !app_assoc.
  - intros Hc. rewrite Hpre, Hc. unfold log. cbn [env trace].
    now rewrite <- !app_assoc.
Qed.

(** C2. In [sync_branch], when git refuses every candidate
    ([git merge <branch> --ff-only] exits non-zero for each key), the call
    runs [git read-tree -m -u <first>] for the first key of
    [branch_commits], reads that branch's author date with
    [git show <first> -q --format=%ai], and asks
    [git diff --cached --exit-code] whether the index differs from HEAD.
    If it does, the next and last call is
    [git commit --no-verify -m <message> --date <date>] with the given
    message and the date just read, and the call succeeds exactly when the
    commit does; if it does not, no commit call is made and the call
    succeeds. *)
Theorem sync_branch_reset_fallback
    new_branch (branch_commits : dict.t) message w first rest
    evs e1 v1 e2 date e3 changed e4 :
  let merge := fun branch =>
    SubprocessCall [VStr "git"; VStr "merge"; VStr branch; VStr "--ff-only"] in
  let read_tree :=
    SubprocessCheckCall
      [VStr "git"; VStr "read-tree"; VStr "-m"; VStr "-u"; VStr first] in
  let show :=
    SubprocessCheckOutput
      [VStr "git"; VStr "show"; VStr first; VStr "-q"; VStr "--format=%ai"]
      false in
  let diff :=
    SubprocessCall
      [VStr "git"; VStr "diff"; VStr "--cached"; VStr "--exit-code"] in
  let commit :=
    SubprocessCheckCall
      [VStr "git"; VStr "commit"; VStr "--no-verify"; VStr "-m"; VStr message;
       VStr "--date"; date] in
  dict.keys branch_commits = first :: rest ->
  replay handle (map merge (dict.keys branch_commits)) (env w) = (evs, e1) ->
  forallb returned_true evs = true ->
  handle read_tree e1 = (Ret v1, e2) ->
  handle show e2 = (Ret date, e3) ->
  handle diff e3 = (Ret changed, e4) ->
  let reset :=
    [EvLog LDebug "resetting branch '{0}' to contents of '{1}'"
       [VStr new_branch; VStr first];
     EvCall read_tree (Ret v1);
     EvCall show (Ret date);
     EvCall diff (Ret changed)] in
  calls_of evs = map merge (first :: rest)
  /\ (truthy changed = true ->
      forall a e5, handle commit e4 = (a, e5) ->
        sync_branch handle new_branch branch_commits message w
        = (match a with Ret _ => Ok tt | Exc x => Raise x end,
           MkWorld e5 (trace w ++ evs ++ reset ++ [EvCall commit a])))
  /\ (truthy changed = false ->
      sync_branch handle new_branch branch_commits message w
      = (Ok tt,
         MkWorld e4 (trace w ++ evs ++ reset ++
           [EvLog LDebug "nothing to commit into branch '{0}'" [VStr new_branch]]))).
Proof.
  intros merge read_tree show diff commit Hkeys Hr Hall H1 H2 H3 reset.
  split.
  { rewrite <- Hkeys. exact (replay_calls _ _ _ _ Hr). }
  exact (sync_branch_fallback_run new_branch branch_commits message w first rest
           evs e1 v1 e2 date e3 changed e4 Hkeys Hr Hall H1 H2 H3).
Qed.

(** *** The branch loop of [import_package] *)

Lemma import_branches_app package_content ctx l1 l2 : forall bc w,
  import_branches handle package_content ctx (l1 ++ l2) bc w
  = bind (import_branches handle package_content ctx l1 bc)
      (fun bc' => import_branches handle package_content ctx l2 bc') w.
Proof.
  induction l1 as [|b l1 IH]; intros bc w.
  - reflexivity.
  - cbn [app import_branches]. rewrite bind_bind.
    apply bind_ext. intros bc' w'. apply IH.
Qed.

Lemma try_except_ok {A} (c : M E A) catches h w a w' :
  c w = (Ok a, w') -> try_except c catches h w = (Ok a, w').
Proof. intros H. unfold try_except. now rewrite H. Qed.

Lemma try_except_caught {A} (c : M E A) catches h w x w' :
  c w = (Raise x, w') -> catches x = true -> try_except c catches h w = h x w'.
Proof. intros H Hc. unfold try_except. now rewrite H, Hc. Qed.

Lemma try_except_uncaught {A} (c : M E A) catches h w x w' :
  c w = (Raise x, w') -> catches x = false ->
  try_except c catches h w = (Raise x, w').
Proof. intros H Hc. unfold try_except. now rewrite H, Hc. Qed.

(** One turn of the loop either leaves the dict as it was or assigns the
    turn's branch. *)
Lemma import_branch_dict package_content ctx b bc w bc' w' :
  import_branch handle package_content ctx b bc w = (Ok bc', w') ->
  bc' = bc \/ exists h, bc' = dict.set b h bc.
Proof.
  unfold import_branch. rewrite bind_log.
  unfold bind at 1.
  destruct (call handle _ _) as [[v|x] w1]; [|discriminate].
  unfold bind at 1.
  destruct (try_except _ _ _ w1) as [[staged|x] w2]; [|discriminate].
  destruct staged; cbn [negb]; [|intros H; inversion H; now left].
  unfold bind at 1.
  destruct (try_except _ _ _ w2) as [[pushed|x] w3]; [|discriminate].
  destruct pushed; cbn [negb]; [|intros H; inversion H; now left].
  unfold bind at 1.
  destruct (call handle _ _) as [[v1|x] w4]; [|discriminate].
  unfold bind at 1.
  destruct (call handle _ _) as [[h|x] w5]; [|discriminate].
  intros H; inversion H. right. now exists h.
Qed.

Lemma dict_get_set_ne k k' v (d : dict.t) :
  k <> k' -> dict.get k (dict.set k' v d) = dict.get k d.
Proof.
  intros Hne. induction d as [|[k0 v0] d IH]; cbn [dict.set dict.get].
  - destruct (String.eqb_spec k k'); [contradiction | reflexivity].
  - destruct (String.eqb_spec k' k0) as [->|Hk0]; cbn [dict.get].
    + destruct (String.eqb_spec k k0); [contradiction | reflexivity].
    + now rewrite IH.
Qed.



(** C10. In [import_package], an exception raised by the push that is not
    the rpkg error is not caught: the call raises it right there, with the
    failed push as its last event, whatever branches remain. *)
Theorem import_package_push_other_exception_propagates
    opts namespace package_content pre b post w ctx w0 bc1 w1 v e2 w3 x e5 :
  import_setup handle opts namespace (pre ++ b :: post) package_content w
  = (Ok ctx, w0) ->
  import_branches handle package_content ctx pre [] w0 = (Ok bc1, w1) ->
  handle (RpkgSwitchBranch b) (env w1) = (Ret v, e2) ->
  stage_or_sync handle package_content ctx b bc1
    (MkWorld e2 (trace w1 ++ [EvLog LDebug "checkout '{0}' branch" [VStr b];
                              EvCall (RpkgSwitchBranch b) (Ret v)]))
  = (Ok tt, w3) ->
  handle RpkgPush (env w3) = (Exc x, e5) ->
  is_rpkgError x = false ->
  import_package handle opts namespace (pre ++ b :: post) package_content w
  = (Raise x,
     MkWorld e5 (trace w3 ++ [EvLog LDebug "push" []; EvCall RpkgPush (Exc x)])).
Proof.
  intros Hsetup Hpre Hsw Hstage Hpush Hx.
  unfold import_package. rewrite (bind_ok _ _ _ _ _ Hsetup).
  rewrite (bind_cong _ _ _ _ (import_branches_app _ _ _ _ _)), bind_bind.
  rewrite (bind_ok _ _ _ _ _ Hpre).
  cbn [import_branches]. rewrite bind_bind.
  assert (Hp : push_branch handle w3
               = (Raise x,
                  MkWorld e5 (trace w3 ++ [EvLog LDebug "push" [];
                                           EvCall RpkgPush (Exc x)]))).
  { unfold push_branch. rewrite bind_log. cbn [env trace].
    rewrite (bind_call_exc _ _ _ _ _ _ Hpush). now rewrite <- app_assoc. }
  apply bind_raise.
  unfold import_branch. rewrite bind_log.
  destruct w1 as [e1 tr1]. cbn [env trace] in *.
  rewrite (bind_call_ret _ _ _ _ _ _ Hsw). rewrite <- app_assoc. cbn [app].
  rewrite (bind_ok _ _ _ _ _
    (try_except_ok _ (fun _ => true) _ _ _ _
       (eq_trans (bind_ok _ (fun _ => ret true) _ _ _ Hstage) eq_refl))).
  cbn [negb].
  apply bind_raise.
  apply (try_except_uncaught _ is_rpkgError _ _ _ _
           (bind_raise _ _ _ _ _ Hp) Hx).
Qed.

(** *** Seeding and synchronising *)

Lemma replay_app ops1 ops2 : forall e,
  replay handle (ops1 ++ ops2) e
  = let (evs1, e1) := replay handle ops1 e in
    let (evs2, e2) := replay handle ops2 e1 in
    (evs1 ++ evs2, e2).
Proof.
  induction ops1 as [|o ops1 IH]; intros e; cbn [app replay].
  - now destruct (replay handle ops2 e).
  - destruct (handle o e) as [a e1]. rewrite IH.
    destruct (replay handle ops1 e1) as [evs1 e2].
    now destruct (replay handle ops2 e2).
Qed.

Lemma emits_ret {A} P (a : A) : emits P (ret (E := E) a).
Proof.
  intros w r w' H. inversion H; subst. exists []. now rewrite app_nil_r.
Qed.

Lemma emits_raise {A} P x : emits P (raise (E := E) (A := A) x).
Proof.
  intros w r w' H. inversion H; subst. exists []. now rewrite app_nil_r.
Qed.

Lemma emits_log P lvl template args : emits P (log (E := E) lvl template args).
Proof.
  intros w r w' H. inversion H; subst. now exists [EvLog lvl template args].
Qed.

Lemma emits_call P o : P o = true -> emits P (call handle o).
Proof.
  intros HP w r w' H. unfold call in H.
  destruct (handle o (env w)) as [a e'].
  exists [EvCall o a]. split.
  - destruct a; inversion H; reflexivity.
  - unfold calls_of. cbn. now rewrite HP.
Qed.

Lemma emits_bind {A B} P (c : M E A) (k : A -> M E B) :
  emits P c -> (forall a, emits P (k a)) -> emits P (bind c k).
Proof.
  intros Hc Hk w r w' H. unfold bind in H.
  destruct (c w) as [[a|x] w1] eqn:Hcw.
  - destruct (Hc _ _ _ Hcw) as (tr1 & Ht1 & HP1).
    destruct (Hk a _ _ _ H) as (tr2 & Ht2 & HP2).
    exists (tr1 ++ tr2). split.
    + now rewrite Ht2, Ht1, app_assoc.
    + now rewrite calls_of_app, forallb_app, HP1, HP2.
  - inversion H; subst. exact (Hc _ _ _ Hcw).
Qed.

Lemma emits_try_except {A} P (c : M E A) catches h :
  emits P c -> (forall x, emits P (h x)) -> emits P (try_except c catches h).
Proof.
  intros Hc Hh w r w' H. unfold try_except in H.
  destruct (c w) as [[a|x] w1] eqn:Hcw.
  - inversion H; subst. exact (Hc _ _ _ Hcw).
  - destruct (catches x).
    + destruct (Hc _ _ _ Hcw) as (tr1 & Ht1 & HP1).
      destruct (Hh x _ _ _ H) as (tr2 & Ht2 & HP2).
      exists (tr1 ++ tr2). split.
      * now rewrite Ht2, Ht1, app_assoc.
      * now rewrite calls_of_app, forallb_app, HP1, HP2.
    + inversion H; subst. exact (Hc _ _ _ Hcw).
Qed.

Lemma try_fast_forward_emits_git new_branch candidates :
  emits git_not_staging (try_fast_forward handle new_branch candidates).
Proof.
  induction candidates as [|b rest IH]; cbn [try_fast_forward].
  - apply emits_ret.
  - apply emits_bind; [now apply emits_call|].
    intros rc. destruct (negb (truthy rc)); [|exact IH].
    apply emits_bind; [apply emits_log | intros; apply emits_ret].
Qed.

(** Whatever git answers, [sync_branch] calls git and nothing else. *)
Lemma sync_branch_emits_git new_branch branch_commits message :
  emits git_not_staging (sync_branch handle new_branch branch_commits message).
Proof.
  unfold sync_branch.
  apply emits_bind; [apply try_fast_forward_emits_git|].
  intros [|]; [apply emits_ret|].
  apply emits_bind.
  { unfold first_key. destruct (dict.keys branch_commits);
      [apply emits_raise | apply emits_ret]. }
  intros branch. apply emits_bind; [apply emits_log|]. intros _.
  apply emits_bind; [now apply emits_call|]. intros _.
  apply emits_bind; [now apply emits_call|]. intros date.
  apply emits_bind; [now apply emits_call|]. intros changed.
  destruct (truthy changed); [|apply emits_log].
  apply emits_bind; [now apply emits_call | intros; apply emits_ret].
Qed.

Lemma elem_of_calls_of o a (tr : list event) :
  EvCall o a ∈ tr -> o ∈ calls_of tr.
Proof.
  intros H. apply list_elem_of_omap. exists (EvCall o a). now split.
Qed.

Lemma forallb_calls (P : op -> bool) (tr : list event) o a :
  forallb P (calls_of tr) = true -> EvCall o a ∈ tr -> P o = true.
Proof.
  intros Hall Hin. rewrite forallb_forall in Hall. apply Hall.
  apply list_elem_of_In. exact (elem_of_calls_of o a tr Hin).
Qed.

Ltac not_listed H :=
  repeat (apply elem_of_cons in H as [H|H]; [discriminate H|]);
  apply elem_of_nil in H; contradiction.

(** A run of the loop over the extra content (lines 214-219): it makes
    file tests and copies into [repo_dir] and stops at the first call that
    raises. *)
Lemma copy_extra_content_stops repo_dir paths : forall add_to_index w r w',
  copy_extra_content handle repo_dir paths add_to_index w = (r, w') ->
  exists delta,
    trace w' = trace w ++ delta
    /\ Forall (fun o => exists p, p ∈ paths /\
                 (o = OsPathIsfile p \/ o = ShutilCopy (VStr p) repo_dir
                  \/ o = ShutilCopytree (VStr p) repo_dir))
         (calls_of delta)
    /\ match r with
       | Ok _ => forall o y, EvCall o (Exc y) ∉ delta
       | Raise x =>
           exists pre o,
             delta = pre ++ [EvCall o (Exc x)]
             /\ (forall o' y, EvCall o' (Exc y) ∉ pre)
             /\ forall src dst, o = ShutilCopytree src dst ->
                  exists pre' path v,
                    pre = pre' ++ [EvCall (OsPathIsfile path) (Ret v)]
                    /\ src = VStr path /\ dst = repo_dir
                    /\ path ∈ paths /\ truthy v = false
       end.
Proof.
  induction paths as [|p rest IH]; intros idx w r w' H.
  - inversion H; subst. exists []. rewrite app_nil_r.
    split; [reflexivity|]. split; [constructor|].
    intros o y Hin. now apply elem_of_nil in Hin.
  - cbn [copy_extra_content] in H. destruct w as [e0 tr0]. cbn [trace].
    destruct (handle (OsPathIsfile p) e0) as [[v|x] e1] eqn:Hp.
    2: { rewrite (bind_call_exc _ _ _ _ _ _ Hp) in H. inversion H; subst.
         exists [EvCall (OsPathIsfile p) (Exc x)]. split; [reflexivity|].
         split.
         { constructor; [|constructor]. exists p.
           split; [apply list_elem_of_here | now left]. }
         exists [], (OsPathIsfile p). split; [reflexivity|].
         split; [intros o' y Hin; now apply elem_of_nil in Hin|].
         intros src dst Hd; discriminate Hd. }
    rewrite (bind_call_ret _ _ _ _ _ _ Hp) in H.
    set (c := if truthy v then ShutilCopy (VStr p) repo_dir
              else ShutilCopytree (VStr p) repo_dir).
    assert (Hc : (if truthy v then call handle (ShutilCopy (VStr p) repo_dir)
                  else call handle (ShutilCopytree (VStr p) repo_dir))
                 = call handle c)
      by (unfold c; destruct (truthy v); reflexivity).
    rewrite Hc in H.
    assert (Hcalls2 :
      forall q, q = p ->
      exists p0, p0 ∈ p :: rest /\
        (c = OsPathIsfile p0 \/ c = ShutilCopy (VStr p0) repo_dir
         \/ c = ShutilCopytree (VStr p0) repo_dir)).
    { intros q _. exists p. split; [apply list_elem_of_here|]. right.
      unfold c. destruct (truthy v); [now left | now right]. }
    destruct (handle c e1) as [[v2|x] e2] eqn:Hcopy.
    + rewrite (bind_call_ret _ _ _ _ _ _ Hcopy) in H.
      destruct (IH _ _ _ _ H) as (delta & Htr & Hcalls & Hshape).
      cbn [trace] in Htr.
      exists ([EvCall (OsPathIsfile p) (Ret v); EvCall c (Ret v2)] ++ delta).
      split; [rewrite Htr, <- !app_assoc; reflexivity|].
      split.
      { rewrite calls_of_app.
        change (calls_of [EvCall (OsPathIsfile p) (Ret v); EvCall c (Ret v2)])
          with [OsPathIsfile p; c].
        cbn [app]. constructor.
        { exists p. split; [apply list_elem_of_here | now left]. }
        constructor; [exact (Hcalls2 p eq_refl)|].
        eapply Forall_impl; [exact Hcalls|].
        intros o (q & Hq & Ho). exists q.
        split; [now apply list_elem_of_further | exact Ho]. }
      destruct r as [idx'|x].
      * intros o y Hin. apply elem_of_app in Hin as [Hin|Hin];
          [not_listed Hin | exact (Hshape o y Hin)].
      * destruct Hshape as (pre & o & -> & Hpre & Htree).
        exists ([EvCall (OsPathIsfile p) (Ret v); EvCall c (Ret v2)] ++ pre), o.
        split; [now rewrite app_assoc|].
        split.
        { intros o' y Hin. apply elem_of_app in Hin as [Hin|Hin];
            [not_listed Hin | exact (Hpre o' y Hin)]. }
        intros src dst Ho.
        destruct (Htree src dst Ho) as (pre' & path & v' & -> & -> & -> & Hpath & Hv).
        exists ([EvCall (OsPathIsfile p) (Ret v); EvCall c (Ret v2)] ++ pre'),
          path, v'.
        split; [now rewrite app_assoc|]. split; [reflexivity|].
        split; [reflexivity|].
        split; [now apply list_elem_of_further | exact Hv].
    + rewrite (bind_call_exc _ _ _ _ _ _ Hcopy) in H. inversion H; subst.
      exists [EvCall (OsPathIsfile p) (Ret v); EvCall c (Exc x)].
      split; [now rewrite <- app_assoc|].
      split.
      { change (calls_of [EvCall (OsPathIsfile p) (Ret v); EvCall c (Exc x)])
          with [OsPathIsfile p; c].
        constructor.
        { exists p. split; [apply list_elem_of_here | now left]. }
        constructor; [exact (Hcalls2 p eq_refl) | constructor]. }
      exists [EvCall (OsPathIsfile p) (Ret v)], c. split; [reflexivity|].
      split; [intros o' y Hin; not_listed Hin|].
      intros src dst Hc'. exists [], p, v. unfold c in Hc'.
      destruct (truthy v) eqn:Hv; [discriminate Hc'|].
      inversion Hc'; subst.
      split; [reflexivity|]. split; [reflexivity|]. split; [reflexivity|].
      split; [apply list_elem_of_here | reflexivity].
Qed.

(** A run of the seeding arm (lines 209-231) in which [shutil.copytree]
    raised: that call is the last one, and before it there are the copy of
    the spec file, file tests and copies only. *)
Lemma add_package_content_stops package_content repo_dir message w r w' :
  add_package_content handle package_content repo_dir message w = (r, w') ->
  exists delta,
    trace w' = trace w ++ delta
    /\ forall src dst x,
         EvCall (ShutilCopytree src dst) (Exc x) ∈ delta ->
         r = Raise x
         /\ exists v1 copies path v,
              delta
              = [EvLog LDebug "add package content" [];
                 EvCall (ShutilCopy (VStr (spec_path package_content)) repo_dir)
                   (Ret v1)]
                ++ copies
                ++ [EvCall (OsPathIsfile path) (Ret v);
                    EvCall (ShutilCopytree (VStr path) repo_dir) (Exc x)]
              /\ src = VStr path
              /\ path ∈ extra_content package_content
              /\ truthy v = false
              /\ (forall o y, EvCall o (Exc y) ∉ copies)
              /\ Forall (fun o => exists p,
                           p ∈ extra_content package_content /\
                           (o = OsPathIsfile p
                            \/ o = ShutilCopy (VStr p) repo_dir
                            \/ o = ShutilCopytree (VStr p) repo_dir))
                   (calls_of copies).
Proof.
  intros H. unfold add_package_content in H. rewrite bind_log in H.
  destruct w as [e0 tr0]. cbn [env trace] in *.
  destruct (handle (ShutilCopy (VStr (spec_path package_content)) repo_dir) e0)
    as [[v1|x1] e1] eqn:Hspec.
  2: { rewrite (bind_call_exc _ _ _ _ _ _ Hspec) in H. inversion H; subst.
       eexists. split; [now rewrite <- app_assoc|].
       intros src dst x Hin. exfalso. cbn [app] in Hin. not_listed Hin. }
  rewrite (bind_call_ret _ _ _ _ _ _ Hspec) in H. unfold bind at 1 in H.
  destruct (copy_extra_content handle repo_dir _ _ _) as [[idx|x1] w1] eqn:Hce.
  - destruct (copy_extra_content_stops _ _ _ _ _ _ Hce) as (d1 & Ht1 & _ & Hno).
    cbn [trace] in Ht1.
    match type of H with
    | ?C w1 = _ =>
        assert (Hrest : emits (fun o => negb (is_copytree_call o)) C)
    end.
    { apply emits_bind; [now apply emits_call|]. intros _.
      apply emits_bind; [apply emits_log|]. intros _.
      apply emits_bind; [now apply emits_call|]. intros _.
      apply emits_try_except; [|intros; apply emits_log].
      apply emits_bind; [apply emits_log|]. intros _.
      apply emits_bind; [now apply emits_call | intros; apply emits_ret]. }
    destruct (Hrest _ _ _ H) as (d2 & Ht2 & Hd2).
    exists (([EvLog LDebug "add package content" [];
              EvCall (ShutilCopy (VStr (spec_path package_content)) repo_dir)
                (Ret v1)] ++ d1) ++ d2).
    split; [rewrite Ht2, Ht1, <- !app_assoc; reflexivity|].
    intros src dst x Hin. exfalso.
    apply elem_of_app in Hin as [Hin|Hin].
    + apply elem_of_app in Hin as [Hin|Hin];
        [not_listed Hin | exact (Hno _ _ Hin)].
    + pose proof (forallb_calls _ _ _ _ Hd2 Hin) as HP. discriminate HP.
  - injection H as <- <-.
    destruct (copy_extra_content_stops _ _ _ _ _ _ Hce)
      as (d1 & Ht1 & Hcalls & pre & o & -> & Hpre & Htree).
    cbn [trace] in Ht1.
    exists ([EvLog LDebug "add package content" [];
             EvCall (ShutilCopy (VStr (spec_path package_content)) repo_dir)
               (Ret v1)] ++ pre ++ [EvCall o (Exc x1)]).
    split; [rewrite Ht1, <- !app_assoc; reflexivity|].
    intros src dst x Hin.
    apply elem_of_app in Hin as [Hin|Hin]; [exfalso; not_listed Hin|].
    apply elem_of_app in Hin as [Hin|Hin]; [exfalso; exact (Hpre _ _ Hin)|].
    apply list_elem_of_singleton in Hin. inversion Hin; subst.
    destruct (Htree src dst eq_refl)
      as (pre' & path & v & -> & -> & -> & Hpath & Hv).
    split; [reflexivity|].
    exists v1, pre', path, v.
    split; [now rewrite <- app_assoc|]. split; [reflexivity|].
    split; [exact Hpath|]. split; [exact Hv|].
    split.
    + intros o y Ho. apply (Hpre o y). apply elem_of_app. now left.
    + rewrite !calls_of_app in Hcalls. now apply Forall_app in Hcalls as [[? _]%Forall_app _].
Qed.

(** Every [shutil.copytree] call of a turn that starts with an empty
    [branch_commits] has the working copy itself as destination. *)
Lemma import_branch_copytree_into package_content ctx branch :
  emits (copytree_into (ctx_repo_dir ctx))
    (import_branch handle package_content ctx branch []).
Proof.
  assert (Hcopies : forall paths idx,
    emits (copytree_into (ctx_repo_dir ctx))
      (copy_extra_content handle (ctx_repo_dir ctx) paths idx)).
  { induction paths as [|p rest IH]; intros idx; cbn [copy_extra_content].
    - apply emits_ret.
    - apply emits_bind; [now apply emits_call|]. intros isfile.
      apply emits_bind; [|intros _; apply IH].
      destruct (truthy isfile); apply emits_call; [reflexivity|].
      now apply bool_decide_eq_true_2. }
  unfold import_branch.
  apply emits_bind; [apply emits_log|]. intros _.
  apply emits_bind; [now apply emits_call|]. intros _.
  apply emits_bind.
  { apply emits_try_except.
    - apply emits_bind; [|intros; apply emits_ret].
      unfold stage_or_sync. cbn [dict.nonempty negb].
      unfold add_package_content.
      apply emits_bind; [apply emits_log|]. intros _.
      apply emits_bind; [now apply emits_call|]. intros _.
      apply emits_bind; [apply Hcopies|]. intros idx.
      apply emits_bind; [now apply emits_call|]. intros _.
      apply emits_bind; [apply emits_log|]. intros _.
      apply emits_bind; [now apply emits_call|]. intros _.
      apply emits_try_except; [|intros; apply emits_log].
      apply emits_bind; [apply emits_log|]. intros _.
      apply emits_bind; [now apply emits_call | intros; apply emits_ret].
    - intros _. apply emits_bind; [apply emits_log | intros; apply emits_ret]. }
  intros staged. destruct (negb staged); [apply emits_ret|].
  apply emits_bind.
  { apply emits_try_except.
    - apply emits_bind; [|intros; apply emits_ret].
      unfold push_branch. apply emits_bind; [apply emits_log|]. intros _.
      apply emits_bind; [now apply emits_call | intros; apply emits_ret].
    - intros _. apply emits_bind; [apply emits_log | intros; apply emits_ret]. }
  intros pushed. destruct (negb pushed); [apply emits_ret|].
  apply emits_bind; [now apply emits_call|]. intros _.
  apply emits_bind; [now apply emits_call | intros; apply emits_ret].
Qed.

(** A turn of the loop that starts with an empty [branch_commits]: every
    [shutil.copytree] call has the working copy as destination, and one
    that raises is the last call of the turn, which ends with the dict as
    it was. *)
Lemma import_branch_copytree_stops
    package_content ctx branch w r w' :
  import_branch handle package_content ctx branch [] w = (r, w') ->
  exists delta,
    trace w' = trace w ++ delta
    /\ (forall src dst a,
          EvCall (ShutilCopytree src dst) a ∈ delta -> dst = ctx_repo_dir ctx)
    /\ (forall src dst x,
          EvCall (ShutilCopytree src dst) (Exc x) ∈ delta ->
          r = Ok []
          /\ exists v0 v1 copies path v,
               delta
               = [EvLog LDebug "checkout '{0}' branch" [VStr branch];
                  EvCall (RpkgSwitchBranch branch) (Ret v0);
                  EvLog LDebug "add package content" [];
                  EvCall (ShutilCopy (VStr (spec_path package_content))
                            (ctx_repo_dir ctx)) (Ret v1)]
                 ++ copies
                 ++ [EvCall (OsPathIsfile path) (Ret v);
                     EvCall (ShutilCopytree (VStr path) (ctx_repo_dir ctx))
                       (Exc x);
                     EvLog LException
                       "Error during source uploading, merge, or commit." []]
               /\ src = VStr path
               /\ path ∈ extra_content package_content
               /\ truthy v = false
               /\ (forall o y, EvCall o (Exc y) ∉ copies)
               /\ Forall (fun o => exists p,
                            p ∈ extra_content package_content /\
                            (o = OsPathIsfile p
                             \/ o = ShutilCopy (VStr p) (ctx_repo_dir ctx)
                             \/ o = ShutilCopytree (VStr p) (ctx_repo_dir ctx)))
                    (calls_of copies)).
Proof.
  intros H.
  destruct (import_branch_copytree_into package_content ctx branch _ _ _ H)
    as (delta & Htr & Hinto).
  exists delta. split; [exact Htr|]. split.
  { intros src dst a Hin.
    pose proof (forallb_calls _ _ _ _ Hinto Hin) as HP.
    now apply bool_decide_eq_true_1 in HP. }
  revert Htr. unfold import_branch in H. rewrite bind_log in H.
  destruct w as [e0 tr0]. cbn [env trace] in *.
  destruct (handle (RpkgSwitchBranch branch) e0) as [[v0|x0] e1] eqn:Hsw.
  2: { rewrite (bind_call_exc _ _ _ _ _ _ Hsw) in H. inversion H; subst.
       cbn [trace]. rewrite <- app_assoc. intros Htr%app_inv_head. subst delta.
       intros src dst x Hin. exfalso. cbn [app] in Hin. not_listed Hin. }
  rewrite (bind_call_ret _ _ _ _ _ _ Hsw) in H.
  rewrite <- app_assoc in H. cbn [app] in H.
  destruct (stage_or_sync handle package_content ctx branch []
              (MkWorld e1 (tr0 ++ [EvLog LDebug "checkout '{0}' branch" [VStr branch];
                                   EvCall (RpkgSwitchBranch branch) (Ret v0)])))
    as [[[]|x1] w2] eqn:Hst.
  - rewrite (bind_ok _ _ _ _ _
      (try_except_ok _ (fun _ => true) _ _ _ _
         (eq_trans (bind_ok _ (fun _ => ret true) _ _ _ Hst) eq_refl))) in H.
    cbn [negb] in H.
    match type of H with
    | ?C w2 = _ =>
        assert (Hrest : emits (fun o => negb (is_copytree_call o)) C)
    end.
    { apply emits_bind.
      { apply emits_try_except.
        - apply emits_bind; [|intros; apply emits_ret].
          unfold push_branch. apply emits_bind; [apply emits_log|]. intros _.
          apply emits_bind; [now apply emits_call | intros; apply emits_ret].
        - intros _. apply emits_bind; [apply emits_log | intros; apply emits_ret]. }
      intros pushed. destruct (negb pushed); [apply emits_ret|].
      apply emits_bind; [now apply emits_call|]. intros _.
      apply emits_bind; [now apply emits_call | intros; apply emits_ret]. }
    destruct (Hrest _ _ _ H) as (d2 & Ht2 & Hd2).
    unfold stage_or_sync in Hst. cbn [dict.nonempty negb] in Hst.
    destruct (add_package_content_stops _ _ _ _ _ _ Hst) as (d1 & Ht1 & Hd1).
    cbn [trace] in Ht1. rewrite Ht2, Ht1, <- !app_assoc.
    intros Htr%app_inv_head. subst delta.
    intros src dst x Hin. exfalso. cbn [app] in Hin.
    apply elem_of_cons in Hin as [Hin|Hin]; [discriminate Hin|].
    apply elem_of_cons in Hin as [Hin|Hin]; [discriminate Hin|].
    apply elem_of_app in Hin as [Hin|Hin].
    + destruct (Hd1 _ _ _ Hin) as [Hr _]. discriminate Hr.
    + pose proof (forallb_calls _ _ _ _ Hd2 Hin) as HP. discriminate HP.
  - rewrite (bind_ok _ _ _ _ _
      (eq_trans (try_except_caught _ (fun _ => true) _ _ _ _
                   (bind_raise _ _ _ _ _ Hst) eq_refl) eq_refl)) in H.
    cbn [negb] in H. inversion H; subst. cbn [trace].
    unfold stage_or_sync in Hst. cbn [dict.nonempty negb] in Hst.
    destruct (add_package_content_stops _ _ _ _ _ _ Hst) as (d1 & Ht1 & Hd1).
    cbn [trace] in Ht1. rewrite Ht1, <- !app_assoc.
    intros Htr%app_inv_head. subst delta.
    intros src dst x Hin. cbn [app] in Hin.
    apply elem_of_cons in Hin as [Hin|Hin]; [discriminate Hin|].
    apply elem_of_cons in Hin as [Hin|Hin]; [discriminate Hin|].
    apply elem_of_app in Hin as [Hin|Hin]; [|exfalso; not_listed Hin].
    destruct (Hd1 _ _ _ Hin)
      as (Hr & v1 & copies & path & v & -> & -> & Hpath & Hv & Hnone & Hcalls).
    inversion Hr; subst.
    split; [reflexivity|].
    exists v0, v1, copies, path, v.
    split; [cbn [app]; now rewrite <- !app_assoc|].
    repeat split; assumption.
Qed.

(** *** Provisioning *)

Lemma settled_step o o' e :
  settled handle o e -> settled handle o (snd (handle o' e)).
Proof.
  intros H ops. specialize (H (o' :: ops)). cbn [replay] in H.
  destruct (handle o' e) as [a e1]. cbn [snd].
  now destruct (replay handle ops e1).
Qed.

Lemma settled_replay o ops : forall e,
  settled handle o e -> settled handle o (snd (replay handle ops e)).
Proof.
  induction ops as [|o' ops IH]; intros e H; cbn [replay].
  - exact H.
  - pose proof (settled_step o o' e H) as H1.
    destruct (handle o' e) as [a e1]. cbn [snd] in H1.
    specialize (IH e1 H1). now destruct (replay handle ops e1).
Qed.

(** After a run in which every provisioning call was tolerated, each of
    them is settled. *)
Lemma replay_settles ops : forall e,
  provisioning_settles handle ->
  forallb is_provisioning_call ops = true ->
  forallb tolerated_event (fst (replay handle ops e)) = true ->
  forall o, o ∈ ops -> settled handle o (snd (replay handle ops e)).
Proof.
  induction ops as [|o' ops IH]; intros e Hs Hprov Hall o Ho.
  - inversion Ho.
  - cbn [forallb] in Hprov. apply andb_prop in Hprov as [Hp' Hprov].
    cbn [replay] in *.
    pose proof (Hs o' e Hp') as Hset.
    destruct (handle o' e) as [a e1].
    specialize (IH e1 Hs Hprov).
    pose proof (settled_replay o' ops e1) as Hkeep.
    destruct (replay handle ops e1) as [evs e2].
    cbn [fst snd forallb tolerated_event] in *.
    apply andb_prop in Hall as [Ha Hall].
    apply elem_of_cons in Ho as [->|Ho].
    + apply Hkeep, Hset, Ha.
    + now apply IH.
Qed.

Lemma settled_replay_tolerated ops : forall e,
  (forall o, o ∈ ops -> settled handle o e) ->
  forallb tolerated_event (fst (replay handle ops e)) = true.
Proof.
  induction ops as [|o ops IH]; intros e H; cbn [replay].
  - reflexivity.
  - pose proof (H o (list_elem_of_here _ _) []) as Ho. cbn [replay snd] in Ho.
    assert (Hrest : forall o', o' ∈ ops -> settled handle o' (snd (handle o e))).
    { intros o' Ho'. apply settled_step, H. now apply list_elem_of_further. }
    destruct (handle o e) as [a e1]. cbn [fst snd] in *.
    specialize (IH e1 Hrest).
    destruct (replay handle ops e1) as [evs e2].
    cbn [fst forallb tolerated_event] in *. now rewrite Ho, IH.
Qed.

(** One provisioning command under its [try]: a tolerated answer lets the
    run go on, with the state the command left. *)
Lemma provision_tolerated (o : op) already e tr a e1 :
  handle o e = (a, e1) ->
  tolerated a = true ->
  exists tr',
    try_except (bind (call handle o) (fun _ => ret tt)) is_CalledProcessError
      (tolerate_exists already) (MkWorld e tr)
    = (Ok tt, MkWorld e1 tr').
Proof.
  intros Hh Ha. unfold try_except.
  destruct a as [v|x].
  - rewrite (bind_call_ret _ _ _ _ _ _ Hh). eexists. reflexivity.
  - rewrite (bind_call_exc _ _ _ _ _ _ Hh).
    destruct x; try discriminate. cbn [is_CalledProcessError tolerate_exists].
    rewrite bind_log. cbn [tolerated] in Ha. rewrite Ha.
    eexists. reflexivity.
Qed.

Lemma provision_refused (o : op) already e tr rc out text e1 :
  handle o e = (Exc (CalledProcessError rc out text), e1) ->
  try_except (bind (call handle o) (fun _ => ret tt)) is_CalledProcessError
    (tolerate_exists already) (MkWorld e tr)
  = if py_eq rc (VInt 128)
    then (Ok tt,
          MkWorld e1
            (tr ++ [EvCall o (Exc (CalledProcessError rc out text));
                    EvLog LError "cmd: {}, rc: {}, msg: {}" [rc; out];
                    EvLog LInfo already []]))
    else (Raise (PackageImportException out),
          MkWorld e1
            (tr ++ [EvCall o (Exc (CalledProcessError rc out text));
                    EvLog LError "cmd: {}, rc: {}, msg: {}" [rc; out]])).
Proof.
  intros Hh. unfold try_except.
  rewrite (bind_call_exc _ _ _ _ _ _ Hh).
  cbn [is_CalledProcessError tolerate_exists]. rewrite bind_log.
  cbn [env trace]. destruct (py_eq rc (VInt 128)).
  - unfold log. cbn [env trace]. now rewrite <- !app_assoc.
  - unfold raise. now rewrite <- !app_assoc.
Qed.

Lemma provision_ok (o : op) already w w1 :
  try_except (bind (call handle o) (fun _ => ret tt)) is_CalledProcessError
    (tolerate_exists already) w = (Ok tt, w1) ->
  exists a, handle o (env w) = (a, env w1) /\ tolerated a = true.
Proof.
  unfold try_except, bind, call.
  destruct (handle o (env w)) as [[v|x] e1].
  - intros H. inversion H. exists (Ret v). split; reflexivity.
  - destruct (is_CalledProcessError x) eqn:Hx.
    + destruct x; try discriminate. cbn [tolerate_exists]. unfold bind, log.
      cbn [env trace].
      destruct (py_eq returncode (VInt 128)) eqn:Hrc.
      * intros H. inversion H. eexists. split; [reflexivity | exact Hrc].
      * discriminate.
    + discriminate.
Qed.

Lemma setup_branches_ok reponame branches : forall w w1,
  setup_branches handle reponame branches w = (Ok tt, w1) ->
  env w1 = snd (replay handle (map (fun b => mkbranch_cmd b reponame) branches) (env w))
  /\ forallb tolerated_event
       (fst (replay handle (map (fun b => mkbranch_cmd b reponame) branches) (env w)))
     = true.
Proof.
  induction branches as [|b rest IH]; intros w w1 H.
  - inversion H. split; reflexivity.
  - cbn [setup_branches] in H. unfold bind at 1 in H.
    destruct (try_except _ _ _ w) as [[[]|x] w'] eqn:Hb; [|discriminate].
    destruct (provision_ok _ _ _ _ Hb) as (a & Hh & Ha).
    destruct (IH _ _ H) as [Henv Hall].
    cbn [map replay]. rewrite Hh.
    destruct (replay handle _ (env w')) as [evs e2].
    cbn [fst snd forallb tolerated_event] in *. now rewrite Ha, Hall.
Qed.

Lemma setup_branches_tolerated reponame branches : forall e tr,
  forallb tolerated_event
    (fst (replay handle (map (fun b => mkbranch_cmd b reponame) branches) e))
  = true ->
  exists w2, setup_branches handle reponame branches (MkWorld e tr) = (Ok tt, w2).
Proof.
  induction branches as [|b rest IH]; intros e tr H.
  - eexists. reflexivity.
  - cbn [map replay] in H.
    destruct (handle (mkbranch_cmd b reponame) e) as [a e1] eqn:Hh.
    destruct (replay handle _ e1) as [evs e2] eqn:Hr.
    cbn [fst forallb tolerated_event] in H. apply andb_prop in H as [Ha Hall].
    destruct (provision_tolerated _ "Branch already exists...continuing"
                _ tr _ _ Hh Ha) as [tr' Hrun].
    cbn [setup_branches]. rewrite (bind_ok _ _ _ _ _ Hrun).
    apply IH. now rewrite Hr.
Qed.

Lemma provisioning_calls_are_provisioning reponame branches :
  forallb is_provisioning_call (provisioning_calls reponame branches) = true.
Proof.
  unfold provisioning_calls. cbn [forallb]. cbn [setup_git_package_cmd is_provisioning_call andb].
  induction branches as [|b rest IH]; [reflexivity | exact IH].
Qed.

(** C7. [setup_git_repo] goes on after exit status 128 of the repository
    command and, independently, of each branch command, having logged that
    the package or branch already exists; after any other exit status that
    [subprocess] reports as an error it raises [PackageImportException]
    with the output of the command.  So, when the provisioning commands
    report what exists with status 0 or 128, a second run right after a
    successful one succeeds. *)
Theorem setup_git_repo_tolerates_existing reponame branch branches w :
  (forall rc out text e1,
     handle (setup_git_package_cmd reponame) (env w)
     = (Exc (CalledProcessError rc out text), e1) ->
     let w1 :=
       MkWorld e1
         (trace w ++
          [EvLog LInfo "make sure repos exist: {}" [VStr reponame];
           EvCall (setup_git_package_cmd reponame)
             (Exc (CalledProcessError rc out text));
           EvLog LError "cmd: {}, rc: {}, msg: {}" [rc; out]]) in
     (py_eq rc (VInt 128) = true ->
      setup_git_repo handle reponame branches w
      = setup_branches handle reponame branches
          (MkWorld e1
             (trace w1 ++
              [EvLog LInfo "Package already exists...continuing" []])))
     /\ (py_eq rc (VInt 128) = false ->
         setup_git_repo handle reponame branches w
         = (Raise (PackageImportException out), w1)))
  /\ (forall rc out text e1,
        handle (mkbranch_cmd branch reponame) (env w)
        = (Exc (CalledProcessError rc out text), e1) ->
        let w1 :=
          MkWorld e1
            (trace w ++
             [EvCall (mkbranch_cmd branch reponame)
                (Exc (CalledProcessError rc out text));
              EvLog LError "cmd: {}, rc: {}, msg: {}" [rc; out]]) in
        (py_eq rc (VInt 128) = true ->
         setup_branches handle reponame (branch :: branches) w
         = setup_branches handle reponame branches
             (MkWorld e1
                (trace w1 ++
                 [EvLog LInfo "Branch already exists...continuing" []])))
        /\ (py_eq rc (VInt 128) = false ->
            setup_branches handle reponame (branch :: branches) w
            = (Raise (PackageImportException out), w1)))
  /\ (provisioning_settles handle ->
      forall w1,
        setup_git_repo handle reponame branches w = (Ok tt, w1) ->
        exists w2, setup_git_repo handle reponame branches w1 = (Ok tt, w2)).
Proof.
  destruct w as [e tr].
  split; [|split].
  - intros rc out text e1 Hh. cbv zeta. cbn [env trace] in *.
    unfold setup_git_repo. rewrite bind_log. cbn [env trace].
    pose proof (provision_refused _ "Package already exists...continuing" _
                  (tr ++ [EvLog LInfo "make sure repos exist: {}" [VStr reponame]])
                  _ _ _ _ Hh) as Hrepo.
    split; intros Hrc; rewrite Hrc in Hrepo.
    + rewrite (bind_ok _ _ _ _ _ Hrepo). now rewrite <- ?app_assoc.
    + rewrite (bind_raise _ _ _ _ _ Hrepo). now rewrite <- ?app_assoc.
  - intros rc out text e1 Hh. cbv zeta. cbn [env trace] in *.
    cbn [setup_branches].
    pose proof (provision_refused _ "Branch already exists...continuing" _
                  tr _ _ _ _ Hh) as Hbranch.
    split; intros Hrc; rewrite Hrc in Hbranch.
    + rewrite (bind_ok _ _ _ _ _ Hbranch). now rewrite <- ?app_assoc.
    + rewrite (bind_raise _ _ _ _ _ Hbranch). now rewrite <- ?app_assoc.
  - intros Hs w1 Hrun. cbn [env trace] in *.
    assert (Hfirst :
      env w1 = snd (replay handle (provisioning_calls reponame branches) e)
      /\ forallb tolerated_event
           (fst (replay handle (provisioning_calls reponame branches) e)) = true).
    { unfold setup_git_repo in Hrun. rewrite bind_log in Hrun.
      cbn [env trace] in Hrun. unfold bind at 1 in Hrun.
      destruct (try_except _ _ _ _) as [[[]|x] w'] eqn:Hrepo; [|discriminate].
      destruct (provision_ok _ _ _ _ Hrepo) as (a & Hh & Ha).
      destruct (setup_branches_ok _ _ _ _ Hrun) as [Henv Hall].
      cbn [env] in Hh. unfold provisioning_calls. cbn [replay]. rewrite Hh.
      destruct (replay handle _ (env w')) as [evs e2].
      cbn [fst snd forallb tolerated_event] in *. now rewrite Ha, Hall. }
    destruct Hfirst as [Henv Hall].
    pose proof (replay_settles _ e Hs
                  (provisioning_calls_are_provisioning reponame branches) Hall)
      as Hsettled.
    rewrite <- Henv in Hsettled.
    pose proof (settled_replay_tolerated _ _ Hsettled) as Hsecond.
    destruct w1 as [e1 tr1]. cbn [env] in *.
    unfold provisioning_calls in Hsecond. cbn [replay] in Hsecond.
    destruct (handle (setup_git_package_cmd reponame) e1) as [a ea] eqn:Hh.
    destruct (replay handle _ ea) as [evs eb] eqn:Hr.
    cbn [fst forallb tolerated_event] in Hsecond.
    apply andb_prop in Hsecond as [Ha Hrest].
    unfold setup_git_repo. rewrite bind_log. cbn [env trace].
    destruct (provision_tolerated _ "Package already exists...continuing"
                _ (tr1 ++ [EvLog LInfo "make sure repos exist: {}" [VStr reponame]])
                _ _ Hh Ha) as [tr' Hrepo].
    rewrite (bind_ok _ _ _ _ _ Hrepo).
    apply setup_branches_tolerated. now rewrite Hr.
Qed.

(** *** Exit paths that skip the final lines *)

Lemma lock_held_app tr1 tr2 :
  lock_held (tr1 ++ tr2) = fold_left lock_step tr2 (lock_held tr1).
Proof. unfold lock_held. apply fold_left_app. Qed.

(** C4. The lock is not released on the path of the missing package name: when the
    lock is acquired and the spec file yields no name, [import_package]
    raises [PackageImportException] right after the metadata lookup, no
    release call has been made and the lock is still held. *)
Theorem import_package_missing_name_keeps_lock
    opts namespace branches package_content w v e1 envr e2 :
  handle (LockAcquire 120) (env w) = (Ret v, e1) ->
  truthy v = true ->
  handle (GetPkgInfo (spec_path package_content)) e1
  = (Ret (VInfo "" envr), e2) ->
  let delta :=
    [EvCall (LockAcquire 120) (Ret v);
     EvLog LDebug "package_content: " [VStr (spec_path package_content)];
     EvCall (GetPkgInfo (spec_path package_content)) (Ret (VInfo "" envr));
     EvLog LDebug "pkg_info: " [VInfo "" envr]] in
  import_package handle opts namespace branches package_content w
  = (Raise (PackageImportException (VStr "Could not determine package name.")),
     MkWorld e2 (trace w ++ delta))
  /\ lock_held (trace w ++ delta) = true
  /\ LockRelease ∉ calls_of delta.
Proof.
  intros Hlock Hv Hinfo delta. split; [|split].
  - unfold import_package. apply bind_raise. unfold import_setup.
    destruct w as [e tr]. cbn [env trace] in *.
    rewrite (bind_call_ret _ _ _ _ _ _ Hlock). rewrite Hv. cbn [negb].
    rewrite bind_ret, bind_log. cbn [env trace].
    rewrite (bind_call_ret _ _ _ _ _ _ Hinfo). rewrite bind_log.
    cbn [env trace attr_name]. rewrite bind_ret.
    cbn [truthy String.eqb negb]. unfold bind, raise.
    unfold delta. now rewrite <- !app_assoc.
  - rewrite lock_held_app. unfold delta. cbn [fold_left lock_step].
    rewrite Hv. now rewrite orb_true_r.
  - unfold delta, calls_of. cbn. rewrite !elem_of_cons.
    intros [H|[H|H]]; try discriminate. inversion H.
Qed.

(** C6. The working directory is not removed on the path of the failed clone: when everything
    up to the clone succeeds and the clone raises, [import_package] raises
    [PackageImportException] with the text of the error, and the events
    since the provisioning create the temporary directory and never remove
    it. *)
Theorem import_package_clone_failure_keeps_tmpdir
    opts namespace branches package_content w v e1 name envr e2 w3
    repo_dir v1 v2 v3 e4 x e5 :
  handle (LockAcquire 120) (env w) = (Ret v, e1) ->
  truthy v = true ->
  handle (GetPkgInfo (spec_path package_content)) e1
  = (Ret (VInfo name envr), e2) ->
  truthy (VStr name) = true ->
  let reponame := String.append namespace (String.append "/" name) in
  setup_git_repo handle reponame branches
    (MkWorld e2
       (trace w ++
        [EvCall (LockAcquire 120) (Ret v);
         EvLog LDebug "package_content: " [VStr (spec_path package_content)];
         EvCall (GetPkgInfo (spec_path package_content)) (Ret (VInfo name envr));
         EvLog LDebug "pkg_info: " [VInfo name envr]]))
  = (Ok tt, w3) ->
  replay handle
    [Mkdtemp; RpkgCommands repo_dir (git_base_url opts);
     RpkgSetModuleName reponame; RpkgSetUpload repo_dir] (env w3)
  = ([EvCall Mkdtemp (Ret repo_dir);
      EvCall (RpkgCommands repo_dir (git_base_url opts)) (Ret v1);
      EvCall (RpkgSetModuleName reponame) (Ret v2);
      EvCall (RpkgSetUpload repo_dir) (Ret v3)], e4) ->
  handle (RpkgClone reponame repo_dir) e4 = (Exc x, e5) ->
  is_Exception x = true ->
  let delta :=
    [EvCall Mkdtemp (Ret repo_dir);
     EvLog LDebug "repo_dir: {}" [repo_dir];
     EvCall (RpkgCommands repo_dir (git_base_url opts)) (Ret v1);
     EvCall (RpkgSetModuleName reponame) (Ret v2);
     EvCall (RpkgSetUpload repo_dir) (Ret v3);
     EvLog LDebug "clone the pkg repository into repo_dir directory" [];
     EvCall (RpkgClone reponame repo_dir) (Exc x);
     EvLog LError "Failed to clone the Git repository and add files." []] in
  import_package handle opts namespace branches package_content w
  = (Raise (PackageImportException (VStr (exn_str x))),
     MkWorld e5 (trace w3 ++ delta))
  /\ leftover_tmpdirs delta = [repo_dir]
  /\ ShutilRmtree repo_dir ∉ calls_of delta.
Proof.
  intros Hlock Hv Hinfo Hname reponame Hsetup Hr Hclone Hx delta.
  split; [|split].
  - unfold import_package. apply bind_raise. unfold import_setup.
    destruct w as [e tr]. cbn [env trace] in *.
    rewrite (bind_call_ret _ _ _ _ _ _ Hlock). rewrite Hv. cbn [negb].
    rewrite bind_ret, bind_log. cbn [env trace].
    rewrite (bind_call_ret _ _ _ _ _ _ Hinfo). rewrite bind_log.
    cbn [env trace attr_name]. rewrite bind_ret.
    rewrite Hname. cbn [negb]. rewrite bind_ret.
    rewrite <- !app_assoc. cbn [app].
    fold reponame. rewrite (bind_ok _ _ _ _ _ Hsetup).
    destruct w3 as [e3 tr3]. cbn [env trace replay] in *.
    destruct (handle Mkdtemp e3) as [a0 ea] eqn:H0.
    destruct (handle (RpkgCommands _ _) ea) as [a1 eb] eqn:H1.
    destruct (handle (RpkgSetModuleName _) eb) as [a2 ec] eqn:H2.
    destruct (handle (RpkgSetUpload _) ec) as [a3 ed] eqn:H3.
    inversion Hr; subst; clear Hr.
    rewrite (bind_call_ret _ _ _ _ _ _ H0). rewrite bind_log. cbn [env trace].
    rewrite (bind_call_ret _ _ _ _ _ _ H1).
    rewrite (bind_call_ret _ _ _ _ _ _ H2).
    rewrite (bind_call_ret _ _ _ _ _ _ H3).
    apply bind_raise. unfold try_except. rewrite bind_log. cbn [env trace].
    rewrite (bind_call_exc _ _ _ _ _ _ Hclone). rewrite Hx.
    rewrite bind_log. cbn [env trace]. unfold raise, delta.
    now rewrite <- !app_assoc.
  - unfold delta, leftover_tmpdirs. reflexivity.
  - unfold delta, calls_of. cbn. rewrite !elem_of_cons.
    intros [H|[H|[H|[H|[H|H]]]]]; try discriminate. inversion H.
Qed.

(** C9. The group id is not restored on the path of the failed copy: when the group is
    switched, the destination is absent and [shutil.copyfile] raises,
    [my_upload] raises the same error at once; the last group switch of the
    run is the one to the group of apache, and the process keeps that
    group. *)
Theorem my_upload_copy_failure_keeps_gid
    opts repo_dir reponame abs_filename filehash w
    current_gid apache_gid v isdir e1 present e2 x e3 :
  let destination := lookaside_destination opts reponame abs_filename filehash in
  replay handle
    [OsGetgid; GrpGetgrnamGid "apache"; OsSetgid apache_gid;
     OsPathIsdir (posixpath.dirname destination)] (env w)
  = ([EvCall OsGetgid (Ret current_gid);
      EvCall (GrpGetgrnamGid "apache") (Ret apache_gid);
      EvCall (OsSetgid apache_gid) (Ret v);
      EvCall (OsPathIsdir (posixpath.dirname destination)) (Ret isdir)], e1) ->
  truthy isdir = true ->
  handle (OsPathExists destination) e1 = (Ret present, e2) ->
  truthy present = false ->
  handle (ShutilCopyfile abs_filename destination) e2 = (Exc x, e3) ->
  let delta :=
    [EvCall OsGetgid (Ret current_gid);
     EvCall (GrpGetgrnamGid "apache") (Ret apache_gid);
     EvCall (OsSetgid apache_gid) (Ret v);
     EvCall (OsPathIsdir (posixpath.dirname destination)) (Ret isdir);
     EvCall (OsPathExists destination) (Ret present);
     EvCall (ShutilCopyfile abs_filename destination) (Exc x)] in
  my_upload handle opts repo_dir reponame abs_filename filehash w
  = (Raise x, MkWorld e3 (trace w ++ delta))
  /\ gid_after current_gid delta = apache_gid
  /\ OsSetgid current_gid ∉ drop 3 (calls_of delta).
Proof.
  intros destination Hr Hisdir Hexists Hpresent Hcopy delta.
  split; [|split].
  - unfold my_upload. fold destination.
    destruct w as [e tr]. cbn [env trace replay] in *.
    destruct (handle OsGetgid e) as [a0 ea] eqn:H0.
    destruct (handle (GrpGetgrnamGid _) ea) as [a1 eb] eqn:H1.
    destruct (handle (OsSetgid _) eb) as [a2 ec] eqn:H2.
    destruct (handle (OsPathIsdir _) ec) as [a3 ed] eqn:H3.
    inversion Hr; subst; clear Hr.
    rewrite (bind_call_ret _ _ _ _ _ _ H0).
    rewrite (bind_call_ret _ _ _ _ _ _ H1).
    rewrite (bind_call_ret _ _ _ _ _ _ H2).
    rewrite (bind_call_ret _ _ _ _ _ _ H3).
    rewrite Hisdir. cbn [negb]. rewrite bind_ret.
    rewrite (bind_call_ret _ _ _ _ _ _ Hexists).
    rewrite Hpresent. cbn [negb].
    apply bind_raise. rewrite (bind_call_exc _ _ _ _ _ _ Hcopy).
    unfold delta. now rewrite <- !app_assoc.
  - reflexivity.
  - unfold delta, calls_of. cbn. rewrite !elem_of_cons.
    intros [H|[H|[H|H]]]; try discriminate. inversion H.
Qed.

End Properties.

(** * The upload shim on the modelled operating system *)

Section Lookaside.

Import posix.

Implicit Types (s : state) (p : string).

Lemma posix_getgid s : handle OsGetgid s = (Ret (VInt (gid s)), s).
Proof. reflexivity. Qed.

Lemma posix_getgrnam s name :
  handle (GrpGetgrnamGid name) s
  = match groups s !! name with
    | Some g => (Ret (VInt g), s)
    | None => (Exc (KeyError "getgrnam(): name not found"), s)
    end.
Proof. reflexivity. Qed.

Lemma posix_setgid s g :
  handle (OsSetgid (VInt g)) s
  = if may_setgid s g then (Ret VNone, set_gid g s)
    else (Exc (OSError "[Errno 1] Operation not permitted"), s).
Proof. reflexivity. Qed.

Lemma posix_isdir s p : handle (OsPathIsdir p) s = (Ret (VBool (isdir s p)), s).
Proof. reflexivity. Qed.

Lemma posix_exists s p : handle (OsPathExists p) s = (Ret (VBool (exists_ s p)), s).
Proof. reflexivity. Qed.

Lemma posix_makedirs s p :
  handle (OsMakedirs p) s
  = if makedirs_blocked s p then (Exc (OSError "[Errno 17] File exists"), s)
    else (Ret VNone, set_dirs ({[p]} ∪ list_to_set (ancestors p) ∪ dirs s) s).
Proof. reflexivity. Qed.

Lemma posix_copyfile s src dst :
  handle (ShutilCopyfile src dst) s
  = match files s !! src with
    | Some content =>
        if copyfile_target_ok s dst
        then (Ret VNone, set_files (<[dst := content]> (files s)) s)
        else (Exc (OSError "[Errno 2] No such file or directory"), s)
    | None => (Exc (OSError "[Errno 2] No such file or directory"), s)
    end.
Proof. reflexivity. Qed.

Lemma set_gid_back s g : set_gid (gid s) (set_gid g s) = s.
Proof. now destruct s. Qed.

Lemma isdir_set_gid s g p : isdir (set_gid g s) p = isdir s p.
Proof. reflexivity. Qed.

Lemma exists_set_gid s g p : exists_ (set_gid g s) p = exists_ s p.
Proof. reflexivity. Qed.

(** The [if not isdir: try makedirs except OSError] block when the
    directory cannot be made: the error is logged and the run goes on. *)
Lemma makedirs_blocked_caught s tr p :
  makedirs_blocked s p = true ->
  try_except (bind (call handle (OsMakedirs p)) (fun _ => ret tt)) is_OSError
    (fun e => log LException "{}" [VStr (exn_str e)]) (MkWorld s tr)
  = (Ok tt,
     MkWorld s
       (tr ++ [EvCall (OsMakedirs p) (Exc (OSError "[Errno 17] File exists"));
               EvLog LException "{}" [VStr "[Errno 17] File exists"]])).
Proof.
  intros Hb. unfold try_except.
  assert (Hh : handle (OsMakedirs p) s
               = (Exc (OSError "[Errno 17] File exists"), s))
    by (rewrite posix_makedirs, Hb; reflexivity).
  rewrite (bind_call_exc handle _ _ _ _ _ _ Hh). cbn [is_OSError].
  unfold log. cbn [env trace exn_str]. now rewrite <- app_assoc.
Qed.

Lemma makedirs_made s tr p :
  makedirs_blocked s p = false ->
  try_except (bind (call handle (OsMakedirs p)) (fun _ => ret tt)) is_OSError
    (fun e => log LException "{}" [VStr (exn_str e)]) (MkWorld s tr)
  = (Ok tt,
     MkWorld (set_dirs ({[p]} ∪ list_to_set (ancestors p) ∪ dirs s) s)
       (tr ++ [EvCall (OsMakedirs p) (Ret VNone)])).
Proof.
  intros Hb. unfold try_except.
  assert (Hh : handle (OsMakedirs p) s
               = (Ret VNone, set_dirs ({[p]} ∪ list_to_set (ancestors p) ∪ dirs s) s))
    by (rewrite posix_makedirs, Hb; reflexivity).
  now rewrite (bind_call_ret handle _ _ _ _ _ _ Hh).
Qed.

(** An upload onto a state where the destination exists changes nothing
    and copies nothing. *)
Lemma my_upload_present opts repo_dir reponame abs_filename filehash s tr ga :
  let destination := lookaside_destination opts reponame abs_filename filehash in
  groups s !! "apache" = Some ga ->
  may_setgid s ga = true ->
  may_setgid s (gid s) = true ->
  isdir s (posixpath.dirname destination) = true
  \/ makedirs_blocked s (posixpath.dirname destination) = true ->
  exists_ s destination = true ->
  exists delta,
    my_upload handle opts repo_dir reponame abs_filename filehash (MkWorld s tr)
    = (Ok tt, MkWorld s (tr ++ delta))
    /\ no_copy delta.
Proof.
  intros destination Hga Hsa Hback Hdir Hex.
  unfold my_upload. fold destination.
  rewrite (bind_call_ret handle _ _ _ _ _ _ (posix_getgid s)).
  assert (H1 : handle (GrpGetgrnamGid "apache") s = (Ret (VInt ga), s))
    by (rewrite posix_getgrnam, Hga; reflexivity).
  rewrite (bind_call_ret handle _ _ _ _ _ _ H1).
  assert (H2 : handle (OsSetgid (VInt ga)) s = (Ret VNone, set_gid ga s))
    by (rewrite posix_setgid, Hsa; reflexivity).
  rewrite (bind_call_ret handle _ _ _ _ _ _ H2).
  rewrite (bind_call_ret handle _ _ _ _ _ _ (posix_isdir _ _)).
  rewrite isdir_set_gid. cbn [truthy].
  assert (H3 : handle (OsSetgid (VInt (gid s))) (set_gid ga s) = (Ret VNone, s)).
  { rewrite posix_setgid.
    change (may_setgid (set_gid ga s) (gid s)) with (may_setgid s (gid s)).
    rewrite Hback. now rewrite set_gid_back. }
  destruct (isdir s (posixpath.dirname destination)) eqn:Hd; cbn [negb].
  - rewrite bind_ret.
    rewrite (bind_call_ret handle _ _ _ _ _ _ (posix_exists _ _)).
    rewrite exists_set_gid, Hex. cbn [truthy negb]. rewrite bind_ret.
    rewrite (bind_call_ret handle _ _ _ _ _ _ H3). unfold ret.
    eexists. split; [rewrite <- !app_assoc; reflexivity|].
    intros src dst. unfold calls_of. cbn.
    repeat (apply not_elem_of_cons; split; [discriminate|]).
    apply not_elem_of_nil.
  - destruct Hdir as [Hdir|Hblocked]; [discriminate|].
    rewrite (bind_ok _ _ _ _ _
               (makedirs_blocked_caught (set_gid ga s) _ _ Hblocked)).
    rewrite (bind_call_ret handle _ _ _ _ _ _ (posix_exists _ _)).
    rewrite exists_set_gid, Hex. cbn [truthy negb]. rewrite bind_ret.
    rewrite (bind_call_ret handle _ _ _ _ _ _ H3). unfold ret.
    eexists. split; [rewrite <- !app_assoc; reflexivity|].
    intros src dst. unfold calls_of. cbn.
    repeat (apply not_elem_of_cons; split; [discriminate|]).
    apply not_elem_of_nil.
Qed.

(** The last lines of [my_upload], from the existence check on. *)
Lemma my_upload_tail_ok abs_filename destination (g0 : Z) s1 tr1 w1 :
  bind (call handle (OsPathExists destination))
    (fun present =>
       bind (if negb (truthy present)
             then bind (call handle (ShutilCopyfile abs_filename destination))
                    (fun _ => ret tt)
             else ret tt)
         (fun _ => bind (call handle (OsSetgid (VInt g0))) (fun _ => ret tt)))
    (MkWorld s1 tr1)
  = (Ok tt, w1) ->
  may_setgid s1 g0 = true
  /\ (exists_ s1 destination = true /\ env w1 = set_gid g0 s1
      \/ exists_ s1 destination = false
         /\ exists content,
             files s1 !! abs_filename = Some content
             /\ copyfile_target_ok s1 destination = true
             /\ env w1
                = set_gid g0 (set_files (<[destination := content]> (files s1)) s1)).
Proof.
  rewrite (bind_call_ret handle _ _ _ _ _ _ (posix_exists _ _)). cbn [truthy].
  destruct (exists_ s1 destination) eqn:Hex; cbn [negb].
  - rewrite bind_ret. unfold bind, call. cbn [env trace].
    rewrite posix_setgid. destruct (may_setgid s1 g0); [|discriminate].
    intros H. inversion H. split; [reflexivity|]. left. now split.
  - unfold bind at 1. unfold bind at 1. unfold call at 1. cbn [env trace].
    rewrite posix_copyfile.
    destruct (files s1 !! abs_filename) as [content|] eqn:Hsrc; [|discriminate].
    destruct (copyfile_target_ok s1 destination) eqn:Hok; [|discriminate].
    unfold ret at 1. unfold bind, call. cbn [env trace].
    rewrite posix_setgid.
    change (may_setgid (set_files _ s1) g0) with (may_setgid s1 g0).
    destruct (may_setgid s1 g0); [|discriminate].
    intros H. inversion H. split; [reflexivity|]. right.
    split; [reflexivity|]. exists content. now repeat split.
Qed.

Lemma isfile_insert s dst content :
  isfile (set_files (<[dst := content]> (files s)) s) dst = true.
Proof.
  unfold isfile. apply bool_decide_eq_true. cbn [files set_files].
  rewrite lookup_insert_eq. now eexists.
Qed.

(** After the last lines have succeeded, the destination exists and a
    further upload changes nothing. *)
Lemma my_upload_tail_settles
    opts repo_dir reponame abs_filename filehash (g0 ga : Z) s1 tr1 w1 :
  let destination := lookaside_destination opts reponame abs_filename filehash in
  bind (call handle (OsPathExists destination))
    (fun present =>
       bind (if negb (truthy present)
             then bind (call handle (ShutilCopyfile abs_filename destination))
                    (fun _ => ret tt)
             else ret tt)
         (fun _ => bind (call handle (OsSetgid (VInt g0))) (fun _ => ret tt)))
    (MkWorld s1 tr1)
  = (Ok tt, w1) ->
  groups s1 !! "apache" = Some ga ->
  may_setgid s1 ga = true ->
  isdir s1 (posixpath.dirname destination) = true
  \/ makedirs_blocked s1 (posixpath.dirname destination) = true ->
  gid (env w1) = g0
  /\ exists_ (env w1) destination = true
  /\ (files (env w1) = files s1
      \/ exists_ s1 destination = false
         /\ exists content,
             files s1 !! abs_filename = Some content
             /\ files (env w1) = <[destination := content]> (files s1))
  /\ forall tr,
      exists delta,
        my_upload handle opts repo_dir reponame abs_filename filehash
          (MkWorld (env w1) tr)
        = (Ok tt, MkWorld (env w1) (tr ++ delta))
        /\ no_copy delta.
Proof.
  intros destination Htail Hga Hsa Hdir.
  destruct (my_upload_tail_ok _ _ _ _ _ _ Htail)
    as [Hback [[Hex ->]|(Hex & content & Hsrc & Hok & ->)]].
  - split; [reflexivity|]. split; [exact Hex|]. split; [now left|].
    intros tr. now apply (my_upload_present opts repo_dir reponame abs_filename
                           filehash (set_gid g0 s1) tr ga).
  - split; [reflexivity|].
    assert (Hnow : exists_ (set_gid g0 (set_files (<[destination:=content]> (files s1)) s1))
                     destination = true).
    { unfold exists_. rewrite orb_true_iff. right. apply isfile_insert. }
    split; [exact Hnow|]. split.
    { right. split; [exact Hex|]. now exists content. }
    intros tr.
    apply (my_upload_present opts repo_dir reponame abs_filename filehash _ tr ga);
      try assumption.
    left. unfold copyfile_target_ok in Hok.
    apply andb_prop in Hok as [_ Hok]. exact Hok.
Qed.

(** *** The destination path *)

Lemma rsplit_tail_no_slash p : forall h t,
  posixpath.rsplit p = Some (h, t) -> posixpath.rsplit t = None.
Proof.
  induction p as [|c r IH]; intros h t H; cbn [posixpath.rsplit] in H.
  - discriminate.
  - destruct (posixpath.rsplit r) as [[h' t']|] eqn:Hr.
    + inversion H; subst. exact (IH _ _ eq_refl).
    + destruct (posixpath.is_slash c); [|discriminate].
      inversion H; subst. exact Hr.
Qed.

Lemma no_slash_not_absolute p :
  posixpath.rsplit p = None -> posixpath.startswith_slash p = false.
Proof.
  destruct p as [|c r]; [reflexivity|]. cbn [posixpath.rsplit posixpath.startswith_slash].
  destruct (posixpath.rsplit r) as [[h t]|]; [discriminate|].
  now destruct (posixpath.is_slash c).
Qed.

Lemma basename_not_absolute p :
  posixpath.startswith_slash (posixpath.basename p) = false.
Proof.
  unfold posixpath.basename.
  destruct (posixpath.rsplit p) as [[h t]|] eqn:Hp.
  - apply no_slash_not_absolute. exact (rsplit_tail_no_slash _ _ _ Hp).
  - now apply no_slash_not_absolute.
Qed.

Lemma join2_extends a b :
  posixpath.startswith_slash b = false ->
  exists suffix, posixpath.join2 a b = String.append a suffix.
Proof.
  intros Hb. unfold posixpath.join2. rewrite Hb.
  destruct (_ || _); eexists; reflexivity.
Qed.

Lemma string_app_assoc (a b c : string) :
  String.append (String.append a b) c = String.append a (String.append b c).
Proof.
  induction a as [|x a IH]; [reflexivity|].
  change (String x (String.append (String.append a b) c)
          = String x (String.append a (String.append b c))).
  now f_equal.
Qed.

Lemma string_app_empty (a : string) : a = String.append a "".
Proof.
  induction a as [|x a IH]; [reflexivity|].
  change (String x a = String x (String.append a "")). now f_equal.
Qed.

Lemma join_extends ps : forall a,
  Forall (fun p => posixpath.startswith_slash p = false) ps ->
  exists suffix, posixpath.join a ps = String.append a suffix.
Proof.
  unfold posixpath.join.
  induction ps as [|p ps IH]; intros a Hps; cbn [fold_left].
  - exists "". apply string_app_empty.
  - apply Forall_cons in Hps as [Hp Hps].
    destruct (join2_extends a p Hp) as [s1 ->].
    destruct (IH (String.append a s1) Hps) as [s2 ->].
    exists (String.append s1 s2). apply string_app_assoc.
Qed.

Lemma exists_grows s d p :
  exists_ s p = true -> exists_ (set_dirs (d ∪ dirs s) s) p = true.
Proof.
  unfold exists_, isdir, isfile. cbn [dirs files set_dirs].
  rewrite !orb_true_iff, !bool_decide_eq_true.
  intros [H|H]; [left; set_solver | now right].
Qed.

Lemma no_slash_no_trailing p :
  posixpath.rsplit p = None -> posixpath.endswith_slash p = false.
Proof.
  induction p as [|c r IH]; [reflexivity|]. cbn [posixpath.rsplit].
  destruct (posixpath.rsplit r) as [[h t]|]; [discriminate|].
  destruct (posixpath.is_slash c) eqn:Hc; [discriminate|]. intros _.
  destruct r as [|c' r']; [exact Hc | exact (IH eq_refl)].
Qed.

Lemma endswith_slash_app (a b : string) :
  b <> EmptyString ->
  posixpath.endswith_slash (String.append a b) = posixpath.endswith_slash b.
Proof.
  intros Hb. induction a as [|c r IH]; [reflexivity|].
  change (String.append (String c r) b) with (String c (String.append r b)).
  destruct (String.append r b) as [|c' s'] eqn:Hrb.
  - destruct r; [|discriminate]. now destruct b.
  - exact IH.
Qed.

(** [os.path.join] of a non-empty path without a trailing slash and a
    relative component puts one slash between them. *)
Lemma join2_plain p b :
  p <> EmptyString ->
  posixpath.endswith_slash p = false ->
  posixpath.startswith_slash b = false ->
  posixpath.join2 p b = String.append p (String "/" b).
Proof.
  intros Hp Hend Hb. unfold posixpath.join2. rewrite Hb, Hend.
  destruct (String.eqb_spec p ""); [contradiction | reflexivity].
Qed.

Lemma joined_plain p b :
  b <> EmptyString ->
  posixpath.endswith_slash b = false ->
  String.append p (String "/" b) <> EmptyString
  /\ posixpath.endswith_slash (String.append p (String "/" b)) = false.
Proof.
  intros Hb Hend. split.
  - destruct p; discriminate.
  - rewrite endswith_slash_app by discriminate.
    destruct b as [|c r]; [contradiction | exact Hend].
Qed.

(** The destination for a root without a trailing slash and plain
    components, as [os.path.join] builds it from left to right. *)
Lemma lookaside_destination_nested opts reponame abs_filename filehash :
  lookaside_location opts <> EmptyString ->
  posixpath.endswith_slash (lookaside_location opts) = false ->
  reponame <> EmptyString ->
  posixpath.startswith_slash reponame = false ->
  posixpath.endswith_slash reponame = false ->
  filehash <> EmptyString ->
  posixpath.startswith_slash filehash = false ->
  posixpath.endswith_slash filehash = false ->
  posixpath.basename abs_filename <> EmptyString ->
  lookaside_destination opts reponame abs_filename filehash
  = String.append
      (String.append
         (String.append
            (String.append (lookaside_location opts) (String "/" reponame))
            (String "/" (posixpath.basename abs_filename)))
         (String "/" filehash))
      (String "/" (posixpath.basename abs_filename)).
Proof.
  intros Hroot Hroot_end Hrepo Hrepo_abs Hrepo_end Hhash Hhash_abs Hhash_end
    Hname.
  pose proof (basename_not_absolute abs_filename) as Hname_abs.
  assert (Hname_end :
    posixpath.endswith_slash (posixpath.basename abs_filename) = false).
  { apply no_slash_no_trailing. unfold posixpath.basename.
    destruct (posixpath.rsplit abs_filename) as [[h t]|] eqn:Hp;
      [exact (rsplit_tail_no_slash _ _ _ Hp) | exact Hp]. }
  unfold lookaside_destination, posixpath.join.
  cbn [fold_left].
  rewrite (join2_plain _ reponame Hroot Hroot_end Hrepo_abs).
  destruct (joined_plain (lookaside_location opts) reponame Hrepo Hrepo_end)
    as [Hn1 He1].
  rewrite (join2_plain _ _ Hn1 He1 Hname_abs).
  destruct (joined_plain
              (String.append (lookaside_location opts) (String "/" reponame))
              _ Hname Hname_end) as [Hn2 He2].
  rewrite (join2_plain _ _ Hn2 He2 Hhash_abs).
  destruct (joined_plain
              (String.append
                 (String.append (lookaside_location opts) (String "/" reponame))
                 (String "/" (posixpath.basename abs_filename)))
              _ Hhash Hhash_end) as [Hn3 He3].
  exact (join2_plain _ _ Hn3 He3 Hname_abs).
Qed.

Lemma rsplit_with_slash (r t : string) :
  posixpath.rsplit (String.append r (String "/" t)) <> None.
Proof.
  induction r as [|c r IH].
  - change (String.append "" (String "/" t)) with (String "/" t).
    cbn [posixpath.rsplit]. destruct (posixpath.rsplit t) as [[h t']|];
      [discriminate|].
    change (posixpath.is_slash "/") with true. discriminate.
  - change (String.append (String c r) (String "/" t))
      with (String c (String.append r (String "/" t))).
    cbn [posixpath.rsplit].
    destruct (posixpath.rsplit (String.append r (String "/" t))) as [[h t']|];
      [discriminate | contradiction].
Qed.

(** Two paths whose last components have no slash agree when the last
    components and what precedes them agree. *)
Lemma last_component_inj (b b' : string) :
  posixpath.rsplit b = None -> posixpath.rsplit b' = None ->
  forall x x',
    String.append x (String "/" b) = String.append x' (String "/" b') ->
    x = x' /\ b = b'.
Proof.
  intros Hb Hb'. induction x as [|c r IH]; intros [|c' r'] H.
  - now injection H as <-.
  - exfalso.
    change (String "/" b = String c' (String.append r' (String "/" b'))) in H.
    injection H as _ ->. exact (rsplit_with_slash _ _ Hb).
  - exfalso.
    change (String c (String.append r (String "/" b)) = String "/" b') in H.
    injection H as _ <-. exact (rsplit_with_slash _ _ Hb').
  - change (String c (String.append r (String "/" b))
            = String c' (String.append r' (String "/" b'))) in H.
    injection H as -> H. destruct (IH _ H) as [-> ->]. now split.
Qed.

Lemma string_app_inv_head (a x y : string) :
  String.append a x = String.append a y -> x = y.
Proof.
  induction a as [|c a IH]; intros H; [exact H|].
  change (String c (String.append a x) = String c (String.append a y)) in H.
  injection H as H. exact (IH H).
Qed.

(** C8. For a source file, [my_upload] computes a destination from the
    lookaside root, the repository name, the base name of the file and its
    hash and from nothing else - a path below the root when name and hash
    are relative.  For a root without a trailing slash and plain
    components (not empty, relative, no trailing slash) the destination is
    the path [root/reponame/basename/filehash/basename], and it is keyed
    by its components: when the hashes have no slash, two destinations
    are equal only for equal repository name, base name and hash.  When an
    upload succeeds, either the store holds the files it held or the
    destination was absent and now holds the content of the source; the
    destination exists, and a second upload of the same file succeeds,
    copies nothing and leaves the state of the system as the first one
    left it.  The function takes no replace flag. *)
Theorem my_upload_idempotent
    opts repo_dir reponame abs_filename filehash s tr w1 :
  my_upload handle opts repo_dir reponame abs_filename filehash (MkWorld s tr)
  = (Ok tt, w1) ->
  let destination := lookaside_destination opts reponame abs_filename filehash in
  let plain := fun s : string =>
    s <> EmptyString /\ posixpath.startswith_slash s = false
    /\ posixpath.endswith_slash s = false in
  (forall other,
     posixpath.basename other = posixpath.basename abs_filename ->
     lookaside_destination opts reponame other filehash = destination)
  /\ (posixpath.startswith_slash reponame = false ->
      posixpath.startswith_slash filehash = false ->
      exists suffix,
        destination = String.append (lookaside_location opts) suffix)
  /\ (lookaside_location opts <> EmptyString ->
      posixpath.endswith_slash (lookaside_location opts) = false ->
      plain reponame -> plain filehash ->
      posixpath.basename abs_filename <> EmptyString ->
      destination
      = (lookaside_location opts ++ "/" ++ reponame ++ "/"
         ++ posixpath.basename abs_filename ++ "/" ++ filehash ++ "/"
         ++ posixpath.basename abs_filename)%string
      /\ forall reponame' abs_filename' filehash',
           plain reponame' -> plain filehash' ->
           posixpath.basename abs_filename' <> EmptyString ->
           posixpath.rsplit filehash = None ->
           posixpath.rsplit filehash' = None ->
           lookaside_destination opts reponame' abs_filename' filehash'
           = destination ->
           reponame' = reponame
           /\ posixpath.basename abs_filename' = posixpath.basename abs_filename
           /\ filehash' = filehash)
  /\ (files (env w1) = files s
      \/ exists_ s destination = false
         /\ exists content,
             files s !! abs_filename = Some content
             /\ files (env w1) = <[destination := content]> (files s))
  /\ exists_ (env w1) destination = true
  /\ forall tr',
      exists delta,
        my_upload handle opts repo_dir reponame abs_filename filehash
          (MkWorld (env w1) tr')
        = (Ok tt, MkWorld (env w1) (tr' ++ delta))
        /\ no_copy delta.
Proof.
  intros Hrun destination plain.
  split.
  { intros other Hother. unfold destination, lookaside_destination.
    now rewrite Hother. }
  split.
  { intros Hrepo Hhash. unfold destination, lookaside_destination.
    apply join_extends.
    repeat (apply Forall_cons; split);
      auto using basename_not_absolute. }
  split.
  { intros Hroot Hroot_end (Hrepo & Hrepo_abs & Hrepo_end)
      (Hhash & Hhash_abs & Hhash_end) Hname.
    pose proof (lookaside_destination_nested opts reponame abs_filename
                  filehash Hroot Hroot_end Hrepo Hrepo_abs Hrepo_end Hhash
                  Hhash_abs Hhash_end Hname) as Hdest.
    fold destination in Hdest. split.
    { rewrite Hdest, !string_app_assoc. reflexivity. }
    intros reponame' abs_filename' filehash' (Hrepo' & Hrepo_abs' & Hrepo_end')
      (Hhash' & Hhash_abs' & Hhash_end') Hname' Hplain Hplain' Heq.
    rewrite Hdest in Heq.
    rewrite (lookaside_destination_nested opts reponame' abs_filename'
               filehash' Hroot Hroot_end Hrepo' Hrepo_abs' Hrepo_end' Hhash'
               Hhash_abs' Hhash_end' Hname') in Heq.
    assert (Hbase : forall p, posixpath.rsplit (posixpath.basename p) = None).
    { intros p. unfold posixpath.basename.
      destruct (posixpath.rsplit p) as [[h t]|] eqn:Hp;
        [exact (rsplit_tail_no_slash _ _ _ Hp) | exact Hp]. }
    apply (last_component_inj _ _ (Hbase _) (Hbase _)) in Heq as [Heq Hfile].
    apply (last_component_inj _ _ Hplain' Hplain) in Heq as [Heq Hsame].
    apply (last_component_inj _ _ (Hbase _) (Hbase _)) in Heq as [Heq _].
    apply string_app_inv_head in Heq. injection Heq as Hname_eq.
    now split. }
  unfold my_upload in Hrun. fold destination in Hrun.
  rewrite (bind_call_ret handle _ _ _ _ _ _ (posix_getgid s)) in Hrun.
  unfold bind at 1, call at 1 in Hrun. cbn [env trace] in Hrun.
  rewrite posix_getgrnam in Hrun.
  destruct (groups s !! "apache") as [ga|] eqn:Hga; [|discriminate].
  unfold bind at 1, call at 1 in Hrun. cbn [env trace] in Hrun.
  rewrite posix_setgid in Hrun.
  destruct (may_setgid s ga) eqn:Hsa; [|discriminate].
  rewrite (bind_call_ret handle _ _ _ _ _ _ (posix_isdir _ _)) in Hrun.
  rewrite isdir_set_gid in Hrun. cbn [truthy] in Hrun.
  destruct (isdir s (posixpath.dirname destination)) eqn:Hd; cbn [negb] in Hrun.
  - rewrite bind_ret in Hrun.
    destruct (my_upload_tail_settles opts repo_dir reponame abs_filename
                filehash (gid s) ga _ _ _ Hrun Hga Hsa (or_introl Hd))
      as (_ & Hex & Hfiles & Hagain).
    split; [exact Hfiles|]. split; [exact Hex | exact Hagain].
  - destruct (makedirs_blocked (set_gid ga s) (posixpath.dirname destination))
      eqn:Hb.
    + rewrite (bind_ok _ _ _ _ _ (makedirs_blocked_caught _ _ _ Hb)) in Hrun.
      destruct (my_upload_tail_settles opts repo_dir reponame abs_filename
                  filehash (gid s) ga _ _ _ Hrun Hga Hsa (or_intror Hb))
        as (_ & Hex & Hfiles & Hagain).
      split; [exact Hfiles|]. split; [exact Hex | exact Hagain].
    + rewrite (bind_ok _ _ _ _ _ (makedirs_made _ _ _ Hb)) in Hrun.
      assert (Hmade :
        isdir (set_dirs ({[posixpath.dirname destination]}
                         ∪ list_to_set (ancestors (posixpath.dirname destination))
                         ∪ dirs (set_gid ga s)) (set_gid ga s))
          (posixpath.dirname destination) = true).
      { unfold isdir. apply bool_decide_eq_true. cbn [dirs set_dirs]. set_solver. }
      destruct (my_upload_tail_settles opts repo_dir reponame abs_filename
                  filehash (gid s) ga _ _ _ Hrun Hga Hsa (or_introl Hmade))
        as (_ & Hex & Hfiles & Hagain).
      split; [|split; [exact Hex | exact Hagain]].
      destruct Hfiles as [Hsame|(Habsent & content & Hsrc & Hcopied)].
      * now left.
      * right. split; [|now exists content].
        destruct (exists_ s destination) eqn:Hbefore; [|reflexivity].
        rewrite <- Habsent. symmetry.
        exact (exists_grows (set_gid ga s) _ _ Hbefore).
Qed.

End Lookaside.

(** * Runs on concrete input *)

Lemma sync_branch_first_fast_forward_wins_witness :
  exists w',
    sync_branch (scripted f40_diverged) "rawhide" demo_commits
      "automatic import of foo-1.0-1" (start [])
    = (Ok tt, w')
    /\ calls_of (trace w') = [git_merge_ff "f40"; git_merge_ff "f41"].
Proof.
  edestruct (sync_branch_first_fast_forward_wins (scripted f40_diverged)
               "rawhide" demo_commits "automatic import of foo-1.0-1" (start [])
               ["f40"] "f41" []) as [Hrun _]; [reflexivity .. |].
  eexists. split; [exact Hrun | reflexivity].
Defined.

Lemma sync_branch_reset_fallback_witness :
  exists w',
    sync_branch (scripted all_diverged) "rawhide" demo_commits
      "automatic import of foo-1.0-1" (start [])
    = (Ok tt, w')
    /\ calls_of (trace w')
       = [SubprocessCall [VStr "git"; VStr "merge"; VStr "f40"; VStr "--ff-only"];
          SubprocessCall [VStr "git"; VStr "merge"; VStr "f41"; VStr "--ff-only"];
          SubprocessCheckCall
            [VStr "git"; VStr "read-tree"; VStr "-m"; VStr "-u"; VStr "f40"];
          SubprocessCheckOutput
            [VStr "git"; VStr "show"; VStr "f40"; VStr "-q"; VStr "--format=%ai"]
            false;
          SubprocessCall
            [VStr "git"; VStr "diff"; VStr "--cached"; VStr "--exit-code"];
          SubprocessCheckCall
            [VStr "git"; VStr "commit"; VStr "--no-verify"; VStr "-m";
             VStr "automatic import of foo-1.0-1"; VStr "--date";
             VStr "2018-05-02 11:20:13 +0200"]].
Proof.
  edestruct (sync_branch_reset_fallback (scripted all_diverged)
               "rawhide" demo_commits "automatic import of foo-1.0-1" (start [])
               "f40" ["f41"]) as (_ & Hcommit & _); [reflexivity .. |].
  eexists. split; [apply (Hcommit eq_refl (Ret (VInt 0))) | reflexivity].
  reflexivity.
Defined.


Lemma import_package_push_other_exception_propagates_witness :
  exists wf,
    import_package (scripted f41_push_crashes) demo_opts "user1"
      demo_branches demo_content (start [])
    = (Raise (OSError "[Errno 12] Cannot allocate memory"), wf)
    /\ last (calls_of (trace wf)) = Some RpkgPush.
Proof.
  eexists. split.
  - apply (import_package_push_other_exception_propagates
             (scripted f41_push_crashes)
             demo_opts "user1" demo_content ["f40"] "f41" ["rawhide"]
             (start []) demo_ctx crashing_w0 rejected_bc1 crashing_w1
             VNone (crashing_w1.(env) ++ [RpkgSwitchBranch "f41"]) crashing_w3
             (OSError "[Errno 12] Cannot allocate memory")
             (crashing_w3.(env) ++ [RpkgPush]));
      vm_compute; reflexivity.
  - vm_compute; reflexivity.
Defined.


Lemma dist_git_host_settles : provisioning_settles (scripted dist_git_host).
Proof.
  intros o h Hprov _ ops. unfold scripted at 1. cbn [fst].
  unfold dist_git_host. rewrite Hprov.
  now destruct (bool_decide _).
Qed.

Lemma setup_git_repo_tolerates_existing_witness :
  setup_git_repo (scripted dist_git_host) "user1/foo" demo_branches (start [])
  = (Ok tt, provisioned_w1)
  /\ (exists w2,
        setup_git_repo (scripted dist_git_host) "user1/foo" demo_branches
          provisioned_w1 = (Ok tt, w2))
  /\ fst (setup_git_repo (scripted dist_git_host) "user1/foo" demo_branches
            provisioned_w1) = Ok tt.
Proof.
  assert (Hfirst :
    setup_git_repo (scripted dist_git_host) "user1/foo" demo_branches (start [])
    = (Ok tt, provisioned_w1)) by (vm_compute; reflexivity).
  split; [exact Hfirst | split].
  - exact (proj2 (proj2 (setup_git_repo_tolerates_existing
                           (scripted dist_git_host) "user1/foo" "f40"
                           demo_branches (start [])))
             dist_git_host_settles provisioned_w1 Hfirst).
  - vm_compute; reflexivity.
Defined.

Lemma import_package_missing_name_keeps_lock_witness :
  exists w',
    import_package (scripted no_package_name) demo_opts "user1" demo_branches
      demo_content (start [])
    = (Raise (PackageImportException (VStr "Could not determine package name.")),
       w')
    /\ lock_held (trace w') = true.
Proof.
  destruct (import_package_missing_name_keeps_lock (scripted no_package_name)
              demo_opts "user1" demo_branches demo_content (start [])
              (VBool true) [LockAcquire 120] ""
              [LockAcquire 120; GetPkgInfo "/tmp/in/foo.spec"]
              eq_refl eq_refl eq_refl)
    as (Hrun & Hheld & _).
  eexists. split; [exact Hrun | exact Hheld].
Defined.

Lemma import_package_clone_failure_keeps_tmpdir_witness :
  exists w',
    import_package (scripted clone_unreachable) demo_opts "user1" demo_branches
      demo_content (start [])
    = (Raise (PackageImportException (VStr "Could not execute clone")), w')
    /\ leftover_tmpdirs (trace w') = [VStr "/tmp/tmpk3x"].
Proof.
  destruct (import_package_clone_failure_keeps_tmpdir
              (scripted clone_unreachable)
              demo_opts "user1" demo_branches demo_content (start [])
              (VBool true) [LockAcquire 120] "foo" "1.0-1"
              [LockAcquire 120; GetPkgInfo "/tmp/in/foo.spec"]
              unreachable_w3 (VStr "/tmp/tmpk3x") VNone VNone VNone
              (env unreachable_w3 ++
               [Mkdtemp;
                RpkgCommands (VStr "/tmp/tmpk3x") (git_base_url demo_opts);
                RpkgSetModuleName "user1/foo";
                RpkgSetUpload (VStr "/tmp/tmpk3x")])
              (rpkgError "Could not execute clone")
              (env unreachable_w3 ++
               [Mkdtemp;
                RpkgCommands (VStr "/tmp/tmpk3x") (git_base_url demo_opts);
                RpkgSetModuleName "user1/foo";
                RpkgSetUpload (VStr "/tmp/tmpk3x");
                RpkgClone "user1/foo" (VStr "/tmp/tmpk3x")]))
    as (Hrun & _ & _); try (vm_compute; reflexivity).
  eexists. split; [exact Hrun | vm_compute; reflexivity].
Defined.

Lemma my_upload_copy_failure_keeps_gid_witness :
  exists w',
    my_upload posix.handle demo_opts (VStr "/tmp/tmpk3x") "user1/foo"
      "/tmp/in/foo-1.0.tar.gz" "d41d8cd9" (start demo_host_source_gone)
    = (Raise (OSError "[Errno 2] No such file or directory"), w')
    /\ posix.gid (env w') = 48
    /\ posix.gid demo_host_source_gone = 0.
Proof.
  destruct (my_upload_copy_failure_keeps_gid posix.handle demo_opts
              (VStr "/tmp/tmpk3x") "user1/foo" "/tmp/in/foo-1.0.tar.gz"
              "d41d8cd9" (start demo_host_source_gone)
              (VInt 0) (VInt 48) VNone (VBool true)
              (posix.set_gid 48 demo_host_source_gone) (VBool false)
              (posix.set_gid 48 demo_host_source_gone)
              (OSError "[Errno 2] No such file or directory")
              (posix.set_gid 48 demo_host_source_gone))
    as (Hrun & _ & _); try (vm_compute; reflexivity).
  eexists. split; [exact Hrun | split; vm_compute; reflexivity].
Defined.

Lemma my_upload_idempotent_witness :
  my_upload posix.handle demo_opts (VStr "/tmp/tmpk3x") "user1/foo"
    "/tmp/in/foo-1.0.tar.gz" "d41d8cd9" (start demo_host)
  = (Ok tt, uploaded_w1)
  /\ lookaside_destination demo_opts "user1/foo" "/tmp/in/foo-1.0.tar.gz"
       "d41d8cd9"
     = "/var/lib/dist-git/cache/lookaside/pkgs/user1/foo/foo-1.0.tar.gz/d41d8cd9/foo-1.0.tar.gz"
  /\ lookaside_destination demo_opts "user1/foo" "/tmp/in/foo-1.0.tar.gz"
       "0cc175b9"
     <> lookaside_destination demo_opts "user1/foo" "/tmp/in/foo-1.0.tar.gz"
          "d41d8cd9"
  /\ lookaside_destination demo_opts "user2/foo" "/tmp/in/foo-1.0.tar.gz"
       "d41d8cd9"
     <> lookaside_destination demo_opts "user1/foo" "/tmp/in/foo-1.0.tar.gz"
          "d41d8cd9"
  /\ posix.files (env uploaded_w1)
     !! (String.append demo_lookaside_dir "/foo-1.0.tar.gz")
     = Some "tarball"
  /\ exists delta,
       my_upload posix.handle demo_opts (VStr "/tmp/tmpk3x") "user1/foo"
         "/tmp/in/foo-1.0.tar.gz" "d41d8cd9" uploaded_w1
       = (Ok tt, MkWorld (env uploaded_w1) (trace uploaded_w1 ++ delta))
       /\ no_copy delta.
Proof.
  assert (Hfirst :
    my_upload posix.handle demo_opts (VStr "/tmp/tmpk3x") "user1/foo"
      "/tmp/in/foo-1.0.tar.gz" "d41d8cd9" (MkWorld demo_host [])
    = (Ok tt, uploaded_w1)) by (vm_compute; reflexivity).
  destruct (my_upload_idempotent demo_opts (VStr "/tmp/tmpk3x") "user1/foo"
              "/tmp/in/foo-1.0.tar.gz" "d41d8cd9" demo_host [] uploaded_w1
              Hfirst) as (_ & _ & Hpath & _ & _ & Hagain).
  destruct Hpath as [Hformula Hkeyed].
  { discriminate. }
  { reflexivity. }
  { split; [discriminate|]. split; reflexivity. }
  { split; [discriminate|]. split; reflexivity. }
  { vm_compute. discriminate. }
  split; [exact Hfirst|].
  split; [etransitivity; [exact Hformula | vm_compute; reflexivity]|].
  split.
  { intros Heq.
    destruct (Hkeyed "user1/foo" "/tmp/in/foo-1.0.tar.gz" "0cc175b9")
      as (_ & _ & Hhash);
      [ split; [discriminate | split; reflexivity]
      | split; [discriminate | split; reflexivity]
      | vm_compute; discriminate
      | reflexivity | reflexivity | exact Heq | discriminate Hhash ]. }
  split.
  { intros Heq.
    destruct (Hkeyed "user2/foo" "/tmp/in/foo-1.0.tar.gz" "d41d8cd9")
      as (Hrepo & _ & _);
      [ split; [discriminate | split; reflexivity]
      | split; [discriminate | split; reflexivity]
      | vm_compute; discriminate
      | reflexivity | reflexivity | exact Heq | discriminate Hrepo ]. }
  split; [vm_compute; reflexivity|].
  exact (Hagain (trace uploaded_w1)).
Defined.

(** * Further properties of the import *)

Section MoreProperties.

Context {E : Type} (handle : op -> E -> answer * E).

Implicit Types (w : World E) (e : E) (o : op) (v : value).

Lemma emits_weaken {A} (P Q : op -> bool) (c : M E A) :
  (forall o, P o = true -> Q o = true) -> emits P c -> emits Q c.
Proof.
  intros HPQ Hc w r w' H. destruct (Hc _ _ _ H) as (tr & Htr & HP).
  exists tr. split; [exact Htr|].
  apply forallb_forall. intros o Ho.
  rewrite forallb_forall in HP. auto.
Qed.

Lemma tolerate_exists_emits P already x : emits P (tolerate_exists (E := E) already x).
Proof.
  destruct x; cbn [tolerate_exists]; try apply emits_ret.
  apply emits_bind; [apply emits_log|]. intros _.
  destruct (py_eq _ _); [apply emits_log | apply emits_raise].
Qed.

Lemma setup_branches_emits reponame branches :
  emits is_provisioning_call (setup_branches handle reponame branches).
Proof.
  induction branches as [|b rest IH]; cbn [setup_branches].
  - apply emits_ret.
  - apply emits_bind; [|intros _; exact IH].
    apply emits_try_except; [|intros; apply tolerate_exists_emits].
    apply emits_bind; [now apply emits_call | intros; apply emits_ret].
Qed.

Lemma setup_git_repo_emits reponame branches :
  emits is_provisioning_call (setup_git_repo handle reponame branches).
Proof.
  unfold setup_git_repo.
  apply emits_bind; [apply emits_log|]. intros _.
  apply emits_bind; [|intros _; apply setup_branches_emits].
  apply emits_try_except; [|intros; apply tolerate_exists_emits].
  apply emits_bind; [now apply emits_call | intros; apply emits_ret].
Qed.

(** X1. When the import lock is not obtained within the timeout
    ([acquire] returns a false value), [import_package] raises
    [PackageImportException] having made no other call: no metadata is
    read, nothing is provisioned, and the lock state is what it was. *)
Theorem import_package_lock_timeout
    opts namespace branches package_content w v e1 :
  handle (LockAcquire 120) (env w) = (Ret v, e1) ->
  truthy v = false ->
  import_package handle opts namespace branches package_content w
  = (Raise (PackageImportException
              (VStr "import_package: lock could not be acquired.")),
     MkWorld e1 (trace w ++ [EvCall (LockAcquire 120) (Ret v)]))
  /\ lock_held (trace w ++ [EvCall (LockAcquire 120) (Ret v)])
     = lock_held (trace w).
Proof.
  intros Hlock Hv. split.
  - unfold import_package. apply bind_raise. unfold import_setup.
    destruct w as [e tr]. cbn [env trace] in *.
    rewrite (bind_call_ret handle _ _ _ _ _ _ Hlock). rewrite Hv. reflexivity.
  - unfold lock_held. rewrite fold_left_app. cbn [fold_left lock_step].
    rewrite Hv. apply orb_false_r.
Qed.

(** X2. When the provisioning fails, [import_package] fails with the same
    exception and stops there: since the metadata lookup it has made
    provisioning calls only, so no working directory was created and
    nothing was cloned. *)
Theorem import_package_provisioning_failure
    opts namespace branches package_content w v e1 name envr e2 x w3 :
  handle (LockAcquire 120) (env w) = (Ret v, e1) ->
  truthy v = true ->
  handle (GetPkgInfo (spec_path package_content)) e1
  = (Ret (VInfo name envr), e2) ->
  truthy (VStr name) = true ->
  let w2 :=
    MkWorld e2
      (trace w ++
       [EvCall (LockAcquire 120) (Ret v);
        EvLog LDebug "package_content: " [VStr (spec_path package_content)];
        EvCall (GetPkgInfo (spec_path package_content)) (Ret (VInfo name envr));
        EvLog LDebug "pkg_info: " [VInfo name envr]]) in
  setup_git_repo handle (String.append namespace (String.append "/" name))
    branches w2 = (Raise x, w3) ->
  import_package handle opts namespace branches package_content w
  = (Raise x, w3)
  /\ exists tr,
       trace w3 = trace w2 ++ tr
       /\ forallb is_provisioning_call (calls_of tr) = true.
Proof.
  intros Hlock Hv Hinfo Hname w2 Hsetup. split.
  - unfold import_package. apply bind_raise. unfold import_setup.
    destruct w as [e tr]. cbn [env trace] in *.
    rewrite (bind_call_ret handle _ _ _ _ _ _ Hlock). rewrite Hv. cbn [negb].
    rewrite bind_ret, bind_log. cbn [env trace].
    rewrite (bind_call_ret handle _ _ _ _ _ _ Hinfo). rewrite bind_log.
    cbn [env trace attr_name]. rewrite bind_ret.
    rewrite Hname. cbn [negb]. rewrite bind_ret.
    rewrite <- !app_assoc. cbn [app].
    apply bind_raise. exact Hsetup.
  - exact (setup_git_repo_emits _ _ _ _ _ Hsetup).
Qed.

(** One provisioning command under its [try] makes that one call,
    however it ends. *)
Lemma provision_block_calls (o : op) already w r w' :
  try_except (bind (call handle o) (fun _ => ret tt)) is_CalledProcessError
    (tolerate_exists already) w = (r, w') ->
  exists delta, trace w' = trace w ++ delta /\ calls_of delta = [o].
Proof.
  unfold try_except, bind, call.
  destruct (handle o (env w)) as [[v|x] e1]; cbn [env trace].
  - intros H. inversion H; subst. eexists. split; reflexivity.
  - destruct (is_CalledProcessError x) eqn:Hx.
    + destruct x; try discriminate. cbn [tolerate_exists]. unfold bind, log.
      cbn [env trace]. destruct (py_eq _ _); intros H; inversion H; subst;
        cbn [trace]; rewrite <- ?app_assoc; eexists; split; reflexivity.
    + intros H. inversion H; subst. eexists. split; reflexivity.
Qed.

Lemma setup_branches_calls reponame branches : forall w r w1,
  setup_branches handle reponame branches w = (r, w1) ->
  exists delta,
    trace w1 = trace w ++ delta
    /\ calls_of delta `prefix_of` map (fun b => mkbranch_cmd b reponame) branches
    /\ (r = Ok tt ->
        calls_of delta = map (fun b => mkbranch_cmd b reponame) branches).
Proof.
  induction branches as [|b rest IH]; intros w r w1 H.
  - inversion H; subst. exists []. rewrite app_nil_r.
    split; [reflexivity|]. split; [now exists [] | reflexivity].
  - cbn [setup_branches] in H. unfold bind at 1 in H.
    destruct (try_except _ _ _ w) as [[[]|x] w'] eqn:Hb.
    + destruct (provision_block_calls _ _ _ _ _ Hb) as (d1 & Ht1 & Hc1).
      destruct (IH _ _ _ H) as (d2 & Ht2 & Hpre & Hok).
      exists (d1 ++ d2). rewrite Ht2, Ht1, app_assoc, calls_of_app, Hc1.
      cbn [map app]. repeat split.
      * now apply prefix_cons.
      * intros Hr. now rewrite (Hok Hr).
    + inversion H; subst.
      destruct (provision_block_calls _ _ _ _ _ Hb) as (d1 & Ht1 & Hc1).
      exists d1. rewrite Hc1. repeat split; [exact Ht1 | | discriminate].
      cbn [map]. apply prefix_cons, prefix_nil.
Qed.

(** X3. [setup_git_repo] runs the repository command first and then the
    branch command once for each requested branch, in the order given
    (a branch listed twice is provisioned twice).  It stops at the first
    command that fails: however it ends, the calls it has made are an
    initial part of that sequence, and all of it when it succeeds. *)
Theorem setup_git_repo_call_order reponame branches w r w1 :
  setup_git_repo handle reponame branches w = (r, w1) ->
  exists delta,
    trace w1 = trace w ++ delta
    /\ calls_of delta `prefix_of` provisioning_calls reponame branches
    /\ (r = Ok tt -> calls_of delta = provisioning_calls reponame branches).
Proof.
  unfold setup_git_repo. rewrite bind_log. intros H.
  unfold bind at 1 in H.
  destruct (try_except _ _ _ _) as [[[]|x] w'] eqn:Hrepo.
  - destruct (provision_block_calls _ _ _ _ _ Hrepo) as (d1 & Ht1 & Hc1).
    destruct (setup_branches_calls _ _ _ _ _ H) as (d2 & Ht2 & Hpre & Hok).
    cbn [env trace] in Ht1.
    exists (EvLog LInfo "make sure repos exist: {}" [VStr reponame] :: d1 ++ d2).
    split; [rewrite Ht2, Ht1; now rewrite <- !app_assoc|].
    change (calls_of (EvLog LInfo "make sure repos exist: {}" [VStr reponame]
                      :: d1 ++ d2)) with (calls_of (d1 ++ d2)).
    rewrite calls_of_app, Hc1. unfold provisioning_calls. cbn [app]. split.
    + now apply prefix_cons.
    + intros Hr. now rewrite (Hok Hr).
  - inversion H; subst.
    destruct (provision_block_calls _ _ _ _ _ Hrepo) as (d1 & Ht1 & Hc1).
    cbn [env trace] in Ht1.
    exists (EvLog LInfo "make sure repos exist: {}" [VStr reponame] :: d1).
    split; [rewrite Ht1; now rewrite <- !app_assoc|].
    change (calls_of (EvLog LInfo "make sure repos exist: {}" [VStr reponame]
                      :: d1)) with (calls_of d1).
    rewrite Hc1. unfold provisioning_calls.
    split; [apply prefix_cons, prefix_nil | discriminate].
Qed.

(** X4. [setup_git_repo] handles [CalledProcessError] only.  Any other
    exception of the repository command - [OSError] when the script cannot
    be started - is neither logged nor turned into
    [PackageImportException]: it leaves [setup_git_repo] as it is, and no
    branch command is run. *)
Theorem setup_git_repo_other_error_propagates reponame branches w x e1 :
  handle (setup_git_package_cmd reponame) (env w) = (Exc x, e1) ->
  is_CalledProcessError x = false ->
  setup_git_repo handle reponame branches w
  = (Raise x,
     MkWorld e1
       (trace w ++
        [EvLog LInfo "make sure repos exist: {}" [VStr reponame];
         EvCall (setup_git_package_cmd reponame) (Exc x)])).
Proof.
  intros Hh Hx. unfold setup_git_repo. rewrite bind_log.
  destruct w as [e tr]. cbn [env trace] in *.
  apply bind_raise. unfold try_except.
  rewrite (bind_call_exc handle _ _ _ _ _ _ Hh). rewrite Hx.
  now rewrite <- app_assoc.
Qed.


(** *** What [sync_branch] raises *)

Lemma rfc_ret {A} P (a : A) : raises_from_call P (ret (E := E) a).
Proof. intros w x w' H. discriminate. Qed.

Lemma rfc_log P lvl template args :
  raises_from_call P (log (E := E) lvl template args).
Proof. intros w x w' H. discriminate. Qed.

Lemma rfc_call P o : P o = true -> raises_from_call P (call handle o).
Proof.
  intros HP w x w' H. unfold call in H.
  destruct (handle o (env w)) as [[v|y] e1]; inversion H; subst.
  exists (trace w), o. split; [reflexivity | exact HP].
Qed.

Lemma rfc_bind {A B} P (c : M E A) (k : A -> M E B) :
  raises_from_call P c -> (forall a, raises_from_call P (k a)) ->
  raises_from_call P (bind c k).
Proof.
  intros Hc Hk w x w' H. unfold bind in H.
  destruct (c w) as [[a|y] w1] eqn:Hcw.
  - exact (Hk a _ _ _ H).
  - inversion H; subst. exact (Hc _ _ _ Hcw).
Qed.

Lemma try_fast_forward_rfc new_branch candidates :
  raises_from_call is_git_call (try_fast_forward handle new_branch candidates).
Proof.
  induction candidates as [|b rest IH]; cbn [try_fast_forward].
  - apply rfc_ret.
  - apply rfc_bind; [now apply rfc_call|].
    intros rc. destruct (negb (truthy rc)); [|exact IH].
    apply rfc_bind; [apply rfc_log | intros; apply rfc_ret].
Qed.

(** X6. [sync_branch] has no handler of its own: when it raises, the
    exception is the one its last git command raised - a failed
    [read-tree], [show] or [commit], or a git that cannot be started - and
    nothing is run after it.  The one exception of its own is
    [StopIteration], on an empty [branch_commits], raised before any
    command is run. *)
Theorem sync_branch_raises_what_git_raised
    new_branch (branch_commits : dict.t) message w x w' :
  sync_branch handle new_branch branch_commits message w = (Raise x, w') ->
  (branch_commits = [] /\ x = StopIteration /\ w' = w)
  \/ (exists tr o,
        trace w' = tr ++ [EvCall o (Exc x)] /\ is_git_call o = true).
Proof.
  destruct branch_commits as [|[k0 v0] rest].
  - intros H. inversion H. left. now repeat split.
  - intros H. right. revert w x w' H.
    change (raises_from_call is_git_call
              (sync_branch handle new_branch ((k0, v0) :: rest) message)).
    unfold sync_branch.
    apply rfc_bind; [apply try_fast_forward_rfc|].
    intros [|]; [apply rfc_ret|].
    cbn [first_key dict.keys map fst].
    apply rfc_bind; [apply rfc_ret|]. intros branch.
    apply rfc_bind; [apply rfc_log|]. intros _.
    apply rfc_bind; [now apply rfc_call|]. intros _.
    apply rfc_bind; [now apply rfc_call|]. intros date.
    apply rfc_bind; [now apply rfc_call|]. intros changed.
    destruct (truthy changed); [|apply rfc_log].
    apply rfc_bind; [now apply rfc_call | intros; apply rfc_ret].
Qed.

(** *** The upload shim on any system *)

(** X7. Whenever [my_upload] returns normally, the last thing it did was
    to switch back to the group id it read at the start, and that call
    succeeded: the process is in its original group. *)
Theorem my_upload_success_restores_gid
    opts repo_dir reponame abs_filename filehash w w1 :
  my_upload handle opts repo_dir reponame abs_filename filehash w = (Ok tt, w1) ->
  exists current_gid v delta,
    trace w1 = trace w ++ delta
    /\ head delta = Some (EvCall OsGetgid (Ret current_gid))
    /\ last delta = Some (EvCall (OsSetgid current_gid) (Ret v))
    /\ forall g, gid_after g delta = current_gid.
Proof.
  unfold my_upload. intros H.
  unfold bind at 1, call at 1 in H.
  destruct (handle OsGetgid (env w)) as [[g0|?] ea]; [|discriminate].
  unfold bind at 1, call at 1 in H. cbn [env trace] in H.
  destruct (handle (GrpGetgrnamGid "apache") ea) as [[ga|?] eb]; [|discriminate].
  unfold bind at 1, call at 1 in H. cbn [env trace] in H.
  destruct (handle (OsSetgid ga) eb) as [[v0|?] ec]; [|discriminate].
  unfold bind at 1, call at 1 in H. cbn [env trace] in H.
  destruct (handle (OsPathIsdir _) ec) as [[isdir|?] ed]; [|discriminate].
  assert (Htail : forall em trm,
    bind (call handle (OsPathExists
                         (lookaside_destination opts reponame abs_filename filehash)))
      (fun present =>
         bind (if negb (truthy present)
               then bind (call handle
                            (ShutilCopyfile abs_filename
                               (lookaside_destination opts reponame abs_filename
                                  filehash)))
                      (fun _ => ret tt)
               else ret tt)
           (fun _ => bind (call handle (OsSetgid g0)) (fun _ => ret tt)))
      (MkWorld em trm) = (Ok tt, w1) ->
    exists v tl,
      trace w1 = trm ++ tl
      /\ last tl = Some (EvCall (OsSetgid g0) (Ret v))
      /\ forall g, gid_after g tl = g0).
  { intros em trm Ht.
    unfold bind at 1, call at 1 in Ht. cbn [env trace] in Ht.
    destruct (handle (OsPathExists _) em) as [[present|?] ef]; [|discriminate].
    destruct (negb (truthy present)).
    - unfold bind at 1 in Ht. unfold bind at 1, call at 1 in Ht.
      cbn [env trace] in Ht.
      destruct (handle (ShutilCopyfile _ _) ef) as [[vc|?] eg]; [|discriminate].
      unfold ret at 1 in Ht. unfold bind, call in Ht. cbn [env trace] in Ht.
      destruct (handle (OsSetgid g0) eg) as [[v|?] eh]; [|discriminate].
      inversion Ht; subst. cbn [trace]. rewrite <- !app_assoc.
      eexists _, _. split; [reflexivity|]. split; reflexivity.
    - rewrite bind_ret in Ht. unfold bind, call in Ht. cbn [env trace] in Ht.
      destruct (handle (OsSetgid g0) ef) as [[v|?] eh]; [|discriminate].
      inversion Ht; subst. cbn [trace]. rewrite <- !app_assoc.
      eexists _, _. split; [reflexivity|]. split; reflexivity. }
  assert (Hglue : forall (pre tl : list event) v,
    last tl = Some (EvCall (OsSetgid g0) (Ret v)) ->
    (forall g, gid_after g tl = g0) ->
    last (EvCall OsGetgid (Ret g0) :: pre ++ tl)
    = Some (EvCall (OsSetgid g0) (Ret v))
    /\ forall g, gid_after g (EvCall OsGetgid (Ret g0) :: pre ++ tl) = g0).
  { intros pre tl v Hl Hg. split.
    - change (EvCall OsGetgid (Ret g0) :: pre ++ tl)
        with ((EvCall OsGetgid (Ret g0) :: pre) ++ tl).
      destruct tl as [|ev tl]; [discriminate|].
      rewrite last_app. now rewrite Hl.
    - intros g. unfold gid_after in *. cbn [fold_left gid_step].
      rewrite fold_left_app. apply Hg. }
  destruct (negb (truthy isdir)).
  - unfold bind at 1 in H. unfold try_except in H. unfold bind at 1, call at 1 in H.
    cbn [env trace] in H.
    destruct (handle (OsMakedirs _) ed) as [[vm|xm] ee].
    + unfold ret at 1 in H.
      destruct (Htail _ _ H) as (v & tl & Htr & Hl & Hg).
      exists g0, v. eexists.
      split; [rewrite Htr; rewrite <- !app_assoc; cbn [app]; reflexivity|].
      split; [reflexivity|]. exact (Hglue [_; _; _; _] tl v Hl Hg).
    + destruct (is_OSError xm); [|discriminate].
      unfold log at 1 in H. cbn [env trace] in H.
      destruct (Htail _ _ H) as (v & tl & Htr & Hl & Hg).
      exists g0, v. eexists.
      split; [rewrite Htr; rewrite <- !app_assoc; cbn [app]; reflexivity|].
      split; [reflexivity|]. exact (Hglue [_; _; _; _; _] tl v Hl Hg).
  - rewrite bind_ret in H.
    destruct (Htail _ _ H) as (v & tl & Htr & Hl & Hg).
    exists g0, v. eexists.
    split; [rewrite Htr; rewrite <- !app_assoc; cbn [app]; reflexivity|].
    split; [reflexivity|]. exact (Hglue [_; _; _] tl v Hl Hg).
Qed.

(** X8. A failed [os.makedirs] does not end the upload: its [OSError] is
    logged and the run goes on to the existence check and the copy.  When
    the copy then fails, it is the error of the copy that the caller
    gets. *)
Theorem my_upload_makedirs_failure_is_logged
    opts repo_dir reponame abs_filename filehash w
    current_gid apache_gid v isdir e1 text e2 present e3 x e4 :
  let destination := lookaside_destination opts reponame abs_filename filehash in
  replay handle
    [OsGetgid; GrpGetgrnamGid "apache"; OsSetgid apache_gid;
     OsPathIsdir (posixpath.dirname destination)] (env w)
  = ([EvCall OsGetgid (Ret current_gid);
      EvCall (GrpGetgrnamGid "apache") (Ret apache_gid);
      EvCall (OsSetgid apache_gid) (Ret v);
      EvCall (OsPathIsdir (posixpath.dirname destination)) (Ret isdir)], e1) ->
  truthy isdir = false ->
  handle (OsMakedirs (posixpath.dirname destination)) e1
  = (Exc (OSError text), e2) ->
  handle (OsPathExists destination) e2 = (Ret present, e3) ->
  truthy present = false ->
  handle (ShutilCopyfile abs_filename destination) e3 = (Exc x, e4) ->
  my_upload handle opts repo_dir reponame abs_filename filehash w
  = (Raise x,
     MkWorld e4
       (trace w ++
        [EvCall OsGetgid (Ret current_gid);
         EvCall (GrpGetgrnamGid "apache") (Ret apache_gid);
         EvCall (OsSetgid apache_gid) (Ret v);
         EvCall (OsPathIsdir (posixpath.dirname destination)) (Ret isdir);
         EvCall (OsMakedirs (posixpath.dirname destination))
           (Exc (OSError text));
         EvLog LException "{}" [VStr text];
         EvCall (OsPathExists destination) (Ret present);
         EvCall (ShutilCopyfile abs_filename destination) (Exc x)])).
Proof.
  intros destination Hr Hisdir Hmk Hexists Hpresent Hcopy.
  unfold my_upload. fold destination.
  destruct w as [e tr]. cbn [env trace replay] in *.
  destruct (handle OsGetgid e) as [a0 ea] eqn:H0.
  destruct (handle (GrpGetgrnamGid _) ea) as [a1 eb] eqn:H1.
  destruct (handle (OsSetgid _) eb) as [a2 ec] eqn:H2.
  destruct (handle (OsPathIsdir _) ec) as [a3 ed] eqn:H3.
  inversion Hr; subst; clear Hr.
  rewrite (bind_call_ret handle _ _ _ _ _ _ H0).
  rewrite (bind_call_ret handle _ _ _ _ _ _ H1).
  rewrite (bind_call_ret handle _ _ _ _ _ _ H2).
  rewrite (bind_call_ret handle _ _ _ _ _ _ H3).
  rewrite Hisdir. cbn [negb].
  assert (Hblock :
    try_except
      (bind (call handle (OsMakedirs (posixpath.dirname destination)))
         (fun _ => ret tt))
      is_OSError (fun err => log LException "{}" [VStr (exn_str err)])
      (MkWorld e1
         ((((tr ++ [EvCall OsGetgid (Ret current_gid)]) ++
            [EvCall (GrpGetgrnamGid "apache") (Ret apache_gid)]) ++
           [EvCall (OsSetgid apache_gid) (Ret v)]) ++
          [EvCall (OsPathIsdir (posixpath.dirname destination)) (Ret isdir)]))
    = (Ok tt,
       MkWorld e2
         (((((tr ++ [EvCall OsGetgid (Ret current_gid)]) ++
             [EvCall (GrpGetgrnamGid "apache") (Ret apache_gid)]) ++
            [EvCall (OsSetgid apache_gid) (Ret v)]) ++
           [EvCall (OsPathIsdir (posixpath.dirname destination)) (Ret isdir)]) ++
          [EvCall (OsMakedirs (posixpath.dirname destination))
             (Exc (OSError text));
           EvLog LException "{}" [VStr text]]))).
  { unfold try_except. rewrite (bind_call_exc handle _ _ _ _ _ _ Hmk).
    cbn [is_OSError exn_str]. unfold log. cbn [env trace].
    now rewrite <- !app_assoc. }
  rewrite (bind_ok _ _ _ _ _ Hblock).
  rewrite (bind_call_ret handle _ _ _ _ _ _ Hexists).
  rewrite Hpresent. cbn [negb].
  apply bind_raise. rewrite (bind_call_exc handle _ _ _ _ _ _ Hcopy).
  now rewrite <- !app_assoc.
Qed.

(** *** The dict of branch commits *)

Lemma dict_get_set_eq k v (d : dict.t) : dict.get k (dict.set k v d) = Some v.
Proof.
  induction d as [|[k0 v0] d IH]; cbn [dict.set dict.get].
  - now rewrite String.eqb_refl.
  - destruct (String.eqb_spec k k0) as [->|Hne]; cbn [dict.get].
    + now rewrite String.eqb_refl.
    + destruct (String.eqb_spec k k0); [contradiction | exact IH].
Qed.

Lemma dict_keys_set k v (d : dict.t) :
  dict.keys (dict.set k v d)
  = if bool_decide (k ∈ dict.keys d) then dict.keys d else dict.keys d ++ [k].
Proof.
  induction d as [|[k0 v0] d IH]; cbn [dict.set].
  - reflexivity.
  - destruct (String.eqb_spec k k0) as [->|Hne].
    + rewrite bool_decide_eq_true_2; [reflexivity|]. cbn. apply list_elem_of_here.
    + unfold dict.keys in *. cbn [map fst]. rewrite IH.
      destruct (bool_decide (k ∈ map fst d)) eqn:Hin.
      * rewrite bool_decide_eq_true_2; [reflexivity|].
        apply list_elem_of_further. now apply bool_decide_eq_true in Hin.
      * rewrite bool_decide_eq_false_2; [reflexivity|].
        apply bool_decide_eq_false in Hin.
        intros Hc. apply elem_of_cons in Hc as [?|?]; [congruence | contradiction].
Qed.

(** X9. A turn of the branch loop in which checkout, staging or sync, push
    and commit lookup all succeed records the commit hash under the branch:
    afterwards the dict maps the branch to that hash, every other entry is
    as before, and the branch keeps its position if it had one and is
    appended otherwise. *)
Theorem import_branch_records_commit
    package_content ctx b (bc : dict.t) w v e2 w3 vp vl h e6 :
  handle (RpkgSwitchBranch b) (env w) = (Ret v, e2) ->
  stage_or_sync handle package_content ctx b bc
    (MkWorld e2 (trace w ++ [EvLog LDebug "checkout '{0}' branch" [VStr b];
                             EvCall (RpkgSwitchBranch b) (Ret v)]))
  = (Ok tt, w3) ->
  replay handle [RpkgPush; RpkgLoadCommit; RpkgCommithash] (env w3)
  = ([EvCall RpkgPush (Ret vp); EvCall RpkgLoadCommit (Ret vl);
      EvCall RpkgCommithash (Ret h)], e6) ->
  let bc' := dict.set b h bc in
  import_branch handle package_content ctx b bc w
  = (Ok bc',
     MkWorld e6
       (trace w3 ++
        [EvLog LDebug "push" []; EvCall RpkgPush (Ret vp);
         EvCall RpkgLoadCommit (Ret vl); EvCall RpkgCommithash (Ret h)]))
  /\ dict.get b bc' = Some h
  /\ (forall k, k <> b -> dict.get k bc' = dict.get k bc)
  /\ dict.keys bc'
     = if bool_decide (b ∈ dict.keys bc) then dict.keys bc
       else dict.keys bc ++ [b].
Proof.
  intros Hsw Hstage Hr bc'.
  split; [|split; [apply dict_get_set_eq|split;
    [intros k Hk; now apply dict_get_set_ne | apply dict_keys_set]]].
  unfold import_branch. rewrite bind_log.
  destruct w as [e tr]. cbn [env trace] in *.
  rewrite (bind_call_ret handle _ _ _ _ _ _ Hsw). rewrite <- app_assoc. cbn [app].
  rewrite (bind_ok _ _ _ _ _
    (try_except_ok _ (fun _ => true) _ _ _ _
       (eq_trans (bind_ok _ (fun _ => ret true) _ _ _ Hstage) eq_refl))).
  cbn [negb].
  destruct w3 as [e3 tr3]. cbn [env trace replay] in *.
  destruct (handle RpkgPush e3) as [a0 ea] eqn:H0.
  destruct (handle RpkgLoadCommit ea) as [a1 eb] eqn:H1.
  destruct (handle RpkgCommithash eb) as [a2 ec] eqn:H2.
  inversion Hr; subst; clear Hr.
  assert (Hpush :
    try_except (bind (push_branch handle) (fun _ => ret true)) is_rpkgError
      (fun _ => bind (log LException "Exception raised during push." [])
                  (fun _ => ret false))
      (MkWorld e3 tr3)
    = (Ok true,
       MkWorld ea (tr3 ++ [EvLog LDebug "push" []; EvCall RpkgPush (Ret vp)]))).
  { apply try_except_ok. unfold push_branch. rewrite bind_bind, bind_log.
    cbn [env trace]. rewrite bind_bind.
    rewrite (bind_call_ret handle _ _ _ _ _ _ H0).
    unfold bind, ret. now rewrite <- app_assoc. }
  rewrite (bind_ok _ _ _ _ _ Hpush). cbn [negb].
  rewrite (bind_call_ret handle _ _ _ _ _ _ H1).
  rewrite (bind_call_ret handle _ _ _ _ _ _ H2).
  unfold ret. now rewrite <- !app_assoc.
Qed.

Lemma import_branches_keys package_content ctx branches :
  forall bc w bc' w',
  import_branches handle package_content ctx branches bc w = (Ok bc', w') ->
  (forall k, k ∈ dict.keys bc' -> k ∈ dict.keys bc \/ k ∈ branches)
  /\ (NoDup (dict.keys bc) -> NoDup (dict.keys bc')).
Proof.
  induction branches as [|b rest IH]; intros bc w bc' w' H.
  - inversion H; subst. split; [now left | trivial].
  - cbn [import_branches] in H. unfold bind in H.
    destruct (import_branch handle package_content ctx b bc w)
      as [[bc1|x] w1] eqn:Hb; [|discriminate].
    destruct (IH _ _ _ _ H) as [Hin Hnd].
    destruct (import_branch_dict _ _ _ _ _ _ _ _ Hb) as [->|[h ->]].
    + split; [|exact Hnd].
      intros k Hk. destruct (Hin k Hk); [now left | right; now apply list_elem_of_further].
    + rewrite dict_keys_set in Hin, Hnd.
      destruct (bool_decide (b ∈ dict.keys bc)) eqn:Hmem.
      * split; [|exact Hnd].
        intros k Hk. destruct (Hin k Hk);
          [now left | right; now apply list_elem_of_further].
      * apply bool_decide_eq_false in Hmem. split.
        -- intros k Hk. destruct (Hin k Hk) as [Hk'|Hk'].
           ++ apply elem_of_app in Hk' as [?|Hk']; [now left|].
              apply list_elem_of_singleton in Hk' as ->. right. apply list_elem_of_here.
           ++ right. now apply list_elem_of_further.
        -- intros Hn. apply Hnd. apply NoDup_app. split; [exact Hn|].
           split; [|apply NoDup_singleton].
           intros k Hk Hk'. apply list_elem_of_singleton in Hk' as ->. contradiction.
Qed.

(** X10. In the result of [import_package], every key of
    [branch_commits] is one of the requested branches and no key occurs
    twice, also when a branch was requested twice. *)
Theorem import_package_result_keys
    opts namespace branches package_content w res w' :
  import_package handle opts namespace branches package_content w = (Ok res, w') ->
  (forall k, k ∈ dict.keys (branch_commits res) -> k ∈ branches)
  /\ NoDup (dict.keys (branch_commits res)).
Proof.
  unfold import_package. intros H. unfold bind at 1 in H.
  destruct (import_setup _ _ _ _ _ w) as [[ctx|x] w0]; [|discriminate].
  unfold bind at 1 in H.
  destruct (import_branches _ _ _ _ _ w0) as [[bcf|x] w1] eqn:Hloop; [|discriminate].
  assert (Hbc : branch_commits res = bcf).
  { unfold import_teardown, bind in H.
    repeat (match type of H with
            | context [match ?c with _ => _ end] => destruct c as [[?|?] ?]
            end; try discriminate).
    now inversion H. }
  rewrite Hbc. destruct (import_branches_keys _ _ _ _ _ _ _ Hloop) as [Hin Hnd].
  split.
  - intros k Hk. destruct (Hin k Hk) as [Hk'|Hk']; [inversion Hk' | exact Hk'].
  - apply Hnd. constructor.
Qed.

(** *** The lock and the working directory on the successful path *)

Lemma copy_extra_content_emits repo_dir paths : forall add_to_index,
  emits is_branch_work_call
    (copy_extra_content handle repo_dir paths add_to_index).
Proof.
  induction paths as [|p rest IH]; intros idx; cbn [copy_extra_content].
  - apply emits_ret.
  - apply emits_bind; [now apply emits_call|]. intros isfile.
    apply emits_bind; [|intros _; apply IH].
    destruct (truthy isfile); now apply emits_call.
Qed.

Lemma stage_or_sync_emits package_content ctx b bc :
  emits is_branch_work_call (stage_or_sync handle package_content ctx b bc).
Proof.
  unfold stage_or_sync. destruct (negb (dict.nonempty bc)).
  - unfold add_package_content.
    apply emits_bind; [apply emits_log|]. intros _.
    apply emits_bind; [now apply emits_call|]. intros _.
    apply emits_bind; [apply copy_extra_content_emits|]. intros idx.
    apply emits_bind; [now apply emits_call|]. intros _.
    apply emits_bind; [apply emits_log|]. intros _.
    apply emits_bind; [now apply emits_call|]. intros _.
    apply emits_try_except; [|intros; apply emits_log].
    apply emits_bind; [apply emits_log|]. intros _.
    apply emits_bind; [now apply emits_call | intros; apply emits_ret].
  - apply (emits_weaken git_not_staging); [|apply sync_branch_emits_git].
    intros o Ho. unfold git_not_staging in Ho. apply andb_prop in Ho as [Ho _].
    destruct o; try discriminate; reflexivity.
Qed.

Lemma checkouts_app tr1 tr2 : checkouts (tr1 ++ tr2) = checkouts tr1 ++ checkouts tr2.
Proof. unfold checkouts. apply omap_app. Qed.

Lemma checkouts_work tr :
  forallb is_branch_work_call (calls_of tr) = true -> checkouts tr = [].
Proof.
  induction tr as [|ev tr IH]; intros H; [reflexivity|].
  destruct ev as [o a|lvl t args].
  - change (calls_of (EvCall o a :: tr)) with (o :: calls_of tr) in H.
    cbn [forallb] in H. apply andb_prop in H as [Ho H].
    destruct o; try discriminate; exact (IH H).
  - exact (IH H).
Qed.

Lemma work_not_resource tr :
  forallb is_branch_work_call (calls_of tr) = true ->
  forallb not_resource_call (calls_of tr) = true.
Proof.
  intros H. apply forallb_forall. intros o Ho.
  rewrite forallb_forall in H. specialize (H o Ho).
  destruct o; try discriminate; reflexivity.
Qed.

(** One turn of the loop: the checkout, then branch work only; a failed
    checkout ends the turn by raising. *)
Lemma import_branch_shape package_content ctx b bc w r w' :
  import_branch handle package_content ctx b bc w = (r, w') ->
  exists a tr,
    trace w'
    = trace w ++ EvLog LDebug "checkout '{0}' branch" [VStr b]
        :: EvCall (RpkgSwitchBranch b) a :: tr
    /\ forallb is_branch_work_call (calls_of tr) = true.
Proof.
  unfold import_branch. rewrite bind_log.
  unfold bind at 1, call at 1. cbn [env trace].
  destruct (handle (RpkgSwitchBranch b) (env w)) as [[v|x] e1].
  - match goal with
    | |- ?C ?w0 = _ -> _ =>
        assert (Hrest : emits is_branch_work_call C); [|generalize (Hrest w0 r w')]
    end.
    { apply emits_bind.
      { apply emits_try_except.
        - apply emits_bind; [apply stage_or_sync_emits | intros; apply emits_ret].
        - intros _. apply emits_bind; [apply emits_log | intros; apply emits_ret]. }
      intros staged. destruct (negb staged); [apply emits_ret|].
      apply emits_bind.
      { apply emits_try_except.
        - apply emits_bind; [|intros; apply emits_ret].
          unfold push_branch. apply emits_bind; [apply emits_log|]. intros _.
          apply emits_bind; [now apply emits_call | intros; apply emits_ret].
        - intros _. apply emits_bind; [apply emits_log | intros; apply emits_ret]. }
      intros pushed. destruct (negb pushed); [apply emits_ret|].
      apply emits_bind; [now apply emits_call|]. intros _.
      apply emits_bind; [now apply emits_call | intros; apply emits_ret]. }
    intros Hgen H. destruct (Hgen H) as (tr & Htr & Hwork).
    cbn [trace] in Htr. exists (Ret v), tr. split; [|exact Hwork].
    rewrite Htr. now rewrite <- !app_assoc.
  - intros H. inversion H; subst. exists (Exc x), []. split; [|reflexivity].
    cbn [trace]. now rewrite <- !app_assoc.
Qed.

Lemma import_branches_shape package_content ctx branches : forall bc w r w',
  import_branches handle package_content ctx branches bc w = (r, w') ->
  exists tr,
    trace w' = trace w ++ tr
    /\ checkouts tr `prefix_of` branches
    /\ (forall bc', r = Ok bc' -> checkouts tr = branches)
    /\ forallb not_resource_call (calls_of tr) = true.
Proof.
  induction branches as [|b rest IH]; intros bc w r w' H.
  - inversion H; subst. exists []. rewrite app_nil_r.
    split; [reflexivity|]. split; [now exists []|]. split; reflexivity.
  - cbn [import_branches] in H. unfold bind in H.
    destruct (import_branch handle package_content ctx b bc w)
      as [[bc1|x] w1] eqn:Hb.
    + destruct (import_branch_shape _ _ _ _ _ _ _ Hb) as (a & t1 & Ht1 & Hw1).
      destruct (IH _ _ _ _ H) as (t2 & Ht2 & Hpre & Hok & Hres).
      exists ((EvLog LDebug "checkout '{0}' branch" [VStr b]
               :: EvCall (RpkgSwitchBranch b) a :: t1) ++ t2).
      split; [rewrite Ht2, Ht1; now rewrite <- !app_assoc|].
      rewrite checkouts_app, calls_of_app, forallb_app, Hres.
      change (checkouts (EvLog LDebug "checkout '{0}' branch" [VStr b]
                         :: EvCall (RpkgSwitchBranch b) a :: t1))
        with (b :: checkouts t1).
      rewrite (checkouts_work _ Hw1). cbn [app].
      split; [now apply prefix_cons|].
      split; [intros bc' Hr; now rewrite (Hok bc' Hr)|].
      change (calls_of (EvLog LDebug "checkout '{0}' branch" [VStr b]
                        :: EvCall (RpkgSwitchBranch b) a :: t1))
        with (RpkgSwitchBranch b :: calls_of t1).
      cbn [forallb]. now rewrite (work_not_resource _ Hw1).
    + inversion H; subst.
      destruct (import_branch_shape _ _ _ _ _ _ _ Hb) as (a & t1 & Ht1 & Hw1).
      exists (EvLog LDebug "checkout '{0}' branch" [VStr b]
              :: EvCall (RpkgSwitchBranch b) a :: t1).
      split; [exact Ht1|].
      change (checkouts (EvLog LDebug "checkout '{0}' branch" [VStr b]
                         :: EvCall (RpkgSwitchBranch b) a :: t1))
        with (b :: checkouts t1).
      rewrite (checkouts_work _ Hw1).
      split; [apply prefix_cons, prefix_nil|]. split; [discriminate|].
      change (calls_of (EvLog LDebug "checkout '{0}' branch" [VStr b]
                        :: EvCall (RpkgSwitchBranch b) a :: t1))
        with (RpkgSwitchBranch b :: calls_of t1).
      cbn [forallb]. now rewrite (work_not_resource _ Hw1).
Qed.

Lemma refresh_cgit_listing_emits opts :
  emits not_resource_call (refresh_cgit_listing handle opts).
Proof.
  unfold refresh_cgit_listing. apply emits_try_except.
  - apply emits_bind; [now apply emits_call | intros; apply emits_ret].
  - intros x. destruct x; cbn [log_called_process_error];
      try apply emits_ret. apply emits_log.
Qed.

Lemma tmpdir_inert tr : forall dirs,
  forallb not_resource_call (calls_of tr) = true ->
  fold_left tmpdir_step tr dirs = dirs.
Proof.
  induction tr as [|ev tr IH]; intros dirs H; [reflexivity|].
  cbn [fold_left]. destruct ev as [o a|lvl t args].
  - change (calls_of (EvCall o a :: tr)) with (o :: calls_of tr) in H.
    cbn [forallb] in H. apply andb_prop in H as [Ho H].
    rewrite <- (IH dirs H) at 2. f_equal.
    destruct o; try discriminate; try reflexivity.
  - exact (IH dirs H).
Qed.

(** What a successful [import_setup] has done. *)
Lemma import_setup_ok opts namespace branches package_content w ctx w0 :
  import_setup handle opts namespace branches package_content w = (Ok ctx, w0) ->
  exists v name envr t1 t2,
    truthy v = true
    /\ ctx_pkg_info ctx = VInfo name envr
    /\ truthy (VStr name) = true
    /\ ctx_reponame ctx = String.append namespace (String.append "/" name)
    /\ ctx_message ctx = String.append "automatic import of " envr
    /\ trace w0
       = trace w ++ EvCall (LockAcquire 120) (Ret v) :: t1
           ++ EvCall Mkdtemp (Ret (ctx_repo_dir ctx)) :: t2
    /\ forallb not_resource_call (calls_of t1) = true
    /\ forallb not_resource_call (calls_of t2) = true.
Proof.
  unfold import_setup. intros H.
  unfold bind at 1, call at 1 in H.
  destruct (handle (LockAcquire 120) (env w)) as [[v|?] ea]; [|discriminate].
  destruct (truthy v) eqn:Hv; [|discriminate]. cbn [negb] in H.
  rewrite bind_ret, bind_log in H. cbn [env trace] in H.
  unfold bind at 1, call at 1 in H. cbn [env trace] in H.
  destruct (handle (GetPkgInfo _) ea) as [[info|?] eb]; [|discriminate].
  rewrite bind_log in H. cbn [env trace] in H.
  destruct info as [| | | |name envr]; try discriminate.
  cbn [attr_name] in H. rewrite bind_ret in H.
  destruct (truthy (VStr name)) eqn:Hname; [|discriminate]. cbn [negb] in H.
  rewrite bind_ret in H. unfold bind at 1 in H.
  destruct (setup_git_repo handle _ branches _) as [[[]|?] wc] eqn:Hsetup;
    [|discriminate].
  destruct (setup_git_repo_emits _ _ _ _ _ Hsetup) as (ts & Hts & Hprov).
  cbn [trace] in Hts.
  unfold bind at 1, call at 1 in H.
  destruct (handle Mkdtemp (env wc)) as [[d|?] ed]; [|discriminate].
  rewrite bind_log in H. cbn [env trace] in H.
  unfold bind at 1, call at 1 in H. cbn [env trace] in H.
  destruct (handle (RpkgCommands _ _) ed) as [[?|?] ee]; [|discriminate].
  unfold bind at 1, call at 1 in H. cbn [env trace] in H.
  destruct (handle (RpkgSetModuleName _) ee) as [[?|?] ef]; [|discriminate].
  unfold bind at 1, call at 1 in H. cbn [env trace] in H.
  destruct (handle (RpkgSetUpload _) ef) as [[?|?] eg]; [|discriminate].
  unfold bind at 1 in H. unfold try_except at 1 in H.
  rewrite bind_log in H. cbn [env trace] in H.
  unfold bind at 1, call at 1 in H. cbn [env trace] in H.
  destruct (handle (RpkgClone _ _) eg) as [[?|xc] eh].
  2: { destruct (is_Exception xc); discriminate. }
  unfold ret at 1 in H.
  unfold bind at 1, call at 1 in H. cbn [env trace] in H.
  destruct (handle OsGetcwd eh) as [[oldpath|?] ei]; [|discriminate].
  rewrite bind_log in H. cbn [env trace] in H.
  unfold bind at 1, call at 1 in H. cbn [env trace] in H.
  destruct (handle (OsChdir _) ei) as [[?|?] ej]; [|discriminate].
  rewrite bind_log in H. cbn [env trace] in H.
  unfold bind at 1, call at 1 in H. cbn [env trace] in H.
  destruct (handle (RunCmd _) ej) as [[?|?] ek]; [|discriminate].
  unfold bind at 1, call at 1 in H. cbn [env trace] in H.
  destruct (handle (RunCmd _) ek) as [[?|?] el]; [|discriminate].
  cbn [attr_envr] in H. rewrite bind_ret in H.
  unfold ret in H. inversion H; subst; clear H. cbn [ctx_pkg_info ctx_reponame
    ctx_message ctx_repo_dir trace].
  exists v, name, envr.
  exists ([EvLog LDebug "package_content: " [VStr (spec_path package_content)];
           EvCall (GetPkgInfo (spec_path package_content)) (Ret (VInfo name envr));
           EvLog LDebug "pkg_info: " [VInfo name envr]] ++ ts).
  eexists.
  split; [exact Hv|]. split; [reflexivity|]. split; [exact Hname|].
  split; [reflexivity|]. split; [reflexivity|].
  split; [rewrite Hts; rewrite <- !app_assoc; cbn [app]; reflexivity|].
  split.
  - rewrite calls_of_app. cbn.
    apply forallb_forall. intros o Ho. rewrite forallb_forall in Hprov.
    specialize (Hprov o Ho). destruct o; try discriminate; reflexivity.
  - reflexivity.
Qed.

(** What a successful [import_teardown] has done. *)
Lemma import_teardown_ok opts ctx bc w res w' :
  import_teardown handle opts ctx bc w = (Ok res, w') ->
  exists v1 v2 tr v3,
    res = {| pkg_info := ctx_pkg_info ctx;
             branch_commits := bc;
             reponame := ctx_reponame ctx |}
    /\ trace w'
       = trace w ++ EvCall (OsChdir (ctx_oldpath ctx)) (Ret v1)
           :: EvCall (ShutilRmtree (ctx_repo_dir ctx)) (Ret v2)
           :: tr ++ [EvCall LockRelease (Ret v3)]
    /\ forallb not_resource_call (calls_of tr) = true.
Proof.
  unfold import_teardown. intros H.
  unfold bind at 1, call at 1 in H.
  destruct (handle (OsChdir _) (env w)) as [[v1|?] ea]; [|discriminate].
  unfold bind at 1, call at 1 in H. cbn [env trace] in H.
  destruct (handle (ShutilRmtree _) ea) as [[v2|?] eb]; [|discriminate].
  unfold bind at 1 in H.
  destruct (refresh_cgit_listing handle opts _) as [[[]|?] wc] eqn:Hrefresh;
    [|discriminate].
  destruct (refresh_cgit_listing_emits _ _ _ _ Hrefresh) as (tr & Htr & Hinert).
  cbn [trace] in Htr.
  unfold bind, call in H.
  destruct (handle LockRelease (env wc)) as [[v3|?] ed]; [|discriminate].
  unfold ret in H. inversion H; subst; clear H. cbn [trace].
  exists v1, v2, tr, v3. split; [reflexivity|]. split; [|exact Hinert].
  rewrite Htr. rewrite <- !app_assoc. reflexivity.
Qed.

(** X11. Whenever [import_package] returns a result, the package name was
    not empty and the repository name is [namespace/name]; the events of
    the call end with the release of the lock, the lock is not held, and
    the temporary directory the call created has been removed: none is
    left. *)
Theorem import_package_success_cleans_up
    opts namespace branches package_content w res w' :
  import_package handle opts namespace branches package_content w = (Ok res, w') ->
  exists name envr delta v,
    pkg_info res = VInfo name envr
    /\ truthy (VStr name) = true
    /\ reponame res = String.append namespace (String.append "/" name)
    /\ trace w' = trace w ++ delta
    /\ last delta = Some (EvCall LockRelease (Ret v))
    /\ lock_held (trace w') = false
    /\ leftover_tmpdirs delta = [].
Proof.
  unfold import_package. intros H. unfold bind at 1 in H.
  destruct (import_setup _ _ _ _ _ w) as [[ctx|x] w0] eqn:Hsetup; [|discriminate].
  unfold bind at 1 in H.
  destruct (import_branches _ _ _ _ _ w0) as [[bcf|x] w1] eqn:Hloop; [|discriminate].
  destruct (import_setup_ok _ _ _ _ _ _ _ Hsetup)
    as (v & name & envr & t1 & t2 & Hv & Hinfo & Hname & Hrepo & _ & Ht0 & Hi1 & Hi2).
  destruct (import_branches_shape _ _ _ _ _ _ _ Hloop)
    as (tb & Htb & _ & _ & Hib).
  destruct (import_teardown_ok _ _ _ _ _ _ H) as (v1 & v2 & tr & v3 & -> & Htd & Hir).
  cbn [pkg_info reponame].
  exists name, envr.
  exists (EvCall (LockAcquire 120) (Ret v) :: t1
            ++ EvCall Mkdtemp (Ret (ctx_repo_dir ctx)) :: t2 ++ tb
            ++ EvCall (OsChdir (ctx_oldpath ctx)) (Ret v1)
               :: EvCall (ShutilRmtree (ctx_repo_dir ctx)) (Ret v2)
               :: tr ++ [EvCall LockRelease (Ret v3)]).
  exists v3.
  assert (Htrace :
    trace w'
    = trace w ++ EvCall (LockAcquire 120) (Ret v) :: t1
        ++ EvCall Mkdtemp (Ret (ctx_repo_dir ctx)) :: t2 ++ tb
        ++ EvCall (OsChdir (ctx_oldpath ctx)) (Ret v1)
           :: EvCall (ShutilRmtree (ctx_repo_dir ctx)) (Ret v2)
           :: tr ++ [EvCall LockRelease (Ret v3)]).
  { rewrite Htd, Htb, Ht0. rewrite <- !app_assoc. cbn [app].
    rewrite <- !app_assoc. reflexivity. }
  split; [exact Hinfo|]. split; [exact Hname|]. split; [exact Hrepo|].
  split; [exact Htrace|]. split; [|split].
  - rewrite !app_comm_cons, !app_assoc. apply last_snoc.
  - rewrite Htrace. rewrite !app_comm_cons, !app_assoc.
    unfold lock_held. rewrite fold_left_app. reflexivity.
  - unfold leftover_tmpdirs. cbn [fold_left tmpdir_step].
    rewrite fold_left_app, (tmpdir_inert _ _ Hi1).
    cbn [fold_left tmpdir_step app].
    rewrite fold_left_app, (tmpdir_inert _ _ Hi2).
    rewrite fold_left_app, (tmpdir_inert _ _ Hib).
    cbn [fold_left tmpdir_step List.filter].
    assert (Hrefl : py_eq (ctx_repo_dir ctx) (ctx_repo_dir ctx) = true).
    { destruct (ctx_repo_dir ctx) as [|[]|z|s|n e0]; cbn;
        rewrite ?Z.eqb_refl, ?String.eqb_refl; reflexivity. }
    rewrite Hrefl. cbn [negb].
    rewrite fold_left_app, (tmpdir_inert _ _ Hir). reflexivity.
Qed.

(** X12. The branches are checked out in the order the caller gave, one
    checkout for each requested branch, skipped or not: when the loop over
    the branches returns, the checkouts of its run are exactly the
    requested list; when it raises, they are an initial part of it. *)
Theorem import_branches_checkout_order
    package_content ctx branches bc w r w' :
  import_branches handle package_content ctx branches bc w = (r, w') ->
  exists tr,
    trace w' = trace w ++ tr
    /\ checkouts tr `prefix_of` branches
    /\ (forall bc', r = Ok bc' -> checkouts tr = branches).
Proof.
  intros H.
  destruct (import_branches_shape _ _ _ _ _ _ _ H) as (tr & Htr & Hpre & Hok & _).
  now exists tr.
Qed.

Lemma dict_set_nonempty k v (d : dict.t) : dict.nonempty (dict.set k v d) = true.
Proof.
  destruct d as [|[k0 v0] d]; cbn [dict.set]; [reflexivity|].
  now destruct (String.eqb k k0).
Qed.

Lemma import_branch_emits_no_staging package_content ctx b bc :
  dict.nonempty bc = true ->
  emits not_staging_call (import_branch handle package_content ctx b bc).
Proof.
  intros Hbc. unfold import_branch.
  apply emits_bind; [apply emits_log|]. intros _.
  apply emits_bind; [now apply emits_call|]. intros _.
  apply emits_bind.
  { apply emits_try_except.
    - apply emits_bind; [|intros; apply emits_ret].
      unfold stage_or_sync. rewrite Hbc. cbn [negb].
      apply (emits_weaken git_not_staging); [|apply sync_branch_emits_git].
      intros o Ho. unfold git_not_staging in Ho.
      apply andb_prop in Ho as [_ Ho]. exact Ho.
    - intros _. apply emits_bind; [apply emits_log | intros; apply emits_ret]. }
  intros staged. destruct (negb staged); [apply emits_ret|].
  apply emits_bind.
  { apply emits_try_except.
    - apply emits_bind; [|intros; apply emits_ret].
      unfold push_branch. apply emits_bind; [apply emits_log|]. intros _.
      apply emits_bind; [now apply emits_call | intros; apply emits_ret].
    - intros _. apply emits_bind; [apply emits_log | intros; apply emits_ret]. }
  intros pushed. destruct (negb pushed); [apply emits_ret|].
  apply emits_bind; [now apply emits_call|]. intros _.
  apply emits_bind; [now apply emits_call | intros; apply emits_ret].
Qed.

(** X13. Once [branch_commits] has an entry it never becomes empty again,
    so from then on no branch is staged directly: whatever happens in the
    rest of the loop - failures included - none of its calls copies
    package content, adds to the index, uploads sources or makes an rpkg
    commit. *)
Theorem import_branches_stage_once package_content ctx branches :
  forall bc w r w',
  dict.nonempty bc = true ->
  import_branches handle package_content ctx branches bc w = (r, w') ->
  (forall bc', r = Ok bc' -> dict.nonempty bc' = true)
  /\ exists tr,
       trace w' = trace w ++ tr
       /\ forallb not_staging_call (calls_of tr) = true.
Proof.
  induction branches as [|b rest IH]; intros bc w r w' Hbc H.
  - inversion H; subst.
    split; [intros bc' Hr; inversion Hr; subst; assumption|].
    exists []. now rewrite app_nil_r.
  - cbn [import_branches] in H. unfold bind in H.
    destruct (import_branch handle package_content ctx b bc w)
      as [[bc1|x] w1] eqn:Hb.
    + destruct (import_branch_emits_no_staging _ _ _ _ Hbc _ _ _ Hb)
        as (t1 & Ht1 & Hs1).
      assert (Hbc1 : dict.nonempty bc1 = true).
      { destruct (import_branch_dict _ _ _ _ _ _ _ _ Hb) as [->|[h ->]];
          [exact Hbc | apply dict_set_nonempty]. }
      destruct (IH _ _ _ _ Hbc1 H) as (Hne & t2 & Ht2 & Hs2).
      split; [exact Hne|]. exists (t1 ++ t2).
      split; [rewrite Ht2, Ht1; now rewrite app_assoc|].
      now rewrite calls_of_app, forallb_app, Hs1, Hs2.
    + inversion H; subst. split; [discriminate|].
      exact (import_branch_emits_no_staging _ _ _ _ Hbc _ _ _ Hb).
Qed.

(** X14. The checkout of a branch is outside the two [try] blocks of the
    loop: when it raises, [import_package] raises the same exception at
    once - the branch is not skipped, and no later branch is processed. *)
Theorem import_package_checkout_failure_is_fatal
    opts namespace package_content pre b post w ctx w0 bc1 w1 x e2 :
  import_setup handle opts namespace (pre ++ b :: post) package_content w
  = (Ok ctx, w0) ->
  import_branches handle package_content ctx pre [] w0 = (Ok bc1, w1) ->
  handle (RpkgSwitchBranch b) (env w1) = (Exc x, e2) ->
  import_package handle opts namespace (pre ++ b :: post) package_content w
  = (Raise x,
     MkWorld e2 (trace w1 ++ [EvLog LDebug "checkout '{0}' branch" [VStr b];
                              EvCall (RpkgSwitchBranch b) (Exc x)])).
Proof.
  intros Hsetup Hpre Hsw.
  unfold import_package. rewrite (bind_ok _ _ _ _ _ Hsetup).
  rewrite (bind_cong _ _ _ _ (import_branches_app handle _ _ _ _ _)), bind_bind.
  rewrite (bind_ok _ _ _ _ _ Hpre).
  cbn [import_branches]. rewrite bind_bind.
  apply bind_raise.
  unfold import_branch. rewrite bind_log.
  destruct w1 as [e1 tr1]. cbn [env trace] in *.
  rewrite (bind_call_exc handle _ _ _ _ _ _ Hsw). now rewrite <- app_assoc.
Qed.

(** C5 (code defect). In the branch loop of [import_package], while
    [branch_commits] is empty the turn of a branch copies the spec file
    and each extra path into the working copy, plain files by
    [shutil.copy] and anything else by [shutil.copytree] - but every
    [shutil.copytree] call is given the working copy itself as
    destination: the directory that [tempfile.mkdtemp] made earlier in the
    call and that nothing has removed since.  [shutil.copytree] creates
    its destination and raises when it exists.  When that call raises, it
    is the last call of the turn: before it there are the checkout, the
    copy of the spec file, and file tests and copies of extra paths, none
    of which raised; nothing is added to the index, nothing is uploaded,
    committed or pushed; the exception is logged, the turn ends, and
    [branch_commits] is still empty, so that the next branch is seeded the
    same way.  A directory among the extra content is never copied and
    staged. *)
Theorem import_branch_directory_never_staged
    package_content ctx branch w r w' :
  import_branch handle package_content ctx branch [] w = (r, w') ->
  (forall opts namespace branches w_init w0,
     import_setup handle opts namespace branches package_content w_init
     = (Ok ctx, w0) ->
     exists t1 t2,
       trace w0
       = trace w_init ++ t1 ++ EvCall Mkdtemp (Ret (ctx_repo_dir ctx)) :: t2
       /\ forall d a, EvCall (ShutilRmtree d) a ∉ t2)
  /\ exists delta,
    trace w' = trace w ++ delta
    /\ (forall src dst a,
          EvCall (ShutilCopytree src dst) a ∈ delta -> dst = ctx_repo_dir ctx)
    /\ (forall src dst x,
          EvCall (ShutilCopytree src dst) (Exc x) ∈ delta ->
          r = Ok []
          /\ exists v0 v1 copies path v,
               delta
               = [EvLog LDebug "checkout '{0}' branch" [VStr branch];
                  EvCall (RpkgSwitchBranch branch) (Ret v0);
                  EvLog LDebug "add package content" [];
                  EvCall (ShutilCopy (VStr (spec_path package_content))
                            (ctx_repo_dir ctx)) (Ret v1)]
                 ++ copies
                 ++ [EvCall (OsPathIsfile path) (Ret v);
                     EvCall (ShutilCopytree (VStr path) (ctx_repo_dir ctx))
                       (Exc x);
                     EvLog LException
                       "Error during source uploading, merge, or commit." []]
               /\ src = VStr path
               /\ path ∈ extra_content package_content
               /\ truthy v = false
               /\ (forall o y, EvCall o (Exc y) ∉ copies)
               /\ Forall (fun o => exists p,
                            p ∈ extra_content package_content /\
                            (o = OsPathIsfile p
                             \/ o = ShutilCopy (VStr p) (ctx_repo_dir ctx)
                             \/ o = ShutilCopytree (VStr p) (ctx_repo_dir ctx)))
                    (calls_of copies)).
Proof.
  intros H. split.
  - intros opts namespace branches w_init w0 Hsetup.
    destruct (import_setup_ok _ _ _ _ _ _ _ Hsetup)
      as (v & name & envr & t1 & t2 & _ & _ & _ & _ & _ & Htr & _ & Ht2).
    exists (EvCall (LockAcquire 120) (Ret v) :: t1), t2.
    split; [exact Htr|].
    intros d a Hin.
    pose proof (forallb_calls _ _ _ _ Ht2 Hin) as HP. discriminate HP.
  - exact (import_branch_copytree_stops handle package_content ctx branch
             w r w' H).
Qed.

End MoreProperties.

(** * The destination of an upload *)

Lemma string_app_cons c (r f : string) :
  String.append (String c r) f = String c (String.append r f).
Proof. reflexivity. Qed.

Lemma rsplit_app_no_slash f :
  posixpath.rsplit f = None ->
  forall p,
    posixpath.rsplit (String.append p f)
    = match posixpath.rsplit p with
      | Some (h, t) => Some (h, String.append t f)
      | None => None
      end.
Proof.
  intros Hf p. induction p as [|c r IH].
  - exact Hf.
  - rewrite string_app_cons. cbn [posixpath.rsplit]. rewrite IH.
    destruct (posixpath.rsplit r) as [[h t]|]; [reflexivity|].
    now destruct (posixpath.is_slash c).
Qed.

Lemma rsplit_endswith_slash p :
  posixpath.endswith_slash p = true -> posixpath.rsplit p = Some (p, EmptyString).
Proof.
  induction p as [|c r IH]; [discriminate|].
  destruct r as [|c' r'].
  - cbn. intros ->. reflexivity.
  - intros H. change (posixpath.endswith_slash (String c' r') = true) in H.
    cbn [posixpath.rsplit] in *. now rewrite (IH H).
Qed.

Lemma endswith_slash_app_slash p :
  posixpath.endswith_slash (String.append p "/") = true.
Proof.
  induction p as [|c r IH]; [reflexivity|].
  rewrite string_app_cons.
  destruct r as [|c' r']; [reflexivity|].
  rewrite string_app_cons in *. exact IH.
Qed.

Lemma basename_no_slash p : posixpath.rsplit (posixpath.basename p) = None.
Proof.
  unfold posixpath.basename.
  destruct (posixpath.rsplit p) as [[h t]|] eqn:Hp.
  - exact (rsplit_tail_no_slash _ _ _ Hp).
  - exact Hp.
Qed.

Lemma basename_join2 p f :
  posixpath.rsplit f = None ->
  posixpath.basename (posixpath.join2 p f) = f.
Proof.
  intros Hf. unfold posixpath.join2.
  rewrite (no_slash_not_absolute _ Hf).
  unfold posixpath.basename.
  destruct (String.eqb_spec p "") as [->|Hp]; cbn [orb].
  - change (String.append "" f) with f. now rewrite Hf.
  - destruct (posixpath.endswith_slash p) eqn:Hend.
    + rewrite (rsplit_app_no_slash _ Hf), (rsplit_endswith_slash _ Hend).
      reflexivity.
    + rewrite <- string_app_assoc.
      rewrite (rsplit_app_no_slash _ Hf),
        (rsplit_endswith_slash _ (endswith_slash_app_slash p)).
      reflexivity.
Qed.

(** X15. The stored copy keeps the name of the source file: the base name
    of the destination [my_upload] computes is the base name of the
    uploaded file, whatever the lookaside root, the repository name and the
    hash are. *)
Theorem lookaside_destination_basename opts reponame abs_filename filehash :
  posixpath.basename
    (lookaside_destination opts reponame abs_filename filehash)
  = posixpath.basename abs_filename.
Proof.
  unfold lookaside_destination, posixpath.join. cbn [fold_left].
  apply basename_join2, basename_no_slash.
Qed.

(** * Further runs on concrete input *)

Lemma import_package_lock_timeout_witness :
  import_package (scripted lock_busy) demo_opts "user1" demo_branches
    demo_content (start [])
  = (Raise (PackageImportException
              (VStr "import_package: lock could not be acquired.")),
     MkWorld [LockAcquire 120] [EvCall (LockAcquire 120) (Ret (VBool false))]).
Proof.
  exact (proj1 (import_package_lock_timeout (scripted lock_busy) demo_opts
                  "user1" demo_branches demo_content (start [])
                  (VBool false) [LockAcquire 120] eq_refl eq_refl)).
Defined.

Lemma import_package_provisioning_failure_witness :
  import_package (scripted provisioning_broken) demo_opts "user1" demo_branches
    demo_content (start [])
  = (Raise (PackageImportException (VStr "fatal: cannot create repository")),
     broken_w3)
  /\ Mkdtemp ∉ calls_of (trace broken_w3).
Proof.
  split.
  - apply (import_package_provisioning_failure (scripted provisioning_broken)
             demo_opts "user1" demo_branches demo_content (start [])
             (VBool true) [LockAcquire 120] "foo" "1.0-1"
             [LockAcquire 120; GetPkgInfo "/tmp/in/foo.spec"]);
      vm_compute; reflexivity.
  - vm_compute. repeat (apply not_elem_of_cons; split; [discriminate|]).
    apply not_elem_of_nil.
Defined.

Lemma setup_git_repo_call_order_witness :
  exists delta,
    trace provisioned_w1 = [] ++ delta
    /\ calls_of delta `prefix_of` provisioning_calls "user1/foo" demo_branches
    /\ (Ok tt = Ok tt ->
        calls_of delta = provisioning_calls "user1/foo" demo_branches).
Proof.
  apply (setup_git_repo_call_order (scripted dist_git_host) "user1/foo"
           demo_branches (start []) (Ok tt) provisioned_w1).
  vm_compute; reflexivity.
Defined.

Lemma setup_git_repo_other_error_propagates_witness :
  fst (setup_git_repo (scripted provisioning_missing) "user1/foo" demo_branches
         (start []))
  = Raise (OSError "[Errno 2] No such file or directory").
Proof.
  rewrite (setup_git_repo_other_error_propagates (scripted provisioning_missing)
             "user1/foo" demo_branches (start [])
             (OSError "[Errno 2] No such file or directory")
             [setup_git_package_cmd "user1/foo"] eq_refl eq_refl).
  reflexivity.
Defined.


Lemma sync_branch_raises_what_git_raised_witness :
  exists tr o,
    trace read_tree_failed_w
    = tr ++ [EvCall o (Exc (CalledProcessError (VInt 128) VNone
                              "Command returned non-zero exit status 128."))]
    /\ is_git_call o = true.
Proof.
  destruct (sync_branch_raises_what_git_raised (scripted read_tree_fails)
              "rawhide" demo_commits "automatic import of 1.0-1" (start [])
              (CalledProcessError (VInt 128) VNone
                 "Command returned non-zero exit status 128.")
              read_tree_failed_w)
    as [(Hempty & _)|Hlast].
  - vm_compute; reflexivity.
  - discriminate.
  - exact Hlast.
Defined.

Lemma my_upload_success_restores_gid_witness :
  exists current_gid v delta,
    trace uploaded_w1 = [] ++ delta
    /\ head delta = Some (EvCall OsGetgid (Ret current_gid))
    /\ last delta = Some (EvCall (OsSetgid current_gid) (Ret v))
    /\ forall g, gid_after g delta = current_gid.
Proof.
  apply (my_upload_success_restores_gid posix.handle demo_opts
           (VStr "/tmp/tmpk3x") "user1/foo" "/tmp/in/foo-1.0.tar.gz" "d41d8cd9"
           (start demo_host) uploaded_w1).
  vm_compute; reflexivity.
Defined.

Lemma my_upload_makedirs_failure_is_logged_witness :
  fst (my_upload posix.handle demo_opts (VStr "/tmp/tmpk3x") "user1/foo"
         "/tmp/in/foo-1.0.tar.gz" "d41d8cd9" (start demo_host_blocked))
  = Raise (OSError "[Errno 2] No such file or directory").
Proof.
  rewrite (my_upload_makedirs_failure_is_logged posix.handle demo_opts
             (VStr "/tmp/tmpk3x") "user1/foo" "/tmp/in/foo-1.0.tar.gz"
             "d41d8cd9" (start demo_host_blocked)
             (VInt 0) (VInt 48) VNone (VBool false)
             (posix.set_gid 48 demo_host_blocked) "[Errno 17] File exists"
             (posix.set_gid 48 demo_host_blocked) (VBool false)
             (posix.set_gid 48 demo_host_blocked)
             (OSError "[Errno 2] No such file or directory")
             (posix.set_gid 48 demo_host_blocked));
    vm_compute; reflexivity.
Defined.

Lemma import_branch_records_commit_witness :
  import_branch (scripted nominal) demo_content demo_ctx "f40" [] nominal_w0
  = (Ok [("f40", VStr "head-of-f40")], nominal_w1).
Proof.
  refine (eq_trans
            (proj1 (import_branch_records_commit (scripted nominal) demo_content
                      demo_ctx "f40" [] nominal_w0 VNone
                      (env nominal_w0 ++ [RpkgSwitchBranch "f40"]) nominal_w3
                      VNone VNone (VStr "head-of-f40")
                      (env nominal_w3 ++ [RpkgPush; RpkgLoadCommit; RpkgCommithash])
                      _ _ _)) _);
    vm_compute; reflexivity.
Defined.

Lemma import_package_result_keys_witness :
  (forall k, k ∈ dict.keys (branch_commits nominal_result) -> k ∈ twice_branches)
  /\ NoDup (dict.keys (branch_commits nominal_result)).
Proof.
  apply (import_package_result_keys (scripted nominal) demo_opts "user1"
           twice_branches demo_content (start []) nominal_result nominal_w).
  vm_compute; reflexivity.
Defined.

Lemma import_package_success_cleans_up_witness :
  exists name envr delta v,
    pkg_info nominal_result = VInfo name envr
    /\ truthy (VStr name) = true
    /\ reponame nominal_result = String.append "user1" (String.append "/" name)
    /\ trace nominal_w = [] ++ delta
    /\ last delta = Some (EvCall LockRelease (Ret v))
    /\ lock_held (trace nominal_w) = false
    /\ leftover_tmpdirs delta = [].
Proof.
  apply (import_package_success_cleans_up (scripted nominal) demo_opts "user1"
           twice_branches demo_content (start []) nominal_result nominal_w).
  vm_compute; reflexivity.
Defined.

Lemma import_branches_checkout_order_witness :
  exists tr,
    trace nominal_loop_w = trace nominal_w1 ++ tr
    /\ checkouts tr `prefix_of` ["rawhide"; "f40"]
    /\ (forall bc',
          Ok (branch_commits nominal_result) = Ok bc' ->
          checkouts tr = ["rawhide"; "f40"]).
Proof.
  apply (import_branches_checkout_order (scripted nominal) demo_content demo_ctx
           ["rawhide"; "f40"] rejected_bc1 nominal_w1
           (Ok (branch_commits nominal_result)) nominal_loop_w).
  vm_compute; reflexivity.
Defined.

Lemma import_branches_stage_once_witness :
  exists tr,
    trace nominal_loop_w = trace nominal_w1 ++ tr
    /\ forallb not_staging_call (calls_of tr) = true.
Proof.
  apply (import_branches_stage_once (scripted nominal) demo_content demo_ctx
           ["rawhide"; "f40"] rejected_bc1 nominal_w1
           (Ok (branch_commits nominal_result)) nominal_loop_w eq_refl).
  vm_compute; reflexivity.
Defined.

Lemma import_package_checkout_failure_is_fatal_witness :
  fst (import_package (scripted f41_checkout_fails) demo_opts "user1"
         demo_branches demo_content (start []))
  = Raise (rpkgError "Unknown remote branch f41").
Proof.
  change demo_branches with (["f40"] ++ "f41" :: ["rawhide"]).
  rewrite (import_package_checkout_failure_is_fatal (scripted f41_checkout_fails)
             demo_opts "user1" demo_content ["f40"] "f41" ["rawhide"]
             (start []) demo_ctx checkout_w0 rejected_bc1 checkout_w1
             (rpkgError "Unknown remote branch f41")
             (env checkout_w1 ++ [RpkgSwitchBranch "f41"]));
    vm_compute; reflexivity.
Defined.

Lemma import_branch_directory_never_staged_witness :
  import_package (scripted patches_directory) demo_opts "user1"
    directory_branches content_with_directory (start [])
  = (Ok directory_result, directory_w)
  /\ List.filter is_publishing_call (calls_of (trace directory_w)) = []
  /\ (exists t1 t2,
        trace directory_w0 = t1 ++ EvCall Mkdtemp (Ret (VStr "/tmp/tmpk3x")) :: t2
        /\ forall d a, EvCall (ShutilRmtree d) a ∉ t2)
  /\ import_branch (scripted patches_directory) content_with_directory
       demo_ctx "f40" [] directory_w0
     = (Ok [], directory_w1)
  /\ trace directory_w1
     = trace directory_w0 ++
       [EvLog LDebug "checkout '{0}' branch" [VStr "f40"];
        EvCall (RpkgSwitchBranch "f40") (Ret VNone);
        EvLog LDebug "add package content" [];
        EvCall (ShutilCopy (VStr "/tmp/in/foo.spec") (VStr "/tmp/tmpk3x"))
          (Ret VNone);
        EvCall (OsPathIsfile "/tmp/in/fix.patch") (Ret (VBool true));
        EvCall (ShutilCopy (VStr "/tmp/in/fix.patch") (VStr "/tmp/tmpk3x"))
          (Ret VNone);
        EvCall (OsPathIsfile "/tmp/in/patches") (Ret (VBool false));
        EvCall (ShutilCopytree (VStr "/tmp/in/patches") (VStr "/tmp/tmpk3x"))
          (Exc (OSError "[Errno 17] File exists: '/tmp/tmpk3x'"));
        EvLog LException "Error during source uploading, merge, or commit." []]
  /\ exists copies,
       trace directory_w1
       = trace directory_w0 ++
         [EvLog LDebug "checkout '{0}' branch" [VStr "f40"];
          EvCall (RpkgSwitchBranch "f40") (Ret VNone);
          EvLog LDebug "add package content" [];
          EvCall (ShutilCopy (VStr "/tmp/in/foo.spec") (VStr "/tmp/tmpk3x"))
            (Ret VNone)]
         ++ copies
         ++ [EvCall (OsPathIsfile "/tmp/in/patches") (Ret (VBool false));
             EvCall (ShutilCopytree (VStr "/tmp/in/patches") (VStr "/tmp/tmpk3x"))
               (Exc (OSError "[Errno 17] File exists: '/tmp/tmpk3x'"));
             EvLog LException
               "Error during source uploading, merge, or commit." []]
       /\ forall o y, EvCall o (Exc y) ∉ copies.
Proof.
  assert (Hturn :
    import_branch (scripted patches_directory) content_with_directory
      demo_ctx "f40" [] directory_w0
    = (Ok [], directory_w1)) by (vm_compute; reflexivity).
  assert (Htrace :
    trace directory_w1
    = trace directory_w0 ++
      [EvLog LDebug "checkout '{0}' branch" [VStr "f40"];
       EvCall (RpkgSwitchBranch "f40") (Ret VNone);
       EvLog LDebug "add package content" [];
       EvCall (ShutilCopy (VStr "/tmp/in/foo.spec") (VStr "/tmp/tmpk3x"))
         (Ret VNone);
       EvCall (OsPathIsfile "/tmp/in/fix.patch") (Ret (VBool true));
       EvCall (ShutilCopy (VStr "/tmp/in/fix.patch") (VStr "/tmp/tmpk3x"))
         (Ret VNone);
       EvCall (OsPathIsfile "/tmp/in/patches") (Ret (VBool false));
       EvCall (ShutilCopytree (VStr "/tmp/in/patches") (VStr "/tmp/tmpk3x"))
         (Exc (OSError "[Errno 17] File exists: '/tmp/tmpk3x'"));
       EvLog LException "Error during source uploading, merge, or commit." []])
    by (vm_compute; reflexivity).
  split; [vm_compute; reflexivity|]. split; [vm_compute; reflexivity|].
  destruct (import_branch_directory_never_staged (scripted patches_directory)
              content_with_directory demo_ctx "f40" directory_w0 (Ok [])
              directory_w1 Hturn) as (Hmade & delta & Hdelta & _ & Hfail).
  split.
  { destruct (Hmade demo_opts "user1" directory_branches (start []) directory_w0)
      as (t1 & t2 & Ht & Hkept); [vm_compute; reflexivity|].
    exists t1, t2. split; [exact Ht | exact Hkept]. }
  split; [exact Hturn|]. split; [exact Htrace|].
  rewrite Htrace in Hdelta. apply app_inv_head in Hdelta. subst delta.
  destruct (Hfail (VStr "/tmp/in/patches") (VStr "/tmp/tmpk3x")
              (OSError "[Errno 17] File exists: '/tmp/tmpk3x'"))
    as (_ & v0 & v1 & copies & path & v & Heq & Hsrc & _ & _ & Hnone & _).
  { do 7 apply list_elem_of_further. apply list_elem_of_here. }
  injection Hsrc as <-. cbn [app] in Heq.
  injection Heq as Hv0 Hv1 Hrest. subst v0 v1.
  apply (app_inj_2
           [EvCall (OsPathIsfile "/tmp/in/fix.patch") (Ret (VBool true));
            EvCall (ShutilCopy (VStr "/tmp/in/fix.patch") (VStr "/tmp/tmpk3x"))
              (Ret VNone)]
           copies
           [EvCall (OsPathIsfile "/tmp/in/patches") (Ret (VBool false));
            EvCall (ShutilCopytree (VStr "/tmp/in/patches") (VStr "/tmp/tmpk3x"))
              (Exc (OSError "[Errno 17] File exists: '/tmp/tmpk3x'"));
            EvLog LException "Error during source uploading, merge, or commit." []]
           [EvCall (OsPathIsfile "/tmp/in/patches") (Ret v);
            EvCall (ShutilCopytree (VStr "/tmp/in/patches") (VStr "/tmp/tmpk3x"))
              (Exc (OSError "[Errno 17] File exists: '/tmp/tmpk3x'"));
            EvLog LException "Error during source uploading, merge, or commit." []]
           eq_refl) in Hrest as [<- Htail].
  injection Htail as <-.
  exists [EvCall (OsPathIsfile "/tmp/in/fix.patch") (Ret (VBool true));
          EvCall (ShutilCopy (VStr "/tmp/in/fix.patch") (VStr "/tmp/tmpk3x"))
            (Ret VNone)].
  split; [exact Htrace | exact Hnone].
Defined.
